(** * claude-bridge: an OpenAI-compatible front end for Claude back ends

    A shallow embedding of the two server variants of the repository:

    - [Direct]: [server.js], which forwards to the Anthropic Messages API
      (message conversion, non-streaming assembly, SSE relay);
    - [Cli]: the process variant (the second [server.js] of the repository),
      which spawns the Claude CLI (concurrency limiter, line-oriented stream
      relay, token estimate).

    JavaScript strings are modelled as [string]; numbers that the code only
    counts with (token counts, the process counter, exit codes) as [Z].
    Library functions whose text is not part of the repository
    ([JSON.parse], [JSON.stringify], [crypto.randomBytes], the regular
    expression engine) are fields of the class [Runtime]. *)

From Stdlib Require Import String Ascii List ZArith QArith Lia Bool DecimalString.
Import ListNotations.
Local Open Scope string_scope.
Set Warnings "-register-all".

(* ------------------------------------------------------------------------- *)
(** ** JavaScript string and array primitives used by both variants          *)
(* ------------------------------------------------------------------------- *)

Module JSString.

(** [!!s] for a string: only the empty string is falsy. *)
Definition truthy (s : string) : bool := negb (s =? "").

(** [!!x] for an optional string ([undefined] is falsy). *)
Definition truthy_opt (o : option string) : bool :=
  match o with Some s => truthy s | None => false end.

(** [x || d] on an optional string. *)
Definition or_else (o : option string) (d : string) : string :=
  match o with
  | Some s => if truthy s then s else d
  | None => d
  end.

(** [x === 'lit'] where [x] may be [undefined]. *)
Definition is_lit (o : option string) (lit : string) : bool :=
  match o with Some s => s =? lit | None => false end.

Definition newline : ascii := "010"%char.
Definition nl : string := String newline "".

(** [s.split('\n')]: never empty, one more piece than there are newlines. *)
Fixpoint split_nl (s : string) : list string :=
  match s with
  | EmptyString => [""]
  | String c rest =>
      if Ascii.eqb c newline then "" :: split_nl rest
      else match split_nl rest with
           | [] => [String c ""]
           | piece :: pieces => String c piece :: pieces
           end
  end.

(** [arr.join(sep)]. *)
Definition join (sep : string) (l : list string) : string := String.concat sep l.

(** [s.startsWith(p)]. *)
Definition startsWith (p s : string) : bool := String.prefix p s.

(** [s.includes(sub)]. *)
Fixpoint includes (sub s : string) : bool :=
  String.prefix sub s ||
  match s with
  | EmptyString => false
  | String _ rest => includes sub rest
  end.

(** [s.slice(n)] for [0 <= n]. *)
Fixpoint slice_from (n : nat) (s : string) : string :=
  match n, s with
  | O, _ => s
  | S _, EmptyString => ""
  | S k, String _ rest => slice_from k rest
  end.

(** [s.substring(0, n)]. *)
Definition take (n : nat) (s : string) : string := String.substring 0 n s.

(** White space removed by [trim], restricted to the ASCII range. *)
Definition is_space (c : ascii) : bool :=
  let n := nat_of_ascii c in
  (Nat.eqb n 32 || (Nat.leb 9 n && Nat.leb n 13))%bool.

Fixpoint trim_start (s : string) : string :=
  match s with
  | EmptyString => ""
  | String c rest => if is_space c then trim_start rest else s
  end.

(** Drops trailing white space: a suffix is kept from its last
    non-space character backwards. *)
Fixpoint trim_end (s : string) : string :=
  match s with
  | EmptyString => ""
  | String c rest =>
      match trim_end rest with
      | EmptyString => if is_space c then "" else String c ""
      | kept => String c kept
      end
  end.

Definition trim (s : string) : string := trim_end (trim_start s).

(** [s.length] as a number. *)
Definition len (s : string) : Z := Z.of_nat (String.length s).

End JSString.

(* ------------------------------------------------------------------------- *)
(** ** JSON values and the runtime                                           *)
(* ------------------------------------------------------------------------- *)

(** Values produced by [JSON.parse]; numbers are kept integral. *)
Inductive JSON : Type :=
| JNull
| JBool (b : bool)
| JNum (n : Z)
| JStr (s : string)
| JArr (items : list JSON)
| JObj (fields : list (string * JSON)).

(** The literal [{}]. *)
Definition empty_object : JSON := JObj [].

(** [!!v] for a JSON value. *)
Definition json_truthy (v : JSON) : bool :=
  match v with
  | JNull => false
  | JBool b => b
  | JNum n => negb (n =? 0)%Z
  | JStr s => JSString.truthy s
  | JArr _ | JObj _ => true
  end.

(* ------------------------------------------------------------------------- *)
(** ** Wire types                                                            *)
(* ------------------------------------------------------------------------- *)

(** The OpenAI-shaped request as both servers read it. A field that may be
    missing is an [option] ([None] is [undefined]). *)
Module OpenAI.

(** One element of an array-valued [content]. *)
Inductive Part : Type :=
| PText (text : string)                 (* { type: 'text', text } *)
| PImageUrl (url : option string)       (* { type: 'image_url', image_url?: { url } } *)
| POther (type : string).               (* any other [type] *)

(** [msg.content]: a string, an array of parts, or [null]/[undefined]. *)
Inductive Content : Type :=
| CStr (s : string)
| CParts (parts : list Part)
| CNull.

Record ToolFunction : Type := {
  fn_name : option string;
  fn_arguments : option JSON
}.

Record ToolCall : Type := {
  tc_id : option string;
  tc_function : option ToolFunction
}.

Record Message : Type := {
  role : string;
  content : Content;
  tool_calls : option (list ToolCall);
  tool_call_id : option string;
  name : option string
}.

End OpenAI.

(** What the Anthropic Messages API sends back ([server.js]). *)
Module Anthropic.

(** An element of [result.content]. *)
Record RBlock : Type := {
  rb_type : option string;
  rb_text : option string;
  rb_id : option string;
  rb_name : option string;
  rb_input : option JSON
}.

Record Usage : Type := {
  input_tokens : option Z;
  output_tokens : option Z
}.

Record Result : Type := {
  r_content : option (list RBlock);
  r_stop_reason : option string;
  r_usage : option Usage
}.

(** [event.delta] of a streamed event. *)
Record EventDelta : Type := {
  d_type : option string;
  d_text : option string;
  d_partial_json : option string;
  d_stop_reason : option string
}.

(** [event.content_block] of a streamed event. *)
Record EventBlock : Type := {
  cb_type : option string;
  cb_id : option string;
  cb_name : option string
}.

Record Event : Type := {
  e_type : option string;
  e_delta : option EventDelta;
  e_content_block : option EventBlock
}.

End Anthropic.

(** What the Claude CLI prints (process variant). *)
Module ClaudeCli.

(** [event.event] of a [stream-json] line. *)
Record Inner : Type := {
  i_type : option string;
  i_delta_text : option string          (* [event.event.delta?.text] *)
}.

(** A [stream-json] line. *)
Record Event : Type := {
  ev_type : option string;
  ev_event : option Inner
}.

(** The single object printed with [--output-format json]. *)
Record Output : Type := {
  o_is_error : bool;
  o_result : option string;
  o_usage : option Anthropic.Usage
}.

End ClaudeCli.

(** Everything the servers take from Node.js and its libraries. *)
Class Runtime : Type := {
  (** [JSON.parse] on text expected to hold any JSON value;
      [None] stands for the [SyntaxError] it throws. *)
  JSON_parse : string -> option JSON;
  (** [JSON.stringify] on a JSON value. *)
  JSON_stringify : JSON -> string;
  (** [JSON.stringify(msg.content)] on a content that is not a string. *)
  JSON_stringify_content : OpenAI.Content -> string;
  (** [JSON.parse] on an SSE data line of the Messages API; [None] when it
      throws or yields a value on which [event.type] throws. *)
  parse_api_event : string -> option Anthropic.Event;
  (** [JSON.parse] on a line of CLI output, likewise. *)
  parse_cli_event : string -> option ClaudeCli.Event;
  (** [JSON.parse] on the whole CLI output in [json] format. *)
  parse_cli_output : string -> option ClaudeCli.Output;
  (** The [n]-th draw of [crypto.randomBytes(12).toString('base64url')]. *)
  randomBytes_base64url : nat -> string;
  (** [url.match(/^data:(image\/[^;]+);base64,(.+)$/)]: the two groups. *)
  match_data_uri : string -> option (string * string)
}.

(** [genId(prefix)]: the identifier and the advanced entropy counter. *)
Definition genId `{Runtime} (prefix : string) (rng : nat) : string * nat :=
  (prefix ++ "-" ++ randomBytes_base64url rng, S rng).

(* ------------------------------------------------------------------------- *)
(** ** The HTTP response object and the SSE frames written to it             *)
(* ------------------------------------------------------------------------- *)

Module Http.

(** The [delta] of a [chat.completion.chunk]. *)
Inductive Delta : Type :=
| DRole                                   (* { role: 'assistant', content: '' } *)
| DContent (text : string)                (* { content: text } *)
| DToolStart (index : Z) (id : string) (name : option string)
                                          (* tool_calls: [{ index, id, type, function: { name, arguments: '' } }] *)
| DToolArgs (index : Z) (partial_json : string)
                                          (* tool_calls: [{ index, function: { arguments } }] *)
| DEmpty.                                 (* {} *)

Record Chunk : Type := {
  c_id : string;
  c_created : Z;
  c_model : string;
  c_delta : Delta;
  c_finish_reason : option string         (* [None] is [null] *)
}.

(** The entries of the array built by [validateChatRequest]. *)
Inductive ValidationError : Type :=
| MessagesNotArray            (* messages must be a non-empty array *)
| MessagesEmpty               (* messages array must not be empty *)
| NoNonSystem                 (* at least one non-system message is required *)
| RoleRequired (i : nat)      (* messages[i].role is required and must be a string *)
| ContentRequired (i : nat)   (* messages[i].content is required *)
| BadMaxTokens                (* max_tokens must be a positive number *)
| BadTemperature              (* temperature must be a number between 0 and 2 *)
| BadTopP.                    (* top_p must be a number between 0 and 1 *)

(** Messages of errors, kept structured instead of interpolated. *)
Inductive ErrMsg : Type :=
| MsgText (s : string)
| MsgApiError (status : Z) (body500 : string)       (* Anthropic API error <status>: <body> *)
| MsgCliExit (code : option Z) (stderr_cut : string) (* Claude CLI exited with code <code>: <stderr> *)
| MsgCliTimeout (ms : Z)                            (* Claude CLI timed out after <ms>ms *)
| MsgCliError (result : string)                     (* Claude CLI error: <result> *)
| MsgSpawnFailed (s : string)                       (* Failed to spawn Claude CLI: <s> *)
| MsgTooMany (max : Z)                              (* Too many concurrent requests (max <max>) *)
| MsgJoined (errors : list ValidationError).        (* errors.join('; ') *)

(** One [data: ...\n\n] frame of an event stream. *)
Inductive Frame : Type :=
| FChunk (c : Chunk)
| FErrorEvent (message : ErrMsg)          (* data: { error: { message, type: 'server_error' } } *)
| FDone.                                  (* data: [DONE] *)

Record UsageOut : Type := {
  prompt_tokens : Z;
  completion_tokens : Z;
  total_tokens : Z
}.

Record ToolCallOut : Type := {
  tco_id : string;
  tco_name : option string;
  tco_arguments : string
}.

(** A body sent with [res.json]. *)
Inductive Body : Type :=
| BodyError (message : ErrMsg) (type : string) (code : option string)
| BodyChat (id : string) (created : Z) (model : string)
           (content : option string) (tool_calls : option (list ToolCallOut))
           (finish_reason : string) (usage : UsageOut)
| BodyText (id : string) (created : Z) (model : string)
           (text : string) (finish_reason : string) (usage : UsageOut).

Record Res : Type := {
  statusCode : Z;
  headersSent : bool;
  frames : list Frame;
  body : option Body;
  ended : bool
}.

Definition fresh : Res :=
  {| statusCode := 200; headersSent := false; frames := []; body := None; ended := false |}.

(** [res.write(frame)]: what is written after the end never reaches the
    client. *)
Definition write (f : Frame) (r : Res) : Res :=
  if ended r then r
  else {| statusCode := statusCode r; headersSent := true;
          frames := frames r ++ [f]; body := body r; ended := false |}.

(** [res.end()]. *)
Definition end_ (r : Res) : Res :=
  {| statusCode := statusCode r; headersSent := true;
     frames := frames r; body := body r; ended := true |}.

(** [res.status(code).json(b)] (and [res.json(b)] with the status kept). *)
Definition status_json (code : Z) (b : Body) (r : Res) : Res :=
  {| statusCode := code; headersSent := true;
     frames := frames r; body := Some b; ended := true |}.

Definition json (b : Body) (r : Res) : Res := status_json (statusCode r) b r.

(** [sendSSE(res, data)]: a failing write is swallowed. *)
Definition sendSSE (f : Frame) (r : Res) : Res := write f r.

End Http.

(* ------------------------------------------------------------------------- *)
(** ** [server.js]: the direct-call variant                                  *)
(* ------------------------------------------------------------------------- *)

Module Direct.
Import OpenAI Anthropic Http.

(** *** Configuration *)

Record Config : Type := {
  DEFAULT_MODEL : string;
  AUTH_TOKEN : string
}.

Definition MODEL_ALIASES (cfg : Config) : list (string * string) :=
  [ ("gpt-4", DEFAULT_MODEL cfg);
    ("gpt-4o", DEFAULT_MODEL cfg);
    ("gpt-4-turbo", DEFAULT_MODEL cfg);
    ("gpt-3.5-turbo", "claude-haiku-4-5");
    ("sonnet", "claude-sonnet-4-5-20250929");
    ("opus", "claude-opus-4-6");
    ("opus4.5", "claude-opus-4-5-20251101");
    ("opus4", "claude-opus-4-20250514");
    ("haiku", "claude-haiku-4-5") ].

Fixpoint alias_lookup (k : string) (table : list (string * string)) : option string :=
  match table with
  | [] => None
  | (k', v) :: rest => if k =? k' then Some v else alias_lookup k rest
  end.

Definition resolveModel (cfg : Config) (model : option string) : string :=
  match model with
  | None => DEFAULT_MODEL cfg
  | Some m =>
      if JSString.truthy m
      then JSString.or_else (alias_lookup m (MODEL_ALIASES cfg)) m
      else DEFAULT_MODEL cfg
  end.

Definition isOAuthToken (token : string) : bool :=
  JSString.truthy token && JSString.includes "sk-ant-oat" token.

(** *** The native request *)

(** A content block of the Messages API. *)
Inductive Block : Type :=
| BText (text : string)
| BImageBase64 (media_type data : string)
| BImageUrl (url : string)
| BToolUse (id : string) (name : option string) (input : JSON)
| BToolResult (tool_use_id : string) (content : string).

(** [content] of a native message: a string or an array of blocks. *)
Inductive NContent : Type :=
| NStr (s : string)
| NArr (blocks : list Block).

Record NativeMsg : Type := {
  n_role : string;
  n_content : NContent
}.

Record SystemBlock : Type := {
  sys_text : string;
  sys_cache_control : bool      (* cache_control: { type: 'ephemeral' } *)
}.

Record NativeRequest : Type := {
  system : option (list SystemBlock);
  messages : list NativeMsg
}.

(** *** extractText, convertContent *)

Fixpoint text_parts (parts : list Part) : list string :=
  match parts with
  | [] => []
  | PText t :: rest => t :: text_parts rest
  | _ :: rest => text_parts rest
  end.

Definition extractText (c : Content) : string :=
  match c with
  | CStr s => s
  | CParts parts => JSString.join JSString.nl (text_parts parts)
  | CNull => ""
  end.

(** The loop of [convertContent] over the parts of an array. *)
Fixpoint convertParts `{Runtime} (parts : list Part) : list Block :=
  match parts with
  | [] => []
  | PText t :: rest => BText t :: convertParts rest
  | PImageUrl url :: rest =>
      if JSString.truthy_opt url then
        let u := JSString.or_else url "" in
        if JSString.startsWith "data:" u then
          match match_data_uri u with
          | Some (media, data) => BImageBase64 media data :: convertParts rest
          | None => convertParts rest
          end
        else BImageUrl u :: convertParts rest
      else convertParts rest
  | POther _ :: rest => convertParts rest
  end.

Definition convertContent `{Runtime} (c : Content) : NContent :=
  match c with
  | CStr s => NStr s
  | CNull => NStr ""                       (* String(content || '') *)
  | CParts parts =>
      match convertParts parts with
      | [BText t] => NStr t
      | blocks => NArr blocks
      end
  end.

(** *** pushMessage *)

(** A string content seen as the block list it is turned into on a merge. *)
Definition blocks_of (c : NContent) : list Block :=
  match c with
  | NStr s => [BText s]
  | NArr blocks => blocks
  end.

(** [arr[arr.length - 1]], when there is one. *)
Definition last_msg (arr : list NativeMsg) : option NativeMsg :=
  match rev arr with
  | [] => None
  | m :: _ => Some m
  end.

(** Merge consecutive same-role messages; the array is updated in place,
    here the updated array is returned. *)
Definition pushMessage (arr : list NativeMsg) (role : string) (content : NContent)
  : list NativeMsg :=
  match last_msg arr with
  | Some last =>
      if n_role last =? role
      then removelast arr ++
           [ {| n_role := n_role last;
                n_content := NArr (blocks_of (n_content last) ++ blocks_of content) |} ]
      else arr ++ [ {| n_role := role; n_content := content |} ]
  | None => arr ++ [ {| n_role := role; n_content := content |} ]
  end.

(** *** convertMessages *)

(** [args] of one tool call. *)
Definition parseArguments `{Runtime} (arguments : option JSON) : JSON :=
  match arguments with
  | Some (JStr s) =>
      match JSON_parse s with            (* try { JSON.parse } catch { {} } *)
      | Some v => v
      | None => empty_object
      end
  | Some (JNull as v) | Some (JArr _ as v) | Some (JObj _ as v) => v   (* typeof === 'object' *)
  | Some (JBool _) | Some (JNum _) | None => empty_object
  end.

(** One iteration of the loop over [msg.tool_calls]. *)
Definition convertToolCall `{Runtime} (tc : ToolCall) (rng : nat) : Block * nat :=
  let fn := match tc_function tc with
            | Some f => f
            | None => {| fn_name := None; fn_arguments := None |}
            end in
  let args := parseArguments (fn_arguments fn) in
  let '(id, rng') :=
    if JSString.truthy_opt (tc_id tc)
    then (JSString.or_else (tc_id tc) "", rng)
    else genId "toolu" rng in
  (BToolUse id (fn_name fn) args, rng').

Fixpoint convertToolCalls `{Runtime} (tcs : list ToolCall) (rng : nat) : list Block * nat :=
  match tcs with
  | [] => ([], rng)
  | tc :: rest =>
      let '(b, rng1) := convertToolCall tc rng in
      let '(bs, rng2) := convertToolCalls rest rng1 in
      (b :: bs, rng2)
  end.

(** [!!msg.content]. *)
Definition content_truthy (c : Content) : bool :=
  match c with
  | CStr s => JSString.truthy s
  | CParts _ => true
  | CNull => false
  end.

(** The text block that opens the blocks of an assistant message with tool
    calls, if any. *)
Definition leadingText (c : Content) : list Block :=
  if content_truthy c then
    let text := extractText c in
    if JSString.truthy text then [BText text] else []
  else [].

(** [msg.tool_calls && msg.tool_calls.length > 0] *)
Definition has_tool_calls (msg : Message) : bool :=
  match tool_calls msg with
  | Some (_ :: _) => true
  | _ => false
  end.

(** The variables of the loop of [convertMessages]. *)
Record ConvState : Type := {
  systemParts : list string;
  anthropicMessages : list NativeMsg;
  entropy : nat
}.

(** One iteration of [for (const msg of messages)]. *)
Definition convertStep `{Runtime} (st : ConvState) (msg : Message) : ConvState :=
  if role msg =? "system" then
    let text := extractText (content msg) in
    {| systemParts := if JSString.truthy text then systemParts st ++ [text] else systemParts st;
       anthropicMessages := anthropicMessages st;
       entropy := entropy st |}
  else if (role msg =? "assistant") && has_tool_calls msg then
    let '(uses, rng') :=
      convertToolCalls (match tool_calls msg with Some l => l | None => [] end) (entropy st) in
    {| systemParts := systemParts st;
       anthropicMessages :=
         pushMessage (anthropicMessages st) "assistant"
                     (NArr (leadingText (content msg) ++ uses));
       entropy := rng' |}
  else if role msg =? "tool" then
    let resultContent := match content msg with
                         | CStr s => s
                         | c => JSON_stringify_content c
                         end in
    {| systemParts := systemParts st;
       anthropicMessages :=
         pushMessage (anthropicMessages st) "user"
                     (NArr [BToolResult (JSString.or_else (tool_call_id msg) "") resultContent]);
       entropy := entropy st |}
  else
    let r := if role msg =? "assistant" then "assistant" else "user" in
    {| systemParts := systemParts st;
       anthropicMessages := pushMessage (anthropicMessages st) r (convertContent (content msg));
       entropy := entropy st |}.

Definition convertLoop `{Runtime} (msgs : list Message) (rng : nat) : ConvState :=
  fold_left convertStep msgs
            {| systemParts := []; anthropicMessages := []; entropy := rng |}.

(** The placeholder put in front of a list that opens with the assistant. *)
Definition continue_msg : NativeMsg := {| n_role := "user"; n_content := NStr "(continue)" |}.

(** Ensure first message is from user. *)
Definition ensureUserFirst (arr : list NativeMsg) : list NativeMsg :=
  match arr with
  | first :: _ => if negb (n_role first =? "user") then continue_msg :: arr else arr
  | [] => arr
  end.

Definition identity_text : string := "You are Claude Code, Anthropic's official CLI for Claude.".

Definition para : string := JSString.nl ++ JSString.nl.

Definition systemPrompt (cfg : Config) (parts : list string) : option (list SystemBlock) :=
  if isOAuthToken (AUTH_TOKEN cfg) then
    let ps := match parts with
              | [] => [identity_text]
              | _ => [identity_text; JSString.join para parts]
              end in
    Some [ {| sys_text := JSString.join para ps; sys_cache_control := true |} ]
  else
    match parts with
    | [] => None
    | _ => Some [ {| sys_text := JSString.join para parts; sys_cache_control := false |} ]
    end.

(** [convertMessages(messages)], with the entropy left for later draws. *)
Definition convertMessages `{Runtime} (cfg : Config) (msgs : list Message) (rng : nat)
  : NativeRequest * nat :=
  let st := convertLoop msgs rng in
  ({| system := systemPrompt cfg (systemParts st);
      messages := ensureUserFirst (anthropicMessages st) |},
   entropy st).

(** *** Stop reasons *)

(** [mapStopReason(reason)]; [None] is an absent ([undefined]/[null]) reason. *)
Definition mapStopReason (reason : option string) : string :=
  if JSString.is_lit reason "end_turn" || JSString.is_lit reason "stop_sequence" then "stop"
  else if JSString.is_lit reason "max_tokens" then "length"
  else if JSString.is_lit reason "tool_use" then "tool_calls"
  else "stop".

(** [reason === 'tool_use' ? 'tool_calls' : mapStopReason(reason)], as both
    handlers compute the finish reason. *)
Definition finishReasonOf (reason : option string) : string :=
  if JSString.is_lit reason "tool_use" then "tool_calls" else mapStopReason reason.

(** *** The non-streaming handler *)

(** The variables of [extractResponseContent]. *)
Record Extracted : Type := {
  textParts : list string;
  toolCalls : list ToolCallOut;
  x_entropy : nat
}.

(** One iteration of [for (const block of contentBlocks)]. *)
Definition extractStep `{Runtime} (acc : Extracted) (block : RBlock) : Extracted :=
  if JSString.is_lit (rb_type block) "text" && JSString.truthy_opt (rb_text block) then
    {| textParts := textParts acc ++ [JSString.or_else (rb_text block) ""];
       toolCalls := toolCalls acc;
       x_entropy := x_entropy acc |}
  else if JSString.is_lit (rb_type block) "tool_use" then
    let '(id, rng') :=
      if JSString.truthy_opt (rb_id block)
      then (JSString.or_else (rb_id block) "", x_entropy acc)
      else genId "call" (x_entropy acc) in
    let input := match rb_input block with
                 | Some v => if json_truthy v then v else empty_object
                 | None => empty_object
                 end in
    {| textParts := textParts acc;
       toolCalls := toolCalls acc ++
                    [ {| tco_id := id; tco_name := rb_name block;
                         tco_arguments := JSON_stringify input |} ];
       x_entropy := rng' |}
  else acc.

(** [extractResponseContent(contentBlocks)]: [{ text, toolCalls }]. *)
Definition extractResponseContent `{Runtime} (blocks : list RBlock) (rng : nat)
  : string * list ToolCallOut * nat :=
  let acc := fold_left extractStep blocks
                       {| textParts := []; toolCalls := []; x_entropy := rng |} in
  (JSString.join "" (textParts acc), toolCalls acc, x_entropy acc).

(** [n || 0] on a count that may be missing. *)
Definition or_zero (n : option Z) : Z :=
  match n with
  | Some v => if (v =? 0)%Z then 0%Z else v
  | None => 0%Z
  end.

(** [result.usage?.input_tokens], [result.usage?.output_tokens]. *)
Definition usage_input (u : option Usage) : option Z :=
  match u with Some u => input_tokens u | None => None end.

Definition usage_output (u : option Usage) : option Z :=
  match u with Some u => output_tokens u | None => None end.

(** The [usage] object of both non-streaming bodies. *)
Definition usageOf (u : option Usage) : UsageOut :=
  {| prompt_tokens := or_zero (usage_input u);
     completion_tokens := or_zero (usage_output u);
     total_tokens := (or_zero (usage_input u) + or_zero (usage_output u))%Z |}.

(** What [callAnthropic(body, false)] followed by [apiRes.json()] gives. *)
Inductive JsonReply : Type :=
| JsonFail (e : ErrMsg)
| JsonOk (result : Result).

(** What [callAnthropic(body, true)] gives: a failure before any byte, or
    the chunks read from the body, after which [reader.read()] reports the
    end ([None]) or rejects ([Some e]). *)
Inductive StreamReply : Type :=
| StreamFail (e : ErrMsg)
| StreamOk (chunks : list string) (failure : option ErrMsg).

(** A handler returns the response and the error it throws, if any. *)
Definition Handled : Type := Res * option ErrMsg.

Definition handleNonStreaming `{Runtime} (res : Res) (reply : JsonReply)
           (requestId : string) (created : Z) (model : string) (rng : nat) : Handled :=
  match reply with
  | JsonFail e => (res, Some e)
  | JsonOk result =>
      let '(text, calls, _) :=
        extractResponseContent (match r_content result with Some l => l | None => [] end) rng in
      let finishReason := finishReasonOf (r_stop_reason result) in
      let content := if JSString.truthy text then Some text else None in   (* text || null *)
      let tool_calls := match calls with [] => None | _ => Some calls end in
      (json (BodyChat requestId created model content tool_calls finishReason
                      (usageOf (r_usage result))) res,
       None)
  end.

(** *** The streaming handler *)

(** The variables of [handleStreaming]. *)
Record StreamState : Type := {
  buffer : string;
  toolCallIndex : Z;
  activeToolCalls : list (Z * (option string * option string));
  stopReason : string;
  s_entropy : nat;
  s_res : Res
}.

(** What every chunk of a request shares. *)
Record Meta : Type := {
  m_id : string;
  m_created : Z;
  m_model : string
}.

Definition chunk (m : Meta) (d : Delta) (finish : option string) : Frame :=
  FChunk {| c_id := m_id m; c_created := m_created m; c_model := m_model m;
            c_delta := d; c_finish_reason := finish |}.

Definition delta_is (e : Event) (ty : string) : bool :=
  match e_delta e with Some d => JSString.is_lit (d_type d) ty | None => false end.

(** Text content delta. *)
Definition onTextDelta (m : Meta) (e : Event) (st : StreamState) : StreamState :=
  match e_delta e with
  | Some d =>
      if JSString.is_lit (e_type e) "content_block_delta"
         && JSString.is_lit (d_type d) "text_delta"
         && JSString.truthy_opt (d_text d)
      then {| buffer := buffer st; toolCallIndex := toolCallIndex st;
              activeToolCalls := activeToolCalls st; stopReason := stopReason st;
              s_entropy := s_entropy st;
              s_res := sendSSE (chunk m (DContent (JSString.or_else (d_text d) "")) None)
                               (s_res st) |}
      else st
  | None => st
  end.

(** Tool use block starts. *)
Definition onToolStart `{Runtime} (m : Meta) (e : Event) (st : StreamState) : StreamState :=
  match e_content_block e with
  | Some block =>
      if JSString.is_lit (e_type e) "content_block_start"
         && JSString.is_lit (cb_type block) "tool_use"
      then
        let idx := (toolCallIndex st + 1)%Z in
        let '(id, rng') :=
          if JSString.truthy_opt (cb_id block)
          then (JSString.or_else (cb_id block) "", s_entropy st)
          else genId "call" (s_entropy st) in
        {| buffer := buffer st; toolCallIndex := idx;
           activeToolCalls := (idx, (cb_id block, cb_name block)) :: activeToolCalls st;
           stopReason := stopReason st;
           s_entropy := rng';
           s_res := sendSSE (chunk m (DToolStart idx id (cb_name block)) None) (s_res st) |}
      else st
  | None => st
  end.

(** Tool use input delta (JSON chunks). *)
Definition onInputDelta (m : Meta) (e : Event) (st : StreamState) : StreamState :=
  match e_delta e with
  | Some d =>
      match d_partial_json d with
      | Some partial =>
          if JSString.is_lit (e_type e) "content_block_delta"
             && JSString.is_lit (d_type d) "input_json_delta"
          then {| buffer := buffer st; toolCallIndex := toolCallIndex st;
                  activeToolCalls := activeToolCalls st; stopReason := stopReason st;
                  s_entropy := s_entropy st;
                  s_res := sendSSE (chunk m (DToolArgs (toolCallIndex st) partial) None)
                                   (s_res st) |}
          else st
      | None => st
      end
  | None => st
  end.

(** Track stop reason. *)
Definition onMessageDelta (e : Event) (st : StreamState) : StreamState :=
  match e_delta e with
  | Some d =>
      if JSString.is_lit (e_type e) "message_delta" && JSString.truthy_opt (d_stop_reason d)
      then {| buffer := buffer st; toolCallIndex := toolCallIndex st;
              activeToolCalls := activeToolCalls st;
              stopReason := JSString.or_else (d_stop_reason d) "";
              s_entropy := s_entropy st; s_res := s_res st |}
      else st
  | None => st
  end.

(** The body of [try { const event = JSON.parse(data); ... }]. *)
Definition onEvent `{Runtime} (m : Meta) (st : StreamState) (e : Event) : StreamState :=
  onMessageDelta e (onInputDelta m e (onToolStart m e (onTextDelta m e st))).

(** One iteration of [for (const line of lines)]. *)
Definition onLine `{Runtime} (m : Meta) (st : StreamState) (line : string) : StreamState :=
  if negb (JSString.startsWith "data: " line) then st
  else
    let data := JSString.trim (JSString.slice_from 6 line) in
    if negb (JSString.truthy data) || (data =? "[DONE]") then st
    else match parse_api_event data with
         | Some e => onEvent m st e
         | None => st                                   (* skip non-JSON *)
         end.

(** One iteration of [while (true)] with [done] false: a chunk was read. *)
Definition onRead `{Runtime} (m : Meta) (st : StreamState) (value : string) : StreamState :=
  let lines := JSString.split_nl (buffer st ++ value) in
  let st' := {| buffer := last lines "";                (* lines.pop() || '' *)
                toolCallIndex := toolCallIndex st;
                activeToolCalls := activeToolCalls st; stopReason := stopReason st;
                s_entropy := s_entropy st; s_res := s_res st |} in
  fold_left (onLine m) (removelast lines) st'.

(** The [finally] block. *)
Definition finishStream (m : Meta) (st : StreamState) : Res :=
  let finishReason := finishReasonOf (Some (stopReason st)) in
  end_ (write FDone (sendSSE (chunk m DEmpty (Some finishReason)) (s_res st))).

(** The variables of [handleStreaming] when the loop is entered: the four
    headers are set and the initial role chunk is sent. *)
Definition streamStart (m : Meta) (res : Res) (rng : nat) : StreamState :=
  {| buffer := ""; toolCallIndex := (-1)%Z; activeToolCalls := [];
     stopReason := "stop"; s_entropy := rng;
     s_res := sendSSE (chunk m DRole None) res |}.

Definition handleStreaming `{Runtime} (res : Res) (reply : StreamReply)
           (requestId : string) (created : Z) (model : string) (rng : nat) : Handled :=
  match reply with
  | StreamFail e => (res, Some e)
  | StreamOk chunks failure =>
      let m := {| m_id := requestId; m_created := created; m_model := model |} in
      (finishStream m (fold_left (onRead m) chunks (streamStart m res rng)), failure)
  end.

(** *** POST /v1/chat/completions *)

(** The fields of the request body that decide the response; the others only
    travel to the back end, whose replies are inputs here. *)
Record ChatRequest : Type := {
  req_messages : option (list Message);    (* [None]: missing or not an array *)
  req_stream : bool;
  req_model : option string
}.

Record Backend : Type := {
  json_reply : JsonReply;
  stream_reply : StreamReply
}.

Definition postChatCompletions `{Runtime} (cfg : Config) (req : ChatRequest)
           (backend : Backend) (now : Z) (rng : nat) : Res :=
  let '(requestId, rng1) := genId "chatcmpl" rng in
  match req_messages req with
  | None | Some [] =>
      status_json 400 (BodyError (MsgText "messages is required") "invalid_request_error" None)
                  fresh
  | Some msgs =>
      if negb (JSString.truthy (AUTH_TOKEN cfg)) then
        status_json 500 (BodyError (MsgText "No auth token configured") "server_error" None)
                    fresh
      else
        let model := resolveModel cfg (req_model req) in
        let '(_, rng2) := convertMessages cfg msgs rng1 in
        let '(res, thrown) :=
          if req_stream req
          then handleStreaming fresh (stream_reply backend) requestId now model rng2
          else handleNonStreaming fresh (json_reply backend) requestId now model rng2 in
        match thrown with
        | Some err =>
            if negb (headersSent res)
            then status_json 502 (BodyError err "server_error" None) res
            else res
        | None => res
        end
  end.

(** *** POST /v1/completions *)

Inductive Prompt : Type :=
| PromptStr (s : string)
| PromptArr (items : list string)
| PromptNone.

Definition promptText (p : Prompt) : string :=
  match p with
  | PromptStr s => s
  | PromptArr items => JSString.join JSString.nl items
  | PromptNone => ""
  end.

Fixpoint legacyText (blocks : list RBlock) : list string :=
  match blocks with
  | [] => []
  | b :: rest =>
      if JSString.is_lit (rb_type b) "text"
      then match rb_text b with Some t => t | None => "" end :: legacyText rest
      else legacyText rest
  end.

Definition postCompletions `{Runtime} (cfg : Config) (prompt : Prompt) (model : option string)
           (reply : JsonReply) (now : Z) (rng : nat) : Res :=
  let text := promptText prompt in
  if negb (JSString.truthy (JSString.trim text)) then
    status_json 400 (BodyError (MsgText "prompt required") "invalid_request_error" None) fresh
  else
    let model := resolveModel cfg model in
    let '(requestId, _) := genId "cmpl" rng in
    match reply with
    | JsonOk result =>
        json (BodyText requestId now model
                       (JSString.join "" (legacyText (match r_content result with
                                                      | Some l => l | None => [] end)))
                       "stop" (usageOf (r_usage result)))
             fresh
    | JsonFail e => status_json 502 (BodyError e "server_error" None) fresh
    end.

(** *** Models *)

Definition KNOWN_MODELS : list string :=
  [ "claude-opus-4-6"; "claude-opus-4-5-20251101"; "claude-sonnet-4-5-20250929";
    "claude-opus-4-20250514"; "claude-sonnet-4-20250514"; "claude-haiku-4-5" ].

(** [KNOWN_MODELS.find(m => m.id === id)] *)
Definition findModel (known : list string) (id : string) : option string :=
  find (fun m => m =? id) known.

(** GET /v1/models/:model_id: the status. *)
Definition getModelStatus (known : list string) (id : string) : Z :=
  match findModel known id with
  | Some _ => 200%Z
  | None => 404%Z
  end.

(** *** Tools *)

(** The fields read from a tool definition. *)
Record ToolDef : Type := {
  td_name : option string;
  td_description : option string;
  td_parameters : option JSON
}.

(** An element of [tools]: the fields of the element itself and its
    [function] field. *)
Record Tool : Type := {
  tool_function : option ToolDef;
  tool_self : ToolDef
}.

Record NativeTool : Type := {
  nt_name : option string;
  nt_description : string;
  nt_input_schema : JSON
}.

(** [{ type: 'object', properties: {} }] *)
Definition empty_schema : JSON := JObj [("type", JStr "object"); ("properties", JObj [])].

(** The function mapped over [tools]. *)
Definition convertTool (t : Tool) : NativeTool :=
  let fn := match tool_function t with Some f => f | None => tool_self t end in
  {| nt_name := td_name fn;
     nt_description := JSString.or_else (td_description fn) "";
     nt_input_schema := match td_parameters fn with
                        | Some v => if json_truthy v then v else empty_schema
                        | None => empty_schema
                        end |}.

(** [convertTools(tools)]; [None] is [undefined]. *)
Definition convertTools (tools : option (list Tool)) : option (list NativeTool) :=
  match tools with
  | None | Some [] => None
  | Some l => Some (map convertTool l)
  end.

(** [tool_choice]: absent, a string, or an object with [function?.name]. *)
Inductive ToolChoice : Type :=
| ChoiceAbsent
| ChoiceStr (s : string)
| ChoiceObj (function_name : option string).

Inductive NativeChoice : Type :=
| NativeNone                 (* { type: 'none' } *)
| NativeAuto                 (* { type: 'auto' } *)
| NativeAny                  (* { type: 'any' } *)
| NativeTool_ (name : string). (* { type: 'tool', name } *)

Definition convertToolChoice (tc : ToolChoice) : option NativeChoice :=
  match tc with
  | ChoiceAbsent => None
  | ChoiceStr s =>
      if negb (JSString.truthy s) then None
      else if s =? "none" then Some NativeNone
      else if s =? "auto" then Some NativeAuto
      else if s =? "required" then Some NativeAny
      else Some NativeAuto
  | ChoiceObj fname =>
      if JSString.truthy_opt fname
      then Some (NativeTool_ (JSString.or_else fname ""))
      else Some NativeAuto
  end.

End Direct.

(* ------------------------------------------------------------------------- *)
(** ** The process variant: requests served by spawning the Claude CLI       *)
(* ------------------------------------------------------------------------- *)

Module Cli.
Import OpenAI ClaudeCli Http.

(** *** Configuration *)

Record Config : Type := {
  DEFAULT_MODEL : string;
  CLI_TIMEOUT_MS : Z;
  MAX_CONCURRENT : Z
}.

Definition MODEL_ALIASES (cfg : Config) : list (string * string) :=
  [ ("gpt-4", DEFAULT_MODEL cfg);
    ("gpt-4o", DEFAULT_MODEL cfg);
    ("gpt-4-turbo", DEFAULT_MODEL cfg);
    ("gpt-3.5-turbo", "claude-haiku-3-5-20241022");
    ("sonnet", "claude-sonnet-4-5-20250929");
    ("opus", "claude-opus-4-6");
    ("opus4.5", "claude-opus-4-5-20251101");
    ("opus4", "claude-opus-4-20250514");
    ("haiku", "claude-haiku-3-5-20241022") ].

Definition resolveModel (cfg : Config) (model : option string) : string :=
  match model with
  | None => DEFAULT_MODEL cfg
  | Some m =>
      if JSString.truthy m
      then JSString.or_else (Direct.alias_lookup m (MODEL_ALIASES cfg)) m
      else DEFAULT_MODEL cfg
  end.

(** Known Claude models for the /v1/models endpoint. *)
Definition KNOWN_MODELS : list string :=
  [ "claude-opus-4-6"; "claude-opus-4-5-20251101"; "claude-sonnet-4-5-20250929";
    "claude-opus-4-20250514"; "claude-sonnet-4-20250514"; "claude-haiku-3-5-20241022" ].

(** *** Concurrency limiter *)

(** [acquireSlot()] on the counter [activeProcesses]: the answer and the
    counter afterwards. *)
Definition acquireSlot (cfg : Config) (activeProcesses : Z) : bool * Z :=
  if (activeProcesses >=? MAX_CONCURRENT cfg)%Z then (false, activeProcesses)
  else (true, (activeProcesses + 1)%Z).

(** [releaseSlot()]. *)
Definition releaseSlot (activeProcesses : Z) : Z := Z.max 0 (activeProcesses - 1).

(** *** convertMessages: OpenAI messages to CLI input *)

Definition extractTextContent (c : Content) : string := Direct.extractText c.

Record Turn : Type := {
  t_role : string;
  t_content : string
}.

Record Converted : Type := {
  systemParts : list string;
  turns : list Turn
}.

Definition convertStep (acc : Converted) (msg : Message) : Converted :=
  let content := extractTextContent (content msg) in
  if negb (JSString.truthy content) then acc
  else if role msg =? "system" then
    {| systemParts := systemParts acc ++ [content]; turns := turns acc |}
  else if role msg =? "user" then
    {| systemParts := systemParts acc;
       turns := turns acc ++ [ {| t_role := "Human"; t_content := content |} ] |}
  else if role msg =? "assistant" then
    {| systemParts := systemParts acc;
       turns := turns acc ++ [ {| t_role := "Assistant"; t_content := content |} ] |}
  else if (role msg =? "function") || (role msg =? "tool") then
    {| systemParts := systemParts acc;
       turns := turns acc ++
                [ {| t_role := "Human";
                     t_content := "[Tool result: " ++ JSString.or_else (name msg) "unknown"
                                  ++ "]" ++ JSString.nl ++ content |} ] |}
  else acc.

Definition convertMessages (msgs : list Message) : option string * string :=
  match msgs with
  | [] => (None, "")
  | _ =>
      let acc := fold_left convertStep msgs {| systemParts := []; turns := [] |} in
      let systemPrompt := match systemParts acc with
                          | [] => None
                          | parts => Some (JSString.join Direct.para parts)
                          end in
      match turns acc with
      | [t] =>
          if t_role t =? "Human" then (systemPrompt, t_content t)
          else (systemPrompt, t_role t ++ ": " ++ t_content t)
      | ts =>
          (systemPrompt,
           JSString.join Direct.para (map (fun t => t_role t ++ ": " ++ t_content t) ts))
      end
  end.

(** *** Input validation *)

Record ChatRequest : Type := {
  req_messages : option (list Message);    (* [None]: missing or not an array *)
  req_stream : bool;
  req_model : option string;
  req_max_tokens : option Z;
  req_temperature : option Q;
  req_top_p : option Q
}.

Definition out_of (lo hi : Q) (x : option Q) : bool :=
  match x with
  | Some v => negb (Qle_bool lo v) || negb (Qle_bool v hi)
  | None => false
  end.

(** The loop over [body.messages], from index [i]. *)
Fixpoint messageErrors (i : nat) (msgs : list Message) : list ValidationError :=
  match msgs with
  | [] => []
  | msg :: rest =>
      (if negb (JSString.truthy (role msg)) then [RoleRequired i] else [])
      ++ (match content msg with CNull => [ContentRequired i] | _ => [] end)
      ++ messageErrors (S i) rest
  end.

Definition validateChatRequest (body : ChatRequest) : list ValidationError :=
  match req_messages body with
  | None => [MessagesNotArray]
  | Some [] => [MessagesEmpty]
  | Some msgs =>
      (if existsb (fun m => negb (role m =? "system")) msgs then [] else [NoNonSystem])
      ++ messageErrors 0 msgs
      ++ (match req_max_tokens body with
          | Some n => if (n <? 1)%Z then [BadMaxTokens] else []
          | None => []
          end)
      ++ (if out_of 0 2 (req_temperature body) then [BadTemperature] else [])
      ++ (if out_of 0 1 (req_top_p body) then [BadTopP] else [])
  end.

(** *** Spawning the CLI *)

(** The argument vector built by [spawnClaude]. *)
Definition spawnArgs (userPrompt : string) (model : string)
           (systemPrompt : option string) (streaming : bool) : list string :=
  ["--print"]
  ++ (if JSString.truthy model then ["--model"; model] else [])
  ++ (if JSString.truthy_opt systemPrompt
      then ["--system-prompt"; JSString.or_else systemPrompt ""] else [])
  ++ (if streaming
      then ["--verbose"; "--output-format"; "stream-json"; "--include-partial-messages"]
      else ["--output-format"; "json"])
  ++ ["--no-session-persistence"; "--dangerously-skip-permissions"; userPrompt].

(** The state shared by all requests: the counter of the limiter and the
    calls of [spawnClaude] made so far. *)
Record Server : Type := {
  activeProcesses : Z;
  spawnCalls : list (list string)
}.

Definition acquire (cfg : Config) (srv : Server) : bool * Server :=
  let '(ok, n) := acquireSlot cfg (activeProcesses srv) in
  (ok, {| activeProcesses := n; spawnCalls := spawnCalls srv |}).

Definition release (srv : Server) : Server :=
  {| activeProcesses := releaseSlot (activeProcesses srv); spawnCalls := spawnCalls srv |}.

Definition spawnClaude (args : list string) (srv : Server) : Server :=
  {| activeProcesses := activeProcesses srv; spawnCalls := spawnCalls srv ++ [args] |}.

(** *** Streaming *)

(** The variables of one streaming request, with its response. *)
Record StreamReq : Type := {
  meta : Direct.Meta;
  buffer : string;
  stderr : string;
  sentContent : bool;
  finished : bool;
  killed : bool;                (* proc.kill('SIGTERM') was called *)
  res : Res
}.

Definition with_res (r : Res) (sent : bool) (q : StreamReq) : StreamReq :=
  {| meta := meta q; buffer := buffer q; stderr := stderr q;
     sentContent := sent; finished := finished q; killed := killed q; res := r |}.

(** [handleStreamEvent]: the response afterwards and whether content was
    sent. *)
Definition handleStreamEvent (event : Event) (r : Res) (m : Direct.Meta) : Res * bool :=
  match ev_event event with
  | Some inner =>
      if JSString.is_lit (ev_type event) "stream_event"
         && JSString.is_lit (i_type inner) "content_block_delta"
      then
        if JSString.truthy_opt (i_delta_text inner)
        then (sendSSE (Direct.chunk m (DContent (JSString.or_else (i_delta_text inner) "")) None) r,
              true)
        else (r, false)
      else (r, false)
  | None => (r, false)
  end.

(** [try { const event = JSON.parse(text); if (handleStreamEvent(...))
    sentContent = true; } catch { }] *)
Definition relay `{Runtime} (q : StreamReq) (text : string) : StreamReq :=
  match parse_cli_event text with
  | Some event =>
      let '(r, sent) := handleStreamEvent event (res q) (meta q) in
      with_res r (if sent then true else sentContent q) q
  | None => q
  end.

(** One iteration of [for (const line of lines)]. *)
Definition onLine `{Runtime} (q : StreamReq) (line : string) : StreamReq :=
  if negb (JSString.truthy (JSString.trim line)) then q else relay q line.

(** [proc.stdout.on('data')]. *)
Definition onStdout `{Runtime} (data : string) (q : StreamReq) : StreamReq :=
  let lines := JSString.split_nl (buffer q ++ data) in
  let q' := {| meta := meta q; buffer := last lines ""; stderr := stderr q;
               sentContent := sentContent q; finished := finished q;
               killed := killed q; res := res q |} in
  fold_left onLine (removelast lines) q'.

(** [proc.stderr.on('data')]. *)
Definition onStderr (data : string) (q : StreamReq) : StreamReq :=
  {| meta := meta q; buffer := buffer q; stderr := stderr q ++ data;
     sentContent := sentContent q; finished := finished q;
     killed := killed q; res := res q |}.

Definition finish (q : StreamReq) (r : Res) : StreamReq :=
  {| meta := meta q; buffer := buffer q; stderr := stderr q;
     sentContent := sentContent q; finished := true; killed := killed q; res := r |}.

(** [code === 0]; [None] is the [null] code of a process ended by a signal. *)
Definition exited_zero (code : option Z) : bool :=
  match code with Some c => (c =? 0)%Z | None => false end.

(** [code === 0 || sentContent ? 'stop' : 'error'] *)
Definition closeFinishReason (code : option Z) (sent : bool) : string :=
  if exited_zero code || sent then "stop" else "error".

(** [proc.on('close')]. *)
Definition onClose `{Runtime} (code : option Z) (srv : Server) (q : StreamReq)
  : Server * StreamReq :=
  (* Process remaining buffer *)
  let q1 := if JSString.truthy (JSString.trim (buffer q)) then relay q (buffer q) else q in
  if finished q1 then (srv, q1)
  else
    let r1 := if negb (exited_zero code) && negb (sentContent q1)
              then sendSSE (FErrorEvent (MsgCliExit code (JSString.take 200 (stderr q1))))
                           (res q1)
              else res q1 in
    (* Send finish chunk *)
    let r2 := sendSSE (Direct.chunk (meta q1) DEmpty
                                    (Some (closeFinishReason code (sentContent q1)))) r1 in
    (release srv, finish q1 (end_ (write FDone r2))).

(** [proc.on('error')]. *)
Definition onError (err : string) (srv : Server) (q : StreamReq) : Server * StreamReq :=
  if finished q then (srv, q)
  else (release srv,
        finish q (end_ (write FDone (sendSSE (FErrorEvent (MsgText err)) (res q))))).

(** [res.on('close')]: the client went away. *)
Definition onResClose (srv : Server) (q : StreamReq) : Server * StreamReq :=
  if finished q then (srv, q)
  else (release srv,
        {| meta := meta q; buffer := buffer q; stderr := stderr q;
           sentContent := sentContent q; finished := true; killed := true;
           res := res q |}).

(** What a streaming request can observe after it has started. *)
Inductive ProcEvent : Type :=
| Stdout (data : string)
| Stderr (data : string)
| Close (code : option Z)
| ProcError (err : string)
| ClientGone.

Definition onProcEvent `{Runtime} (st : Server * StreamReq) (e : ProcEvent)
  : Server * StreamReq :=
  let '(srv, q) := st in
  match e with
  | Stdout data => (srv, onStdout data q)
  | Stderr data => (srv, onStderr data q)
  | Close code => onClose code srv q
  | ProcError err => onError err srv q
  | ClientGone => onResClose srv q
  end.

Definition runStream `{Runtime} (events : list ProcEvent) (st : Server * StreamReq)
  : Server * StreamReq :=
  fold_left onProcEvent events st.

(** *** Non-streaming execution *)

(** How the process of [runClaudeNonStreaming] ends. *)
Inductive ProcRun : Type :=
| TimedOut
| SpawnError (err : string)
| Closed (code : option Z) (stdout stderr : string).

Record CliResult : Type := {
  text : string;
  usage : option Anthropic.Usage
}.

(** The value [runClaudeNonStreaming] resolves to, or the error it rejects
    with. *)
Definition runClaudeNonStreaming `{Runtime} (cfg : Config) (run : ProcRun)
  : ErrMsg + CliResult :=
  match run with
  | TimedOut => inl (MsgCliTimeout (CLI_TIMEOUT_MS cfg))
  | SpawnError err => inl (MsgSpawnFailed err)
  | Closed code stdout stderr =>
      if negb (exited_zero code) then inl (MsgCliExit code (JSString.take 500 stderr))
      else
        match parse_cli_output (JSString.trim stdout) with
        | Some o =>
            if o_is_error o
            then inl (MsgCliError (JSString.or_else (o_result o) "Unknown error"))
            else inr {| text := JSString.or_else (o_result o) ""; usage := o_usage o |}
        | None => inr {| text := JSString.trim stdout; usage := None |}
        end
  end.

(** [err.message.includes('timed out')] *)
Definition mentions_timeout (e : ErrMsg) : bool :=
  match e with
  | MsgText s | MsgApiError _ s | MsgCliExit _ s | MsgCliError s | MsgSpawnFailed s =>
      JSString.includes "timed out" s
  | MsgCliTimeout _ => true
  | MsgTooMany _ | MsgJoined _ => false
  end.

(** Rough heuristic: about four characters per token. *)
Definition estimateTokens (text : string) : Z :=
  if negb (JSString.truthy text) then 0%Z
  else ((JSString.len text + 3) / 4)%Z.          (* Math.ceil(text.length / 4) *)

(** [n ?? d] on a count that may be missing. *)
Definition or_estimate (n : option Z) (d : Z) : Z :=
  match n with Some v => v | None => d end.

(** The [usage] object of both non-streaming bodies. *)
Definition usageOf (prompt : string) (result : CliResult) : UsageOut :=
  {| prompt_tokens :=
       or_estimate (Direct.usage_input (usage result)) (estimateTokens prompt);
     completion_tokens :=
       or_estimate (Direct.usage_output (usage result)) (estimateTokens (text result));
     total_tokens :=
       (or_estimate (Direct.usage_input (usage result)) (estimateTokens prompt)
        + or_estimate (Direct.usage_output (usage result)) (estimateTokens (text result)))%Z |}.

(** *** POST /v1/chat/completions *)

(** A non-streaming request that waits for its process. *)
Record Pending : Type := {
  p_id : string;
  p_created : Z;
  p_model : string;
  p_prompt : string
}.

(** Where a request stands when its handler returns or first waits. *)
Inductive Started : Type :=
| Replied (r : Res)
| StreamStarted (q : StreamReq)
| Awaiting (p : Pending).

Definition tooMany (cfg : Config) : Res :=
  status_json 429 (BodyError (MsgTooMany (MAX_CONCURRENT cfg)) "rate_limit_error"
                             (Some "rate_limit_exceeded")) fresh.

(** The end of the non-streaming handler: the [try] body after the [await]
    and the [catch]. *)
Definition completeChat (p : Pending) (outcome : ErrMsg + CliResult) (srv : Server)
  : Server * Res :=
  match outcome with
  | inr result =>
      (release srv,
       json (BodyChat (p_id p) (p_created p) (p_model p) (Some (text result)) None "stop"
                      (usageOf (p_prompt p) result)) fresh)
  | inl err =>
      (release srv,
       status_json (if mentions_timeout err then 504 else 500)
                   (BodyError err "server_error" (Some "claude_cli_error")) fresh)
  end.

(** The handler up to the point where it returns or awaits the process.
    [spawn_throws] tells whether [spawn] itself throws. *)
Definition postChatCompletions `{Runtime} (cfg : Config) (body : ChatRequest)
           (spawn_throws : option string) (now : Z) (rng : nat) (srv : Server)
  : Server * Started :=
  let '(requestId, _) := genId "chatcmpl" rng in
  match validateChatRequest body with
  | (_ :: _) as errors =>
      (srv, Replied (status_json 400 (BodyError (MsgJoined errors) "invalid_request_error" None)
                                 fresh))
  | [] =>
      (* Check concurrency *)
      let '(ok, srv1) := acquire cfg srv in
      if negb ok then (srv1, Replied (tooMany cfg))
      else
        let msgs := match req_messages body with Some l => l | None => [] end in
        let model := resolveModel cfg (req_model body) in
        let '(systemPrompt, userPrompt) := convertMessages msgs in
        let m := {| Direct.m_id := requestId; Direct.m_created := now;
                    Direct.m_model := model |} in
        if req_stream body then
          (* Send initial role chunk *)
          let r := sendSSE (Direct.chunk m DRole None) fresh in
          match spawn_throws with
          | Some _ =>
              (release srv1,
               Replied (end_ (write FDone
                        (sendSSE (FErrorEvent (MsgText "Failed to start Claude CLI")) r))))
          | None =>
              (spawnClaude (spawnArgs userPrompt model systemPrompt true) srv1,
               StreamStarted {| meta := m; buffer := ""; stderr := ""; sentContent := false;
                                finished := false; killed := false; res := r |})
          end
        else
          let p := {| p_id := requestId; p_created := now; p_model := model;
                      p_prompt := userPrompt |} in
          match spawn_throws with
          | Some err =>
              let '(srv2, r) := completeChat p (inl (MsgText err)) srv1 in
              (srv2, Replied r)
          | None =>
              (spawnClaude (spawnArgs userPrompt model systemPrompt false) srv1, Awaiting p)
          end
  end.

(** *** POST /v1/completions *)

Definition promptMissing (p : Direct.Prompt) : bool :=
  match p with
  | Direct.PromptNone => true
  | Direct.PromptStr s => negb (JSString.truthy s) || negb (JSString.truthy (JSString.trim s))
  | Direct.PromptArr _ => false
  end.

Definition completeText (p : Pending) (outcome : ErrMsg + CliResult) (srv : Server)
  : Server * Res :=
  match outcome with
  | inr result =>
      (release srv,
       json (BodyText (p_id p) (p_created p) (p_model p) (text result) "stop"
                      (usageOf (p_prompt p) result)) fresh)
  | inl err =>
      (release srv, status_json 500 (BodyError err "server_error" None) fresh)
  end.

Definition postCompletions `{Runtime} (cfg : Config) (prompt : Direct.Prompt)
           (model : option string) (spawn_throws : option string) (now : Z) (rng : nat)
           (srv : Server) : Server * Started :=
  let '(requestId, _) := genId "cmpl" rng in
  if promptMissing prompt then
    (srv, Replied (status_json 400
                     (BodyError (MsgText "prompt is required and must be a non-empty string")
                                "invalid_request_error" None) fresh))
  else
    let '(ok, srv1) := acquire cfg srv in
    if negb ok then (srv1, Replied (tooMany cfg))
    else
      let model := resolveModel cfg model in
      let text := Direct.promptText prompt in
      let p := {| p_id := requestId; p_created := now; p_model := model; p_prompt := text |} in
      match spawn_throws with
      | Some err =>
          let '(srv2, r) := completeText p (inl (MsgText err)) srv1 in
          (srv2, Replied r)
      | None => (spawnClaude (spawnArgs text model None false) srv1, Awaiting p)
      end.

End Cli.

(* ------------------------------------------------------------------------- *)
(** ** Vocabulary of the properties                                          *)
(* ------------------------------------------------------------------------- *)

Module Observe.
Import Http.

(** A chunk that carries a role, content or tool-call delta and no finish
    reason. *)
Definition is_delta_chunk (f : Frame) : bool :=
  match f with
  | FChunk c =>
      match c_delta c, c_finish_reason c with
      | DEmpty, _ => false
      | _, None => true
      | _, Some _ => false
      end
  | _ => false
  end.

(** A content chunk: a content delta and no finish reason. *)
Definition is_content (f : Frame) : bool :=
  match f with
  | FChunk c =>
      match c_delta c, c_finish_reason c with
      | DContent _, None => true
      | _, _ => false
      end
  | _ => false
  end.

(** A finish chunk: empty delta and a finish reason. *)
Definition is_finish (f : Frame) : bool :=
  match f with
  | FChunk c =>
      match c_delta c, c_finish_reason c with
      | DEmpty, Some _ => true
      | _, _ => false
      end
  | _ => false
  end.

Definition is_done (f : Frame) : bool :=
  match f with FDone => true | _ => false end.

Definition is_error_event (f : Frame) : bool :=
  match f with FErrorEvent _ => true | _ => false end.

(** The finish reasons carried by the chunks of a stream, in order. *)
Fixpoint finish_reasons (fs : list Frame) : list string :=
  match fs with
  | [] => []
  | FChunk c :: rest =>
      match c_finish_reason c with
      | Some r => r :: finish_reasons rest
      | None => finish_reasons rest
      end
  | _ :: rest => finish_reasons rest
  end.

(** The usage object of a completion body. *)
Definition usage_of (b : Body) : option UsageOut :=
  match b with
  | BodyChat _ _ _ _ _ _ u | BodyText _ _ _ _ _ u => Some u
  | BodyError _ _ _ => None
  end.

(** The usage object of a response, when it carries a completion. *)
Definition res_usage (r : Res) : option UsageOut :=
  match body r with Some b => usage_of b | None => None end.

(** An HTTP-level error response: an error status or an error body. *)
Definition http_error (r : Res) : bool :=
  negb (statusCode r =? 200)%Z ||
  match body r with Some (BodyError _ _ _) => true | _ => false end.

(** [r'] is [r] with frames added at the end, all of which satisfy [p]; the
    status, the body and the end mark are those of [r]. *)
Definition grows (p : Frame -> bool) (r r' : Res) : Prop :=
  statusCode r' = statusCode r /\ body r' = body r /\ ended r' = ended r
  /\ (headersSent r = true -> headersSent r' = true)
  /\ exists added, frames r' = (frames r ++ added)%list /\ forallb p added = true.

(** A completion body, if any, has [total_tokens] equal to the sum of the
    other two counts. *)
Definition usage_consistent (r : Res) : Prop :=
  match res_usage r with
  | Some u => total_tokens u = (prompt_tokens u + completion_tokens u)%Z
  | None => True
  end.

Definition nonempty {A : Type} (l : list A) : bool :=
  match l with [] => false | _ :: _ => true end.

(** [q'] is the open streaming request [q] after content chunks were
    relayed: only content chunks were added, and [sentContent] is set as
    soon as one was. *)
Definition relayed (q q' : Cli.StreamReq) : Prop :=
  Cli.meta q' = Cli.meta q /\ Cli.finished q' = Cli.finished q
  /\ statusCode (Cli.res q') = statusCode (Cli.res q)
  /\ body (Cli.res q') = body (Cli.res q)
  /\ ended (Cli.res q') = false
  /\ exists added,
       frames (Cli.res q') = (frames (Cli.res q) ++ added)%list
       /\ forallb is_content added = true
       /\ Cli.sentContent q' = (Cli.sentContent q || nonempty added)%bool.

(** Output of the process, as opposed to its end or the client's. *)
Definition is_output (e : Cli.ProcEvent) : bool :=
  match e with
  | Cli.Stdout _ | Cli.Stderr _ => true
  | _ => false
  end.

(** A stream that was closed cleanly: delta chunks, then one finish chunk,
    then the sentinel, on a response that was ended and carries no HTTP
    error. *)
Definition closes_cleanly (r : Res) : Prop :=
  exists progress fin,
    frames r = (progress ++ [fin; FDone])%list
    /\ forallb is_delta_chunk progress = true
    /\ is_finish fin = true
    /\ http_error r = false
    /\ ended r = true.

(** [fn.name] and [fn.arguments] of a requested call, with
    [fn = tc.function || {}]. *)
Definition call_name (tc : OpenAI.ToolCall) : option string :=
  match OpenAI.tc_function tc with Some f => OpenAI.fn_name f | None => None end.

Definition call_arguments (tc : OpenAI.ToolCall) : option JSON :=
  match OpenAI.tc_function tc with Some f => OpenAI.fn_arguments f | None => None end.

(** [b] is the tool-invocation block of the requested call [tc]: it carries
    the name, the parsed-or-empty arguments, and the identifier of the call
    or, when the call has none, a generated one. *)
Definition tool_use_of `{Runtime} (tc : OpenAI.ToolCall) (b : Direct.Block) : Prop :=
  exists id,
    b = Direct.BToolUse id (call_name tc) (Direct.parseArguments (call_arguments tc))
    /\ (JSString.truthy_opt (OpenAI.tc_id tc) = true -> OpenAI.tc_id tc = Some id)
    /\ (JSString.truthy_opt (OpenAI.tc_id tc) = false ->
        exists n, id = fst (genId "toolu" n)).

(** The text blocks and the tool-invocation blocks of a result. *)
Definition is_text_block (b : Anthropic.RBlock) : bool :=
  JSString.is_lit (Anthropic.rb_type b) "text".

Definition is_tool_block (b : Anthropic.RBlock) : bool :=
  JSString.is_lit (Anthropic.rb_type b) "tool_use".

Definition text_of (b : Anthropic.RBlock) : string :=
  match Anthropic.rb_text b with Some t => t | None => "" end.

(** The texts of the text blocks, concatenated in order. *)
Definition text_concat (blocks : list Anthropic.RBlock) : string :=
  fold_right append "" (map text_of (filter is_text_block blocks)).

(** [block.input || {}]. *)
Definition input_or_empty (b : Anthropic.RBlock) : JSON :=
  match Anthropic.rb_input b with
  | Some v => if json_truthy v then v else empty_object
  | None => empty_object
  end.

(** [c] is the tool-call entry of the tool-invocation block [b]. *)
Definition tool_call_of `{Runtime} (b : Anthropic.RBlock) (c : ToolCallOut) : Prop :=
  tco_name c = Anthropic.rb_name b
  /\ tco_arguments c = JSON_stringify (input_or_empty b)
  /\ (JSString.truthy_opt (Anthropic.rb_id b) = true -> Anthropic.rb_id b = Some (tco_id c))
  /\ (JSString.truthy_opt (Anthropic.rb_id b) = false ->
      exists n, tco_id c = fst (genId "call" n)).

(** [message.content] and [message.tool_calls] of a chat completion body;
    the inner [None] is [null], respectively an absent field. *)
Definition chat_content (r : Res) : option (option string) :=
  match body r with
  | Some (BodyChat _ _ _ content _ _ _) => Some content
  | _ => None
  end.

Definition chat_tool_calls (r : Res) : option (option (list ToolCallOut)) :=
  match body r with
  | Some (BodyChat _ _ _ _ calls _ _) => Some calls
  | _ => None
  end.

(** A call on the concurrency limiter. *)
Inductive SlotOp : Type := Acquire | Release.

Definition slot_step (cfg : Cli.Config) (n : Z) (op : SlotOp) : Z :=
  match op with
  | Acquire => snd (Cli.acquireSlot cfg n)
  | Release => Cli.releaseSlot n
  end.

(** The counter after a sequence of calls, in any order. *)
Definition slot_run (cfg : Cli.Config) (ops : list SlotOp) (n : Z) : Z :=
  fold_left (slot_step cfg) ops n.

(** The answers of [k] successive calls of [acquireSlot] with no release in
    between, and the counter afterwards. *)
Fixpoint attempts (cfg : Cli.Config) (k : nat) (n : Z) : list bool * Z :=
  match k with
  | O => ([], n)
  | S k' =>
      let '(ok, n1) := Cli.acquireSlot cfg n in
      let '(oks, n2) := attempts cfg k' n1 in
      (ok :: oks, n2)
  end.

(** No two neighbours of a native message list have the same role. *)
Fixpoint alternating (l : list Direct.NativeMsg) : bool :=
  match l with
  | a :: (b :: _) as rest =>
      negb (Direct.n_role a =? Direct.n_role b) && alternating rest
  | _ => true
  end.

(** All content blocks of a native message list, in order. *)
Definition all_blocks (l : list Direct.NativeMsg) : list Direct.Block :=
  concat (map (fun m => Direct.blocks_of (Direct.n_content m)) l).

End Observe.

(* ------------------------------------------------------------------------- *)
(** ** A sample runtime for the examples                                     *)
(* ------------------------------------------------------------------------- *)

Module Sample.
Import Http.

Definition dq : string := String "034"%char "".

Definition quoted (s : string) : string := dq ++ s ++ dq.

(** [{"k":v}] with [v] already serialised. *)
Definition obj1 (k v : string) : string := "{" ++ quoted k ++ ":" ++ v ++ "}".

(** [{"k1":v1,"k2":v2}]. *)
Definition obj2 (k1 v1 k2 v2 : string) : string :=
  "{" ++ quoted k1 ++ ":" ++ v1 ++ "," ++ quoted k2 ++ ":" ++ v2 ++ "}".

(** The [stream-json] line of the CLI for a text increment. *)
Definition cli_text_line (t : string) : string :=
  obj2 "type" (quoted "stream_event")
       "event" (obj2 "type" (quoted "content_block_delta")
                     "delta" (obj1 "text" (quoted t))).

Definition cli_text_event (t : string) : ClaudeCli.Event :=
  {| ClaudeCli.ev_type := Some "stream_event";
     ClaudeCli.ev_event := Some {| ClaudeCli.i_type := Some "content_block_delta";
                                   ClaudeCli.i_delta_text := Some t |} |}.

(** The data of the SSE line of the Messages API for a text increment. *)
Definition api_text_data (t : string) : string :=
  obj2 "type" (quoted "content_block_delta")
       "delta" (obj2 "type" (quoted "text_delta") "text" (quoted t)).

Definition api_text_event (t : string) : Anthropic.Event :=
  {| Anthropic.e_type := Some "content_block_delta";
     Anthropic.e_delta := Some {| Anthropic.d_type := Some "text_delta";
                                  Anthropic.d_text := Some t;
                                  Anthropic.d_partial_json := None;
                                  Anthropic.d_stop_reason := None |};
     Anthropic.e_content_block := None |}.

(** [{"city":"Prague"}] and its value. *)
Definition prague_text : string := obj1 "city" (quoted "Prague").

Definition prague : JSON := JObj [("city", JStr "Prague")].

(** The parsers below know the texts of the examples and reject every other
    text, as [JSON.parse] rejects malformed text. *)
Definition parse_json (s : string) : option JSON :=
  if s =? prague_text then Some prague
  else if s =? "{}" then Some empty_object
  else None.

Definition parse_cli (s : string) : option ClaudeCli.Event :=
  if s =? cli_text_line "Hel" then Some (cli_text_event "Hel")
  else if s =? cli_text_line "lo" then Some (cli_text_event "lo")
  else None.

Definition parse_api (s : string) : option Anthropic.Event :=
  if s =? api_text_data "Hel" then Some (api_text_event "Hel")
  else if s =? api_text_data "lo" then Some (api_text_event "lo")
  else None.

(** Serialisation of values whose strings need no escape. *)
Fixpoint stringify (v : JSON) : string :=
  match v with
  | JNull => "null"
  | JBool true => "true"
  | JBool false => "false"
  | JNum n => DecimalString.NilZero.string_of_int (Z.to_int n)
  | JStr s => quoted s
  | JArr items => "[" ++ String.concat "," (map stringify items) ++ "]"
  | JObj fields =>
      "{" ++ String.concat "," (map (fun kv => quoted (fst kv) ++ ":" ++ stringify (snd kv))
                                    fields) ++ "}"
  end.

#[local] Instance runtime : Runtime := {|
  JSON_parse := parse_json;
  JSON_stringify := stringify;
  JSON_stringify_content := fun _ => "null";
  parse_api_event := parse_api;
  parse_cli_event := parse_cli;
  parse_cli_output := fun _ => None;
  randomBytes_base64url := fun _ => "AAAAAAAAAAAAAAAA";
  match_data_uri := fun _ => None
|}.

Definition user_says (t : string) : OpenAI.Message :=
  {| OpenAI.role := "user"; OpenAI.content := OpenAI.CStr t;
     OpenAI.tool_calls := None; OpenAI.tool_call_id := None; OpenAI.name := None |}.

(** The process variant with two slots, idle. *)
Definition cli_cfg : Cli.Config :=
  {| Cli.DEFAULT_MODEL := "claude-sonnet-4-5-20250929";
     Cli.CLI_TIMEOUT_MS := 300000; Cli.MAX_CONCURRENT := 2 |}.

Definition idle : Cli.Server := {| Cli.activeProcesses := 0; Cli.spawnCalls := [] |}.

Definition cli_stream_request : Cli.ChatRequest :=
  {| Cli.req_messages := Some [user_says "hi"]; Cli.req_stream := true;
     Cli.req_model := Some "sonnet"; Cli.req_max_tokens := None;
     Cli.req_temperature := None; Cli.req_top_p := None |}.

(** The state of that request once its process runs. *)
Definition cli_started : Cli.Server * Cli.StreamReq :=
  match Cli.postChatCompletions cli_cfg cli_stream_request None 1700000000 0 idle with
  | (srv, Cli.StreamStarted q) => (srv, q)
  | (srv, _) =>
      (srv, {| Cli.meta := {| Direct.m_id := ""; Direct.m_created := 0; Direct.m_model := "" |};
               Cli.buffer := ""; Cli.stderr := ""; Cli.sentContent := false;
               Cli.finished := true; Cli.killed := false; Cli.res := fresh |})
  end.

(** The direct-call variant with an API key. *)
Definition direct_cfg : Direct.Config :=
  {| Direct.DEFAULT_MODEL := "claude-sonnet-4-5-20250929";
     Direct.AUTH_TOKEN := "sk-ant-api03-key" |}.

Definition direct_stream_request : Direct.ChatRequest :=
  {| Direct.req_messages := Some [user_says "hi"]; Direct.req_stream := true;
     Direct.req_model := Some "sonnet" |}.

(** A back end whose stream breaks after two text increments. *)
Definition broken_backend : Direct.Backend :=
  {| Direct.json_reply := Direct.JsonFail (MsgText "unused");
     Direct.stream_reply :=
       Direct.StreamOk [ "data: " ++ api_text_data "Hel" ++ JSString.nl;
                         "data: " ++ api_text_data "lo" ++ JSString.nl ]
                       (Some (MsgText "terminated")) |}.

(** Two text increments printed by the CLI, each on its own line. *)
Definition cli_two_lines : list Cli.ProcEvent :=
  [ Cli.Stdout (cli_text_line "Hel" ++ JSString.nl);
    Cli.Stdout (cli_text_line "lo" ++ JSString.nl) ].

(** The response of the streaming request after the process printed two
    increments and exited with code 1. *)
Definition cli_partial_failure : Res :=
  Cli.res (snd (Cli.runStream (cli_two_lines ++ [Cli.Close (Some 1%Z)]) cli_started)).

(** The response of the streaming request after the process printed nothing
    and exited with code 1. *)
Definition cli_early_failure : Res :=
  Cli.res (snd (Cli.runStream ([] ++ [Cli.Close (Some 1%Z)]) cli_started)).

Definition assistant_says (t : string) : OpenAI.Message :=
  {| OpenAI.role := "assistant"; OpenAI.content := OpenAI.CStr t;
     OpenAI.tool_calls := None; OpenAI.tool_call_id := None; OpenAI.name := None |}.

(** A conversation that opens with the assistant and has two user messages
    in a row. *)
Definition uneven_messages : list OpenAI.Message :=
  [assistant_says "Hi"; user_says "a"; user_says "b"].

(** An assistant message that asks for two calls: one with an identifier and
    well-formed arguments, one with neither. *)
Definition calling_message : OpenAI.Message :=
  {| OpenAI.role := "assistant"; OpenAI.content := OpenAI.CNull;
     OpenAI.tool_calls :=
       Some [ {| OpenAI.tc_id := Some "call_1";
                 OpenAI.tc_function :=
                   Some {| OpenAI.fn_name := Some "get_weather";
                           OpenAI.fn_arguments := Some (JStr prague_text) |} |};
              {| OpenAI.tc_id := None;
                 OpenAI.tc_function :=
                   Some {| OpenAI.fn_name := Some "get_weather";
                           OpenAI.fn_arguments := Some (JStr "{oops") |} |} ];
     OpenAI.tool_call_id := None; OpenAI.name := None |}.

Definition system_says (t : string) : OpenAI.Message :=
  {| OpenAI.role := "system"; OpenAI.content := OpenAI.CStr t;
     OpenAI.tool_calls := None; OpenAI.tool_call_id := None; OpenAI.name := None |}.

Definition tool_says (id payload : string) : OpenAI.Message :=
  {| OpenAI.role := "tool"; OpenAI.content := OpenAI.CStr payload;
     OpenAI.tool_calls := None; OpenAI.tool_call_id := Some id; OpenAI.name := None |}.

Definition conv_start : Direct.ConvState :=
  {| Direct.systemParts := []; Direct.anthropicMessages := []; Direct.entropy := 0 |}.

End Sample.

(* ------------------------------------------------------------------------- *)
(** ** Further vocabulary                                                    *)
(* ------------------------------------------------------------------------- *)

Module Describe.
Import Http.

(** The state of the direct-call relay with another carry-over buffer. *)
Definition direct_with_buffer (b : string) (st : Direct.StreamState) : Direct.StreamState :=
  {| Direct.buffer := b; Direct.toolCallIndex := Direct.toolCallIndex st;
     Direct.activeToolCalls := Direct.activeToolCalls st;
     Direct.stopReason := Direct.stopReason st;
     Direct.s_entropy := Direct.s_entropy st; Direct.s_res := Direct.s_res st |}.

(** The streaming request of the process variant with another carry-over
    buffer. *)
Definition cli_with_buffer (b : string) (q : Cli.StreamReq) : Cli.StreamReq :=
  {| Cli.meta := Cli.meta q; Cli.buffer := b; Cli.stderr := Cli.stderr q;
     Cli.sentContent := Cli.sentContent q; Cli.finished := Cli.finished q;
     Cli.killed := Cli.killed q; Cli.res := Cli.res q |}.

(** The events on which a streaming request of the process variant stops:
    the process closed or failed, or the client went away. *)
Definition is_terminal (e : Cli.ProcEvent) : bool :=
  match e with
  | Cli.Close _ | Cli.ProcError _ | Cli.ClientGone => true
  | Cli.Stdout _ | Cli.Stderr _ => false
  end.

(** Walks the frames of a stream with the index of the tool call that is
    open ([-1] before the first one): a tool-call start must carry the next
    index, an argument fragment the open one. Answers the index open at the
    end, or [None] when a frame carries another index. *)
Fixpoint tool_indices (open : Z) (fs : list Frame) : option Z :=
  match fs with
  | [] => Some open
  | FChunk c :: rest =>
      match c_delta c with
      | DToolStart i _ _ =>
          if (i =? open + 1)%Z then tool_indices (open + 1)%Z rest else None
      | DToolArgs i _ =>
          if (i =? open)%Z then tool_indices open rest else None
      | _ => tool_indices open rest
      end
  | _ :: rest => tool_indices open rest
  end.

(** The number of tool-call starts among the frames. *)
Definition tool_starts (fs : list Frame) : nat :=
  length (filter (fun f => match f with
                           | FChunk c => match c_delta c with
                                         | DToolStart _ _ _ => true
                                         | _ => false
                                         end
                           | _ => false
                           end) fs).

(** The indices written so far are in sequence and the variable
    [toolCallIndex] is the one that is open. *)
Definition indexed (st : Direct.StreamState) : Prop :=
  ended (Direct.s_res st) = false
  /\ tool_indices (-1) (frames (Direct.s_res st)) = Some (Direct.toolCallIndex st)
  /\ Direct.toolCallIndex st
     = (Z.of_nat (tool_starts (frames (Direct.s_res st))) - 1)%Z.

Definition is_system (m : OpenAI.Message) : bool := OpenAI.role m =? "system".

(** The texts of the text blocks of a block list, in order. *)
Fixpoint block_texts (blocks : list Direct.Block) : list string :=
  match blocks with
  | [] => []
  | Direct.BText t :: rest => t :: block_texts rest
  | _ :: rest => block_texts rest
  end.

(** Only text and image blocks. *)
Definition is_plain_block (b : Direct.Block) : bool :=
  match b with
  | Direct.BText _ | Direct.BImageBase64 _ _ | Direct.BImageUrl _ => true
  | _ => false
  end.

(** The response of a streaming request is either open and without
    sentinel, or ended right after its only sentinel. *)
Definition sentinel_last (r : Res) : Prop :=
  (ended r = false /\ existsb Observe.is_done (frames r) = false)
  \/ (ended r = true
      /\ exists before, frames r = (before ++ [FDone])%list
                        /\ existsb Observe.is_done before = false).

(** The roles of the native message list. *)
Definition native_role (m : Direct.NativeMsg) : Prop :=
  Direct.n_role m = "user" \/ Direct.n_role m = "assistant".

(** The text that a system message adds to the system instruction, if any. *)
Definition system_text (m : OpenAI.Message) : list string :=
  if JSString.truthy (Direct.extractText (OpenAI.content m))
  then [Direct.extractText (OpenAI.content m)] else [].




End Describe.

(* ------------------------------------------------------------------------- *)
(** ** Admission control                                                     *)
(* ------------------------------------------------------------------------- *)

Section Admission.
Import Cli Observe.
Local Open Scope Z_scope.

Variable cfg : Config.
Let N := MAX_CONCURRENT cfg.

Lemma acquireSlot_below (n : Z) :
  n < N -> acquireSlot cfg n = (true, n + 1).
Proof.
  intros Hlt. unfold acquireSlot. fold N.
  destruct (Z.geb_spec n N); [lia | reflexivity].
Qed.

Lemma acquireSlot_full (n : Z) :
  N <= n -> acquireSlot cfg n = (false, n).
Proof.
  intros Hge. unfold acquireSlot. fold N.
  destruct (Z.geb_spec n N); [reflexivity | lia].
Qed.

Lemma acquireSlot_spec (n : Z) :
  acquireSlot cfg n = if n <? N then (true, n + 1) else (false, n).
Proof.
  destruct (Z.ltb_spec n N).
  - now apply acquireSlot_below.
  - now apply acquireSlot_full.
Qed.

Lemma releaseSlot_pos (n : Z) : 1 <= n -> releaseSlot n = n - 1.
Proof. intros. unfold releaseSlot. lia. Qed.

Lemma releaseSlot_clamps (n : Z) : n <= 1 -> releaseSlot n = 0.
Proof. intros. unfold releaseSlot. lia. Qed.

Lemma slot_step_bounds (n : Z) (op : SlotOp) :
  0 <= n <= N -> 0 <= slot_step cfg n op <= N.
Proof.
  intros Hn. destruct op; simpl.
  - rewrite acquireSlot_spec. destruct (Z.ltb_spec n N); simpl; lia.
  - unfold releaseSlot. lia.
Qed.

Lemma slot_run_bounds (ops : list SlotOp) :
  forall n, 0 <= n <= N -> 0 <= slot_run cfg ops n <= N.
Proof.
  unfold slot_run. induction ops as [|op ops IH]; intros n Hn; simpl.
  - exact Hn.
  - apply IH. now apply slot_step_bounds.
Qed.

(** From the counter [n <= N], the first [N - n] attempts are admitted. *)
Lemma attempts_fill (k : nat) :
  forall n, n + Z.of_nat k <= N ->
            attempts cfg k n = (repeat true k, n + Z.of_nat k).
Proof.
  induction k as [|k IH]; intros n Hk.
  - simpl. f_equal. lia.
  - cbn [attempts]. rewrite acquireSlot_below by lia.
    rewrite IH by lia. cbn [repeat]. f_equal. lia.
Qed.

(** At capacity every attempt is refused and the counter stays. *)
Lemma attempts_refused (k : nat) :
  forall n, N <= n -> attempts cfg k n = (repeat false k, n).
Proof.
  induction k as [|k IH]; intros n Hn.
  - reflexivity.
  - cbn [attempts]. rewrite acquireSlot_full by lia.
    rewrite IH by lia. reflexivity.
Qed.

Lemma attempts_app (j k : nat) :
  forall n, attempts cfg (j + k) n =
            let '(a, n1) := attempts cfg j n in
            let '(b, n2) := attempts cfg k n1 in
            ((a ++ b)%list, n2).
Proof.
  induction j as [|j IH]; intros n; cbn [Nat.add attempts].
  - destruct (attempts cfg k n). reflexivity.
  - destruct (acquireSlot cfg n) as [ok n1]. rewrite IH.
    destruct (attempts cfg j n1) as [a n2].
    destruct (attempts cfg k n2) as [b n3]. reflexivity.
Qed.

End Admission.

Section AdmissionClaims.
Import Cli Observe Http.
Local Open Scope Z_scope.

Context `{Runtime}.

Lemma acquire_full (cfg : Config) (srv : Server) :
  MAX_CONCURRENT cfg <= activeProcesses srv -> acquire cfg srv = (false, srv).
Proof.
  intros Hfull. unfold acquire. rewrite acquireSlot_full by exact Hfull.
  destruct srv; reflexivity.
Qed.

(** C6. The limiter admits exactly [N = MAX_CONCURRENT] concurrent
    executions. [acquireSlot] answers true and adds one exactly when the
    counter is below [N], and answers false at once otherwise; starting from
    an idle server, [N] attempts in a row are admitted and the next one is
    refused; a refused request is answered 429 by both routes with no
    process spawned and the server state untouched; every way a
    non-streaming execution ends (result, failure, timeout) and a closing
    stream release one slot; and after one release with [n] executions in
    flight exactly one more attempt is admitted than before. *)
Theorem C6_admission_exactly_capacity (cfg : Config) :
  1 <= MAX_CONCURRENT cfg ->
  (forall n, acquireSlot cfg n =
             if n <? MAX_CONCURRENT cfg then (true, n + 1) else (false, n))
  /\ attempts cfg (S (Z.to_nat (MAX_CONCURRENT cfg))) 0 =
     ((repeat true (Z.to_nat (MAX_CONCURRENT cfg)) ++ [false])%list, MAX_CONCURRENT cfg)
  /\ (forall srv body spawn now rng,
         validateChatRequest body = [] ->
         MAX_CONCURRENT cfg <= activeProcesses srv ->
         postChatCompletions cfg body spawn now rng srv = (srv, Replied (tooMany cfg))
         /\ statusCode (tooMany cfg) = 429)
  /\ (forall srv prompt model spawn now rng,
         promptMissing prompt = false ->
         MAX_CONCURRENT cfg <= activeProcesses srv ->
         postCompletions cfg prompt model spawn now rng srv = (srv, Replied (tooMany cfg)))
  /\ (forall p run srv,
         fst (completeChat p (runClaudeNonStreaming cfg run) srv) = release srv
         /\ fst (completeText p (runClaudeNonStreaming cfg run) srv) = release srv)
  /\ (forall code srv q,
         finished q = false -> fst (onClose code srv q) = release srv)
  /\ (forall n, 1 <= n <= MAX_CONCURRENT cfg ->
         attempts cfg (S (S (Z.to_nat (MAX_CONCURRENT cfg - n)))) (releaseSlot n) =
         ((repeat true (S (Z.to_nat (MAX_CONCURRENT cfg - n))) ++ [false])%list,
          MAX_CONCURRENT cfg)).
Proof.
  intros Hcap.
  split; [apply acquireSlot_spec|].
  split.
  { replace (S (Z.to_nat (MAX_CONCURRENT cfg)))
      with (Z.to_nat (MAX_CONCURRENT cfg) + 1)%nat by lia.
    rewrite attempts_app, attempts_fill by lia.
    rewrite attempts_refused by lia. cbn [repeat]. f_equal. lia. }
  split.
  { intros srv body spawn now rng Hvalid Hfull. split; [|reflexivity].
    unfold postChatCompletions. cbn [genId]. rewrite Hvalid.
    rewrite acquire_full by assumption. reflexivity. }
  split.
  { intros srv prompt model spawn now rng Hprompt Hfull.
    unfold postCompletions. cbn [genId]. rewrite Hprompt.
    rewrite acquire_full by assumption. reflexivity. }
  split.
  { intros p run srv.
    split; destruct (runClaudeNonStreaming cfg run); reflexivity. }
  split.
  { intros code srv q Hopen. unfold onClose.
    assert (Hrelay : forall t, finished (relay q t) = finished q).
    { intros t. unfold relay. destruct (parse_cli_event t); [|reflexivity].
      destruct (handleStreamEvent _ _ _). reflexivity. }
    destruct (JSString.truthy (JSString.trim (buffer q)));
      [rewrite Hrelay|]; rewrite Hopen; reflexivity. }
  intros n Hn. rewrite (releaseSlot_pos cfg) by lia.
  replace (S (S (Z.to_nat (MAX_CONCURRENT cfg - n))))
    with (S (Z.to_nat (MAX_CONCURRENT cfg - n)) + 1)%nat by lia.
  rewrite attempts_app, attempts_fill by lia.
  rewrite attempts_refused by lia. cbn [repeat app]. f_equal. lia.
Qed.

(** C9. The in-flight counter stays within [0, MAX_CONCURRENT] under every
    sequence of acquire and release calls: [acquireSlot] changes the counter
    only when it is strictly below the capacity, and then by one;
    [releaseSlot] never yields a negative counter and leaves a zero counter
    at zero. *)
Theorem C9_counter_within_bounds (cfg : Config) (ops : list SlotOp) (n : Z) :
  0 <= n <= MAX_CONCURRENT cfg ->
  0 <= slot_run cfg ops n <= MAX_CONCURRENT cfg
  /\ (forall m, snd (acquireSlot cfg m) <> m ->
                m < MAX_CONCURRENT cfg /\ snd (acquireSlot cfg m) = m + 1)
  /\ (forall m, 0 <= releaseSlot m)
  /\ (forall k, Nat.iter k releaseSlot 0 = 0).
Proof.
  intros Hn.
  split; [now apply slot_run_bounds|].
  split.
  { intros m Hm. rewrite acquireSlot_spec in *.
    destruct (Z.ltb_spec m (MAX_CONCURRENT cfg)); simpl in *; [split; [assumption|reflexivity] | lia]. }
  split.
  { intros m. unfold releaseSlot. lia. }
  induction k as [|k IH]; simpl; [reflexivity|].
  rewrite IH. reflexivity.
Qed.

End AdmissionClaims.

(* ------------------------------------------------------------------------- *)
(** ** Frames written while a stream is relayed                              *)
(* ------------------------------------------------------------------------- *)

Section Growth.
Import Http Observe.

Variable p : Frame -> bool.

Lemma grows_refl (r : Res) : grows p r r.
Proof.
  unfold grows. repeat split; auto.
  exists []. split; [now rewrite app_nil_r | reflexivity].
Qed.

Lemma grows_trans (r1 r2 r3 : Res) :
  grows p r1 r2 -> grows p r2 r3 -> grows p r1 r3.
Proof.
  intros (Hs1 & Hb1 & He1 & Hh1 & a1 & Hf1 & Hp1) (Hs2 & Hb2 & He2 & Hh2 & a2 & Hf2 & Hp2).
  unfold grows. repeat split; try congruence; auto.
  exists (a1 ++ a2)%list. split.
  - rewrite Hf2, Hf1, app_assoc. reflexivity.
  - rewrite forallb_app, Hp1, Hp2. reflexivity.
Qed.

Lemma grows_write (f : Frame) (r : Res) :
  p f = true -> grows p r (write f r).
Proof.
  intros Hf. unfold write. destruct (ended r) eqn:He.
  - apply grows_refl.
  - unfold grows. cbn. repeat split; auto.
    exists [f]. split; [reflexivity | cbn; now rewrite Hf].
Qed.

Lemma grows_fold {A S : Type} (step : S -> A -> S) (proj : S -> Res) :
  (forall s a, grows p (proj s) (proj (step s a))) ->
  forall l s, grows p (proj s) (proj (fold_left step l s)).
Proof.
  intros Hstep l. induction l as [|a l IH]; intros s; simpl.
  - apply grows_refl.
  - eapply grows_trans; [apply Hstep | apply IH].
Qed.

End Growth.

(** What is written after [end] changes nothing; before it, the frame is
    appended. *)
Lemma write_open (f : Http.Frame) (r : Http.Res) :
  Http.ended r = false ->
  Http.frames (Http.write f r) = (Http.frames r ++ [f])%list
  /\ Http.ended (Http.write f r) = false
  /\ Http.statusCode (Http.write f r) = Http.statusCode r
  /\ Http.body (Http.write f r) = Http.body r
  /\ Http.headersSent (Http.write f r) = true.
Proof.
  intros He. unfold Http.write. rewrite He. cbn. auto.
Qed.

(* ------------------------------------------------------------------------- *)
(** ** The streaming handler of the direct-call variant                      *)
(* ------------------------------------------------------------------------- *)

Section DirectStream.
Import Http Observe Direct.

Context `{Runtime}.
Variable m : Meta.

Lemma onTextDelta_grows (e : Anthropic.Event) (st : StreamState) :
  grows is_delta_chunk (s_res st) (s_res (onTextDelta m e st)).
Proof.
  unfold onTextDelta. destruct (Anthropic.e_delta e) as [d|]; [|apply grows_refl].
  destruct (_ && _); [|apply grows_refl].
  cbn. apply grows_write. reflexivity.
Qed.

Lemma onToolStart_grows (e : Anthropic.Event) (st : StreamState) :
  grows is_delta_chunk (s_res st) (s_res (onToolStart m e st)).
Proof.
  unfold onToolStart. destruct (Anthropic.e_content_block e) as [b|]; [|apply grows_refl].
  destruct (_ && _); [|apply grows_refl].
  destruct (JSString.truthy_opt (Anthropic.cb_id b)); cbn;
    apply grows_write; reflexivity.
Qed.

Lemma onInputDelta_grows (e : Anthropic.Event) (st : StreamState) :
  grows is_delta_chunk (s_res st) (s_res (onInputDelta m e st)).
Proof.
  unfold onInputDelta. destruct (Anthropic.e_delta e) as [d|]; [|apply grows_refl].
  destruct (Anthropic.d_partial_json d); [|apply grows_refl].
  destruct (_ && _); [|apply grows_refl].
  cbn. apply grows_write. reflexivity.
Qed.

Lemma onMessageDelta_res (e : Anthropic.Event) (st : StreamState) :
  s_res (onMessageDelta e st) = s_res st.
Proof.
  unfold onMessageDelta. destruct (Anthropic.e_delta e) as [d|]; [|reflexivity].
  destruct (_ && _); reflexivity.
Qed.

Lemma onEvent_grows (st : StreamState) (e : Anthropic.Event) :
  grows is_delta_chunk (s_res st) (s_res (onEvent m st e)).
Proof.
  unfold onEvent. rewrite onMessageDelta_res.
  eapply grows_trans; [apply onTextDelta_grows|].
  eapply grows_trans; [apply onToolStart_grows|].
  apply onInputDelta_grows.
Qed.

Lemma onLine_grows (st : StreamState) (line : string) :
  grows is_delta_chunk (s_res st) (s_res (onLine m st line)).
Proof.
  unfold onLine.
  destruct (negb (JSString.startsWith _ _)); [apply grows_refl|].
  destruct (_ || _); [apply grows_refl|].
  destruct (parse_api_event _); [apply onEvent_grows | apply grows_refl].
Qed.

Lemma onRead_grows (st : StreamState) (value : string) :
  grows is_delta_chunk (s_res st) (s_res (onRead m st value)).
Proof.
  unfold onRead.
  match goal with
  | |- grows _ _ (s_res (fold_left _ ?l ?s0)) =>
      change (s_res st) with (s_res s0);
      apply (grows_fold is_delta_chunk (onLine m) s_res onLine_grows l s0)
  end.
Qed.

Lemma reads_grow (chunks : list string) (st : StreamState) :
  grows is_delta_chunk (s_res st) (s_res (fold_left (onRead m) chunks st)).
Proof. apply (grows_fold is_delta_chunk (onRead m) s_res onRead_grows). Qed.

(** The [finally] block on a response that is still open. *)
Lemma finishStream_open (st : StreamState) :
  ended (s_res st) = false ->
  let r := finishStream m st in
  frames r = (frames (s_res st)
              ++ [chunk m DEmpty (Some (finishReasonOf (Some (stopReason st)))); FDone])%list
  /\ statusCode r = statusCode (s_res st)
  /\ body r = body (s_res st)
  /\ ended r = true /\ headersSent r = true.
Proof.
  intros Hopen. unfold finishStream, sendSSE.
  destruct (write_open (chunk m DEmpty (Some (finishReasonOf (Some (stopReason st)))))
                       (s_res st) Hopen) as (Hf & He & Hs & Hb & _).
  destruct (write_open FDone _ He) as (Hf2 & _ & Hs2 & Hb2 & _).
  cbn. rewrite Hf2, Hf, Hs2, Hs, Hb2, Hb, <- app_assoc. cbn. auto.
Qed.

End DirectStream.

Section DirectRoute.
Import Http Observe Direct.

Context `{Runtime}.

(** Every stream that was opened ends with one finish chunk, which carries
    the mapping of the recorded stop reason, and the sentinel, whether
    reading ended or failed. *)
Lemma handleStreaming_frames (m : Meta) (chunks : list string)
      (failure : option ErrMsg) (rng : nat) :
  let h := handleStreaming fresh (StreamOk chunks failure)
                           (m_id m) (m_created m) (m_model m) rng in
  exists deltas,
    frames (fst h) =
      (chunk m DRole None :: deltas
       ++ [chunk m DEmpty
                 (Some (finishReasonOf
                          (Some (stopReason (fold_left (onRead m) chunks
                                                       (streamStart m fresh rng))))));
           FDone])%list
    /\ forallb is_delta_chunk deltas = true
    /\ statusCode (fst h) = 200%Z /\ body (fst h) = None
    /\ ended (fst h) = true /\ headersSent (fst h) = true
    /\ snd h = failure.
Proof.
  intros h. subst h. unfold handleStreaming. cbn [fst snd].
  replace {| m_id := m_id m; m_created := m_created m; m_model := m_model m |} with m
    by (destruct m; reflexivity).
  destruct (reads_grow m chunks (streamStart m fresh rng))
    as (Hs & Hb & He & _ & added & Hf & Hp).
  set (stN := fold_left (onRead m) chunks (streamStart m fresh rng)) in *.
  cbn in Hs, Hb, He, Hf.
  destruct (finishStream_open m stN He) as (Hf' & Hs' & Hb' & He' & Hh').
  exists added.
  rewrite Hf', Hf, Hs', Hs, Hb', Hb. cbn.
  repeat split; auto.
Qed.

(** The recorded stop reason changes only on a [message_delta] event that
    carries one. *)
Lemma onEvent_stopReason (m : Meta) (st : StreamState) (e : Anthropic.Event) :
  stopReason (onEvent m st e) =
  match Anthropic.e_delta e with
  | Some d =>
      if JSString.is_lit (Anthropic.e_type e) "message_delta"
         && JSString.truthy_opt (Anthropic.d_stop_reason d)
      then JSString.or_else (Anthropic.d_stop_reason d) ""
      else stopReason st
  | None => stopReason st
  end.
Proof.
  assert (Hkeep : stopReason (onInputDelta m e (onToolStart m e (onTextDelta m e st)))
                  = stopReason st).
  { unfold onInputDelta, onToolStart, onTextDelta.
    destruct (Anthropic.e_delta e) as [d|], (Anthropic.e_content_block e) as [b|];
      repeat match goal with
             | |- context [if ?c then _ else _] => destruct c
             | |- context [match ?x with Some _ => _ | None => _ end] => destruct x
             | |- context [let '(_, _) := ?p in _] => destruct p
             end; reflexivity. }
  unfold onEvent, onMessageDelta.
  destruct (Anthropic.e_delta e) as [d|]; [|exact Hkeep].
  destruct (_ && _); [reflexivity | exact Hkeep].
Qed.

(** A streaming request that reached the back end is answered by the
    streaming handler alone: its error, if any, is only logged. *)
Lemma postChatCompletions_streaming (cfg : Config) (req : ChatRequest)
      (backend : Backend) (now : Z) (rng : nat)
      (first : OpenAI.Message) (rest : list OpenAI.Message)
      (chunks : list string) (failure : option ErrMsg) :
  req_messages req = Some (first :: rest) ->
  JSString.truthy (AUTH_TOKEN cfg) = true ->
  req_stream req = true ->
  stream_reply backend = StreamOk chunks failure ->
  exists id rng',
    postChatCompletions cfg req backend now rng =
    fst (handleStreaming fresh (StreamOk chunks failure) id now
                         (resolveModel cfg (req_model req)) rng').
Proof.
  intros Hmsgs Hauth Hstream Hreply.
  unfold postChatCompletions. cbn [genId]. rewrite Hmsgs, Hauth, Hstream, Hreply.
  cbn [negb]. destruct (convertMessages cfg (first :: rest) (S rng)) as [native rng2].
  exists ("chatcmpl-" ++ randomBytes_base64url rng), rng2.
  pose (m := {| m_id := "chatcmpl-" ++ randomBytes_base64url rng; m_created := now;
                m_model := resolveModel cfg (req_model req) |}).
  destruct (handleStreaming_frames m chunks failure rng2)
    as (deltas & _ & _ & _ & _ & _ & Hsent & Hthrown).
  cbn [m_id m_created m_model m] in Hsent, Hthrown.
  destruct (handleStreaming _ _ _ _ _ _) as [res thrown]. cbn [fst snd] in *.
  destruct thrown; [rewrite Hsent|]; reflexivity.
Qed.

Lemma mapStopReason_spec (reason : option string) :
  mapStopReason reason =
  if JSString.is_lit reason "max_tokens" then "length"
  else if JSString.is_lit reason "tool_use" then "tool_calls"
  else "stop".
Proof.
  unfold mapStopReason. destruct reason as [s|]; cbn; [|reflexivity].
  destruct (String.eqb_spec s "end_turn") as [->|]; [reflexivity|].
  destruct (String.eqb_spec s "stop_sequence") as [->|]; reflexivity.
Qed.

Lemma finishReasonOf_mapStopReason (reason : option string) :
  finishReasonOf reason = mapStopReason reason.
Proof.
  unfold finishReasonOf. rewrite mapStopReason_spec.
  destruct reason as [s|]; cbn; [|reflexivity].
  destruct (String.eqb_spec s "tool_use") as [->|]; reflexivity.
Qed.

Lemma mapStopReason_range (reason : option string) :
  In (mapStopReason reason) ["stop"; "length"; "tool_calls"].
Proof.
  rewrite mapStopReason_spec.
  destruct (JSString.is_lit reason "max_tokens"); [cbn; auto|].
  destruct (JSString.is_lit reason "tool_use"); cbn; auto.
Qed.

End DirectRoute.

(* ------------------------------------------------------------------------- *)
(** ** The streaming path of the process variant                             *)
(* ------------------------------------------------------------------------- *)

Section CliStream.
Import Http Observe Cli.

Context `{Runtime}.

Lemma relayed_refl (q : StreamReq) : ended (res q) = false -> relayed q q.
Proof.
  intros Hopen. unfold relayed. repeat split; auto.
  exists []. rewrite app_nil_r, orb_false_r. auto.
Qed.

Lemma relayed_open (q q' : StreamReq) : relayed q q' -> ended (res q') = false.
Proof. intros (_ & _ & _ & _ & He & _). exact He. Qed.

Lemma nonempty_app {A : Type} (a b : list A) :
  nonempty (a ++ b) = (nonempty a || nonempty b)%bool.
Proof. destruct a; reflexivity. Qed.

Lemma relayed_trans (q1 q2 q3 : StreamReq) :
  relayed q1 q2 -> relayed q2 q3 -> relayed q1 q3.
Proof.
  intros (Hm1 & Hfin1 & Hs1 & Hb1 & He1 & a1 & Hf1 & Hp1 & Hc1)
         (Hm2 & Hfin2 & Hs2 & Hb2 & He2 & a2 & Hf2 & Hp2 & Hc2).
  unfold relayed. repeat split; try congruence.
  exists (a1 ++ a2)%list. repeat split.
  - rewrite Hf2, Hf1, app_assoc. reflexivity.
  - rewrite forallb_app, Hp1, Hp2. reflexivity.
  - rewrite Hc2, Hc1, nonempty_app, orb_assoc. reflexivity.
Qed.

Lemma relay_relayed (q : StreamReq) (t : string) :
  ended (res q) = false -> relayed q (relay q t).
Proof.
  intros Hopen. unfold relay.
  destruct (parse_cli_event t) as [event|]; [|now apply relayed_refl].
  unfold handleStreamEvent.
  destruct (ClaudeCli.ev_event event) as [inner|]; cbn.
  2: { unfold relayed; cbn; repeat split; auto.
       exists []. rewrite app_nil_r, orb_false_r. auto. }
  destruct (_ && _); cbn.
  2: { unfold relayed; cbn; repeat split; auto.
       exists []. rewrite app_nil_r, orb_false_r. auto. }
  destruct (JSString.truthy_opt _); cbn.
  2: { unfold relayed; cbn; repeat split; auto.
       exists []. rewrite app_nil_r, orb_false_r. auto. }
  match goal with
  | |- context [sendSSE ?f (res q)] =>
      destruct (write_open f (res q) Hopen) as (Hf & He & Hs & Hb & _);
      unfold relayed; cbn; unfold sendSSE; repeat split; auto;
      exists [f]; rewrite Hf, orb_true_r; auto
  end.
Qed.

Lemma onLine_relayed (q : StreamReq) (line : string) :
  ended (res q) = false -> relayed q (onLine q line).
Proof.
  intros Hopen. unfold onLine.
  destruct (negb _); [now apply relayed_refl | now apply relay_relayed].
Qed.

Lemma lines_relayed (lines : list string) :
  forall q, ended (res q) = false -> relayed q (fold_left onLine lines q).
Proof.
  induction lines as [|l lines IH]; intros q Hopen; simpl.
  - now apply relayed_refl.
  - pose proof (onLine_relayed q l Hopen) as Hstep.
    eapply relayed_trans; [exact Hstep|].
    apply IH. eapply relayed_open; exact Hstep.
Qed.

Lemma onStdout_relayed (data : string) (q : StreamReq) :
  ended (res q) = false -> relayed q (onStdout data q).
Proof.
  intros Hopen. unfold onStdout.
  match goal with
  | |- relayed q (fold_left onLine ?l ?q0) =>
      apply (relayed_trans q q0);
      [ unfold relayed; cbn; repeat split; auto;
        exists []; rewrite app_nil_r, orb_false_r; auto
      | apply lines_relayed; exact Hopen ]
  end.
Qed.

Lemma onStderr_relayed (data : string) (q : StreamReq) :
  ended (res q) = false -> relayed q (onStderr data q).
Proof.
  intros Hopen. unfold relayed; cbn; repeat split; auto.
  exists []. rewrite app_nil_r, orb_false_r. auto.
Qed.

(** While the process only prints, the server state is untouched and the
    response only gains content chunks. *)
Lemma outputs_relayed (events : list ProcEvent) :
  forallb is_output events = true ->
  forall srv q, ended (res q) = false ->
    fst (runStream events (srv, q)) = srv
    /\ relayed q (snd (runStream events (srv, q))).
Proof.
  unfold runStream.
  induction events as [|e events IH]; intros Hout srv q Hopen; simpl.
  - split; [reflexivity | now apply relayed_refl].
  - simpl in Hout. apply andb_true_iff in Hout as [He Hrest].
    destruct e; try discriminate He; cbn [onProcEvent].
    + pose proof (onStdout_relayed data q Hopen) as Hstep.
      destruct (IH Hrest srv (onStdout data q)) as [Hsrv Hrel];
        [eapply relayed_open; exact Hstep|].
      split; [exact Hsrv | exact (relayed_trans _ _ _ Hstep Hrel)].
    + pose proof (onStderr_relayed data q Hopen) as Hstep.
      destruct (IH Hrest srv (onStderr data q)) as [Hsrv Hrel];
        [eapply relayed_open; exact Hstep|].
      split; [exact Hsrv | exact (relayed_trans _ _ _ Hstep Hrel)].
Qed.

(** The [close] handler on a request that is still open: what is left in
    the buffer is relayed, then the stream is closed. *)
Lemma onClose_open (code : option Z) (srv : Server) (q : StreamReq) :
  finished q = false -> ended (res q) = false ->
  exists tail err,
    forallb is_content tail = true
    /\ frames (res (snd (onClose code srv q))) =
         (frames (res q) ++ tail
          ++ (if negb (exited_zero code) && negb (sentContent q || nonempty tail)
              then [FErrorEvent err] else [])
          ++ [Direct.chunk (meta q) DEmpty
                (Some (closeFinishReason code (sentContent q || nonempty tail)));
              FDone])%list
    /\ statusCode (res (snd (onClose code srv q))) = statusCode (res q)
    /\ body (res (snd (onClose code srv q))) = body (res q)
    /\ ended (res (snd (onClose code srv q))) = true
    /\ finished (snd (onClose code srv q)) = true
    /\ fst (onClose code srv q) = release srv.
Proof.
  intros Hfin Hopen. unfold onClose.
  set (q1 := if JSString.truthy (JSString.trim (buffer q)) then relay q (buffer q) else q).
  assert (Hrel : relayed q q1).
  { subst q1. destruct (JSString.truthy _);
      [now apply relay_relayed | now apply relayed_refl]. }
  destruct Hrel as (Hm & Hf1 & Hs & Hb & He & tail & Hfr & Hcontent & Hsent).
  rewrite Hf1, Hfin, Hsent, Hm.
  exists tail, (MsgCliExit code (JSString.take 200 (stderr q1))).
  split; [exact Hcontent|].
  cbn [fst snd finish res finished].
  set (bad := negb (exited_zero code) && negb (sentContent q || nonempty tail)).
  set (r1 := if bad then sendSSE _ (res q1) else res q1).
  assert (H1 : frames r1 = (frames (res q) ++ tail
                            ++ (if bad
                                then [FErrorEvent (MsgCliExit code (JSString.take 200 (stderr q1)))]
                                else []))%list
               /\ ended r1 = false /\ statusCode r1 = statusCode (res q)
               /\ body r1 = body (res q)).
  { subst r1. destruct bad.
    - destruct (write_open (FErrorEvent (MsgCliExit code (JSString.take 200 (stderr q1))))
                           (res q1) He) as (Hf & He' & Hs' & Hb' & _).
      unfold sendSSE. rewrite Hf, Hfr, Hs', Hb', Hs, Hb, <- app_assoc. auto.
    - rewrite Hfr, app_nil_r. auto. }
  destruct H1 as (Hfr1 & He1 & Hs1 & Hb1).
  match goal with
  | |- context [sendSSE ?f r1] =>
      destruct (write_open f r1 He1) as (Hfr2 & He2 & Hs2 & Hb2 & _);
      destruct (write_open FDone (write f r1) He2) as (Hfr3 & _ & Hs3 & Hb3 & _);
      unfold sendSSE
  end.
  cbn [end_ frames statusCode body ended].
  rewrite Hfr3, Hfr2, Hfr1, Hs3, Hs2, Hs1, Hb3, Hb2, Hb1.
  repeat rewrite <- app_assoc. cbn [app]. repeat split; reflexivity.
Qed.

(** A process that prints and then closes, seen from an open request. *)
Lemma stream_closes (events : list ProcEvent) (code : option Z)
      (srv : Server) (q0 : StreamReq) :
  forallb is_output events = true ->
  finished q0 = false -> ended (res q0) = false ->
  exists contents err,
    forallb is_content contents = true
    /\ frames (res (snd (runStream (events ++ [Close code]) (srv, q0)))) =
         (frames (res q0) ++ contents
          ++ (if negb (exited_zero code) && negb (sentContent q0 || nonempty contents)
              then [FErrorEvent err] else [])
          ++ [Direct.chunk (meta q0) DEmpty
                (Some (closeFinishReason code (sentContent q0 || nonempty contents)));
              FDone])%list
    /\ statusCode (res (snd (runStream (events ++ [Close code]) (srv, q0))))
       = statusCode (res q0)
    /\ body (res (snd (runStream (events ++ [Close code]) (srv, q0)))) = body (res q0)
    /\ ended (res (snd (runStream (events ++ [Close code]) (srv, q0)))) = true
    /\ finished (snd (runStream (events ++ [Close code]) (srv, q0))) = true
    /\ fst (runStream (events ++ [Close code]) (srv, q0)) = release srv.
Proof.
  intros Hout Hfin Hopen.
  destruct (outputs_relayed events Hout srv q0 Hopen) as [Hsrv Hrel].
  unfold runStream in *. rewrite fold_left_app. cbn [fold_left].
  destruct (fold_left onProcEvent events (srv, q0)) as [srv1 q1].
  cbn [fst snd] in Hsrv, Hrel. subst srv1. cbn [onProcEvent].
  destruct Hrel as (Hm & Hf1 & Hs & Hb & He & added & Hfr & Hcontent & Hsent).
  destruct (onClose_open code srv q1) as (tail & err & Htail & Hfr' & Hs' & Hb' & He' & Hf' & Hsrv');
    [congruence | exact He |].
  exists (added ++ tail)%list, err.
  rewrite forallb_app, Hcontent, Htail, Hfr', Hs', Hb', He', Hf', Hsrv', Hfr, Hs, Hb, Hm, Hsent.
  rewrite nonempty_app, orb_assoc. repeat rewrite <- app_assoc.
  repeat split; reflexivity.
Qed.

End CliStream.

(* ------------------------------------------------------------------------- *)
(** ** How a stream ends                                                     *)
(* ------------------------------------------------------------------------- *)

Section StreamEnd.
Import Http Observe.

Lemma content_is_delta (f : Frame) : is_content f = true -> is_delta_chunk f = true.
Proof.
  destruct f as [c| |]; try discriminate. cbn.
  destruct (c_delta c), (c_finish_reason c); auto.
Qed.

Lemma delta_not_terminal (f : Frame) :
  is_delta_chunk f = true ->
  is_finish f = false /\ is_done f = false /\ is_error_event f = false.
Proof.
  destruct f as [c| |]; try discriminate. cbn.
  destruct (c_delta c), (c_finish_reason c); try discriminate; auto.
Qed.

Lemma finish_not_other (f : Frame) :
  is_finish f = true -> is_done f = false /\ is_error_event f = false.
Proof. destruct f; try discriminate; auto. Qed.

Lemma forallb_impl {A : Type} (p q : A -> bool) (l : list A) :
  (forall x, p x = true -> q x = true) -> forallb p l = true -> forallb q l = true.
Proof.
  intros Hpq. induction l as [|x l IH]; simpl; [reflexivity|].
  intros Hl. apply andb_true_iff in Hl as [Hx Hl].
  rewrite (Hpq x Hx), (IH Hl). reflexivity.
Qed.

Lemma filter_none {A : Type} (p q : A -> bool) (l : list A) :
  (forall x, p x = true -> q x = false) -> forallb p l = true -> filter q l = [].
Proof.
  intros Hpq. induction l as [|x l IH]; simpl; [reflexivity|].
  intros Hl. apply andb_true_iff in Hl as [Hx Hl].
  rewrite (Hpq x Hx). apply IH, Hl.
Qed.

Lemma existsb_none {A : Type} (p q : A -> bool) (l : list A) :
  (forall x, p x = true -> q x = false) -> forallb p l = true -> existsb q l = false.
Proof.
  intros Hpq. induction l as [|x l IH]; simpl; [reflexivity|].
  intros Hl. apply andb_true_iff in Hl as [Hx Hl].
  rewrite (Hpq x Hx). apply IH, Hl.
Qed.

(** In a stream closed cleanly there is one finish chunk, one sentinel and no
    error event. *)
Lemma closes_cleanly_counts (r : Res) :
  closes_cleanly r ->
  length (filter is_finish (frames r)) = 1%nat
  /\ length (filter is_done (frames r)) = 1%nat
  /\ existsb is_error_event (frames r) = false.
Proof.
  intros (progress & fin & Hfr & Hdelta & Hfin & _ & _).
  destruct (finish_not_other fin Hfin) as [Hnd Hne].
  rewrite Hfr, !filter_app, existsb_app. cbn. rewrite Hfin, Hnd, Hne.
  rewrite (filter_none is_delta_chunk is_finish), (filter_none is_delta_chunk is_done),
          (existsb_none is_delta_chunk is_error_event);
    try exact Hdelta; try (intros x Hx; apply delta_not_terminal in Hx; tauto).
  auto.
Qed.

Lemma finish_reasons_app (a b : list Frame) :
  finish_reasons (a ++ b) = (finish_reasons a ++ finish_reasons b)%list.
Proof.
  induction a as [|f a IH]; simpl; [reflexivity|].
  destruct f as [c| |]; try exact IH.
  destruct (c_finish_reason c); simpl; now rewrite IH.
Qed.

Lemma finish_reasons_content (l : list Frame) :
  forallb is_content l = true -> finish_reasons l = [].
Proof.
  induction l as [|f l IH]; simpl; [reflexivity|].
  intros Hl. apply andb_true_iff in Hl as [Hf Hl].
  destruct f as [c| |]; try discriminate. cbn in Hf.
  destruct (c_delta c), (c_finish_reason c); try discriminate. auto.
Qed.

Lemma finish_reasons_delta (l : list Frame) :
  forallb is_delta_chunk l = true -> finish_reasons l = [].
Proof.
  induction l as [|f l IH]; simpl; [reflexivity|].
  intros Hl. apply andb_true_iff in Hl as [Hf Hl].
  destruct f as [c| |]; try discriminate. cbn in Hf.
  destruct (c_delta c), (c_finish_reason c); try discriminate; auto.
Qed.

Lemma existsb_content (l : list Frame) :
  forallb is_content l = true -> existsb is_content l = nonempty l.
Proof.
  destruct l as [|f l]; simpl; [reflexivity|].
  intros Hl. apply andb_true_iff in Hl as [Hf _]. now rewrite Hf.
Qed.

Context `{Runtime}.

(** A streaming request of the process variant that was started has sent
    the role chunk and nothing else. *)
Lemma cli_stream_started (cfg : Cli.Config) (chat : Cli.ChatRequest) (now : Z) (rng : nat)
      (srv srv1 : Cli.Server) (q0 : Cli.StreamReq) :
  Cli.postChatCompletions cfg chat None now rng srv = (srv1, Cli.StreamStarted q0) ->
  Cli.finished q0 = false /\ Cli.sentContent q0 = false
  /\ frames (Cli.res q0) = [Direct.chunk (Cli.meta q0) DRole None]
  /\ ended (Cli.res q0) = false
  /\ statusCode (Cli.res q0) = 200%Z /\ body (Cli.res q0) = None.
Proof.
  unfold Cli.postChatCompletions. cbn [genId].
  destruct (Cli.validateChatRequest chat); [|discriminate].
  destruct (Cli.acquire cfg srv) as [[|] s1]; cbn [negb]; [|discriminate].
  destruct (Cli.convertMessages _) as [sp up].
  destruct (Cli.req_stream chat); [|discriminate].
  intros Heq. inversion Heq; subst. cbn. auto 10.
Qed.

(** The frames of a started streaming request whose process prints and then
    closes: the role chunk, content chunks, an error event when the exit was
    abnormal and nothing had been relayed, the finish chunk and the
    sentinel. *)
Lemma cli_stream_shape (cfg : Cli.Config) (chat : Cli.ChatRequest) (now : Z) (rng : nat)
      (srv srv1 : Cli.Server) (q0 : Cli.StreamReq)
      (events : list Cli.ProcEvent) (code : option Z) :
  Cli.postChatCompletions cfg chat None now rng srv = (srv1, Cli.StreamStarted q0) ->
  forallb is_output events = true ->
  exists contents err,
    forallb is_content contents = true
    /\ frames (Cli.res (snd (Cli.runStream (events ++ [Cli.Close code]) (srv1, q0)))) =
         ([Direct.chunk (Cli.meta q0) DRole None] ++ contents
          ++ (if negb (Cli.exited_zero code) && negb (nonempty contents)
              then [FErrorEvent err] else [])
          ++ [Direct.chunk (Cli.meta q0) DEmpty
                (Some (Cli.closeFinishReason code (nonempty contents)));
              FDone])%list
    /\ statusCode (Cli.res (snd (Cli.runStream (events ++ [Cli.Close code]) (srv1, q0))))
       = 200%Z
    /\ body (Cli.res (snd (Cli.runStream (events ++ [Cli.Close code]) (srv1, q0)))) = None
    /\ ended (Cli.res (snd (Cli.runStream (events ++ [Cli.Close code]) (srv1, q0)))) = true
    /\ fst (Cli.runStream (events ++ [Cli.Close code]) (srv1, q0)) = Cli.release srv1.
Proof.
  intros Hstart Hout.
  destruct (cli_stream_started _ _ _ _ _ _ _ Hstart) as (Hfin & Hsent & Hfr & Hopen & Hs & Hb).
  destruct (stream_closes events code srv1 q0 Hout Hfin Hopen)
    as (contents & err & Hc & Hfr' & Hs' & Hb' & He' & _ & Hsrv).
  exists contents, err. rewrite Hfr', Hs', Hb', He', Hsrv, Hfr, Hs, Hb, Hsent. cbn [orb].
  repeat split; auto.
Qed.

Lemma shape_has_content (role fin : Frame) (contents errs : list Frame) :
  is_content role = false -> is_content fin = false ->
  forallb is_error_event errs = true ->
  forallb is_content contents = true ->
  existsb is_content ([role] ++ contents ++ errs ++ [fin; FDone]) = nonempty contents.
Proof.
  intros Hrole Hfin Herrs Hc.
  rewrite !existsb_app, (existsb_content contents Hc). cbn. rewrite Hrole, Hfin.
  rewrite (existsb_none is_error_event is_content errs); [|
    intros x Hx; destruct x; try discriminate; reflexivity | exact Herrs].
  cbn. now rewrite !orb_false_r.
Qed.

End StreamEnd.

Section StreamClaims.
Import Http Observe.

Context `{Runtime}.

(** C1. A streaming chat-completion request whose back end ends abnormally
    after content was relayed is still closed cleanly: the client receives
    delta chunks, then exactly one finish chunk, then exactly one
    [data: [DONE]], no error event, and the status stays 200. In the process
    variant the process prints and closes with a code other than zero; in
    the direct-call variant reading the body fails after some chunks. *)
Theorem C1_partial_stream_closes_cleanly :
  (forall (cfg : Cli.Config) (chat : Cli.ChatRequest) (now : Z) (rng : nat)
          (srv srv1 : Cli.Server) (q0 : Cli.StreamReq)
          (events : list Cli.ProcEvent) (code : option Z),
      Cli.postChatCompletions cfg chat None now rng srv = (srv1, Cli.StreamStarted q0) ->
      forallb is_output events = true ->
      Cli.exited_zero code = false ->
      existsb is_content
        (frames (Cli.res (snd (Cli.runStream (events ++ [Cli.Close code]) (srv1, q0)))))
      = true ->
      closes_cleanly (Cli.res (snd (Cli.runStream (events ++ [Cli.Close code]) (srv1, q0))))
      /\ length (filter is_finish
           (frames (Cli.res (snd (Cli.runStream (events ++ [Cli.Close code]) (srv1, q0))))))
         = 1%nat
      /\ length (filter is_done
           (frames (Cli.res (snd (Cli.runStream (events ++ [Cli.Close code]) (srv1, q0))))))
         = 1%nat
      /\ existsb is_error_event
           (frames (Cli.res (snd (Cli.runStream (events ++ [Cli.Close code]) (srv1, q0)))))
         = false)
  /\
  (forall (cfg : Direct.Config) (req : Direct.ChatRequest) (backend : Direct.Backend)
          (now : Z) (rng : nat) (first : OpenAI.Message) (rest : list OpenAI.Message)
          (chunks : list string) (e : ErrMsg),
      Direct.req_messages req = Some (first :: rest) ->
      JSString.truthy (Direct.AUTH_TOKEN cfg) = true ->
      Direct.req_stream req = true ->
      Direct.stream_reply backend = Direct.StreamOk chunks (Some e) ->
      closes_cleanly (Direct.postChatCompletions cfg req backend now rng)
      /\ length (filter is_finish
                        (frames (Direct.postChatCompletions cfg req backend now rng))) = 1%nat
      /\ length (filter is_done
                        (frames (Direct.postChatCompletions cfg req backend now rng))) = 1%nat
      /\ existsb is_error_event
                 (frames (Direct.postChatCompletions cfg req backend now rng)) = false).
Proof.
  split.
  - intros cfg chat now rng srv srv1 q0 events code Hstart Hout Hcode Hcontent.
    destruct (cli_stream_shape cfg chat now rng srv srv1 q0 events code Hstart Hout)
      as (contents & err & Hc & Hfr & Hs & Hb & He & _).
    assert (Hne : nonempty contents = true).
    { rewrite Hfr in Hcontent. rewrite shape_has_content in Hcontent; auto.
      destruct (_ && _); reflexivity. }
    rewrite Hne, andb_false_r in Hfr. cbn [app] in Hfr.
    assert (Hclean : closes_cleanly
              (Cli.res (snd (Cli.runStream (events ++ [Cli.Close code]) (srv1, q0))))).
    { exists (Direct.chunk (Cli.meta q0) DRole None :: contents),
             (Direct.chunk (Cli.meta q0) DEmpty (Some (Cli.closeFinishReason code true))).
      rewrite Hfr.
      split; [reflexivity|].
      split; [cbn; apply (forallb_impl is_content); [apply content_is_delta | exact Hc]|].
      split; [reflexivity|].
      split; [unfold http_error; rewrite Hs, Hb; reflexivity | exact He]. }
    split; [exact Hclean | now apply closes_cleanly_counts].
  - intros cfg req backend now rng first rest chunks e Hmsgs Hauth Hstream Hreply.
    destruct (postChatCompletions_streaming cfg req backend now rng first rest chunks
                (Some e) Hmsgs Hauth Hstream Hreply) as (id & rng' & ->).
    pose (m := {| Direct.m_id := id; Direct.m_created := now;
                  Direct.m_model := Direct.resolveModel cfg (Direct.req_model req) |}).
    destruct (handleStreaming_frames m chunks (Some e) rng')
      as (deltas & Hfr & Hd & Hs & Hb & He & _ & _).
    cbn [Direct.m_id Direct.m_created Direct.m_model m] in Hfr, Hs, Hb, He.
    match goal with
    | |- closes_cleanly ?r /\ _ => assert (Hclean : closes_cleanly r)
    end.
    { eexists (_ :: deltas), _. rewrite Hfr.
      split; [reflexivity|]. split; [exact Hd|]. split; [reflexivity|].
      split; [unfold http_error; rewrite Hs, Hb; reflexivity | exact He]. }
    split; [exact Hclean | now apply closes_cleanly_counts].
Qed.

(** C2, as amended. In the streaming path of the process variant, when the
    process prints and then exits with a code other than zero, the stream
    carries exactly one finish reason: "stop" when content was relayed, with
    no error event, and "error" only when no content was relayed, after an
    error event. *)
Theorem C2_nonzero_exit_finish_reason
        (cfg : Cli.Config) (chat : Cli.ChatRequest) (now : Z) (rng : nat)
        (srv srv1 : Cli.Server) (q0 : Cli.StreamReq)
        (events : list Cli.ProcEvent) (code : option Z) :
  Cli.postChatCompletions cfg chat None now rng srv = (srv1, Cli.StreamStarted q0) ->
  forallb is_output events = true ->
  Cli.exited_zero code = false ->
  finish_reasons
    (frames (Cli.res (snd (Cli.runStream (events ++ [Cli.Close code]) (srv1, q0)))))
  = [ if existsb is_content
           (frames (Cli.res (snd (Cli.runStream (events ++ [Cli.Close code]) (srv1, q0)))))
      then "stop" else "error" ]
  /\ existsb is_error_event
       (frames (Cli.res (snd (Cli.runStream (events ++ [Cli.Close code]) (srv1, q0)))))
     = negb (existsb is_content
               (frames (Cli.res (snd (Cli.runStream (events ++ [Cli.Close code])
                                                    (srv1, q0)))))).
Proof.
  intros Hstart Hout Hcode.
  destruct (cli_stream_shape cfg chat now rng srv srv1 q0 events code Hstart Hout)
    as (contents & err & Hc & Hfr & _).
  rewrite Hfr, shape_has_content; auto; [|destruct (_ && _); reflexivity].
  rewrite !finish_reasons_app, !existsb_app, (finish_reasons_content contents Hc).
  rewrite (existsb_none is_content is_error_event contents);
    [| intros x Hx; apply content_is_delta, delta_not_terminal in Hx; tauto | exact Hc].
  unfold Cli.closeFinishReason. rewrite Hcode.
  destruct (nonempty contents); cbn; auto.
Qed.

(** C3, as amended. [mapStopReason], the mapping of the direct-call variant,
    is a total function into stop, length and tool_calls: tool_use gives
    tool_calls, max_tokens gives length, every other reason and an absent
    one give stop; the finish reason of its stream end and of its response
    assembler is that mapping applied to the recorded reason. The process
    variant maps no stop reason: the finish reason of its stream end is
    "stop", or "error" when the process exits with a code other than zero
    before any content was relayed. *)
Theorem C3_stop_reason_mapping :
  (forall reason,
      Direct.mapStopReason reason =
        (if JSString.is_lit reason "tool_use" then "tool_calls"
         else if JSString.is_lit reason "max_tokens" then "length"
         else "stop")
      /\ Direct.finishReasonOf reason = Direct.mapStopReason reason
      /\ In (Direct.mapStopReason reason) ["stop"; "length"; "tool_calls"])
  /\ Direct.mapStopReason None = "stop"
  /\ (forall m chunks failure rng,
         finish_reasons
           (frames (fst (Direct.handleStreaming fresh (Direct.StreamOk chunks failure)
                           (Direct.m_id m) (Direct.m_created m) (Direct.m_model m) rng)))
         = [Direct.mapStopReason
              (Some (Direct.stopReason
                       (fold_left (Direct.onRead m) chunks (Direct.streamStart m fresh rng))))])
  /\ (forall m res rng, Direct.stopReason (Direct.streamStart m res rng) = "stop")
  /\ (forall m st e,
         Direct.stopReason (Direct.onEvent m st e) =
         match Anthropic.e_delta e with
         | Some d =>
             if JSString.is_lit (Anthropic.e_type e) "message_delta"
                && JSString.truthy_opt (Anthropic.d_stop_reason d)
             then JSString.or_else (Anthropic.d_stop_reason d) ""
             else Direct.stopReason st
         | None => Direct.stopReason st
         end)
  /\ (forall failure id created model rng,
         finish_reasons
           (frames (fst (Direct.handleStreaming fresh (Direct.StreamOk [] failure)
                                                id created model rng)))
         = ["stop"])
  /\ (forall res result id created model rng,
         exists content calls usage,
           body (fst (Direct.handleNonStreaming res (Direct.JsonOk result)
                                                id created model rng))
           = Some (BodyChat id created model content calls
                            (Direct.mapStopReason (Anthropic.r_stop_reason result)) usage))
  /\ (forall cfg chat now rng srv srv1 q0 events code,
         Cli.postChatCompletions cfg chat None now rng srv = (srv1, Cli.StreamStarted q0) ->
         forallb is_output events = true ->
         finish_reasons
           (frames (Cli.res (snd (Cli.runStream (events ++ [Cli.Close code]) (srv1, q0)))))
         = [ if Cli.exited_zero code
                || existsb is_content
                     (frames (Cli.res (snd (Cli.runStream (events ++ [Cli.Close code])
                                                          (srv1, q0)))))
             then "stop" else "error" ]).
Proof.
  split.
  { intros reason. split; [|split].
    - rewrite mapStopReason_spec. destruct reason as [s|]; cbn; [|reflexivity].
      destruct (String.eqb_spec s "tool_use") as [->|]; reflexivity.
    - apply finishReasonOf_mapStopReason.
    - apply mapStopReason_range. }
  split; [reflexivity|].
  split.
  { intros m chunks failure rng.
    destruct (handleStreaming_frames m chunks failure rng) as (deltas & Hfr & Hd & _).
    rewrite Hfr. cbn [finish_reasons Direct.chunk c_finish_reason].
    rewrite finish_reasons_app, (finish_reasons_delta deltas Hd).
    cbn. now rewrite finishReasonOf_mapStopReason. }
  split; [reflexivity|].
  split; [apply onEvent_stopReason|].
  split; [reflexivity|].
  split.
  { intros res result id created model rng. unfold Direct.handleNonStreaming.
    destruct (Direct.extractResponseContent _ _) as [[text calls] rng'].
    cbn. rewrite finishReasonOf_mapStopReason. eauto. }
  intros cfg chat now rng srv srv1 q0 events code Hstart Hout.
  destruct (cli_stream_shape cfg chat now rng srv srv1 q0 events code Hstart Hout)
    as (contents & err & Hc & Hfr & _).
  rewrite Hfr, shape_has_content; auto; [|destruct (_ && _); reflexivity].
  rewrite !finish_reasons_app, (finish_reasons_content contents Hc).
  unfold Cli.closeFinishReason.
  destruct (negb (Cli.exited_zero code) && negb (nonempty contents)); reflexivity.
Qed.

End StreamClaims.

(* ------------------------------------------------------------------------- *)
(** ** Examples on the sample runtime                                        *)
(* ------------------------------------------------------------------------- *)

Section StreamExamples.
Import Http Observe.
Local Open Scope Z_scope.

(** The process prints "Hel" and "lo", then exits with code 1; the back end
    of the direct-call variant breaks after the same two increments. *)
Lemma C1_partial_stream_closes_cleanly_witness :
  (Cli.exited_zero (Some 1) = false
   /\ existsb is_content (frames Sample.cli_partial_failure) = true
   /\ closes_cleanly Sample.cli_partial_failure
   /\ length (filter is_finish (frames Sample.cli_partial_failure)) = 1%nat
   /\ length (filter is_done (frames Sample.cli_partial_failure)) = 1%nat)
  /\ closes_cleanly (@Direct.postChatCompletions Sample.runtime Sample.direct_cfg
                       Sample.direct_stream_request Sample.broken_backend 1700000000 0).
Proof.
  split.
  - split; [reflexivity|]. split; [vm_compute; reflexivity|].
    pose proof (proj1 (@C1_partial_stream_closes_cleanly Sample.runtime)
                      Sample.cli_cfg Sample.cli_stream_request 1700000000 0%nat Sample.idle
                      (fst Sample.cli_started) (snd Sample.cli_started)
                      Sample.cli_two_lines (Some 1)) as W.
    destruct W as (Wc & Wf & Wd & _);
      [vm_compute; reflexivity | reflexivity | reflexivity | vm_compute; reflexivity |].
    split; [exact Wc|]. split; [exact Wf | exact Wd].
  - apply (proj2 (@C1_partial_stream_closes_cleanly Sample.runtime)
                 Sample.direct_cfg Sample.direct_stream_request Sample.broken_backend
                 1700000000 0%nat (Sample.user_says "hi") []
                 [ "data: " ++ Sample.api_text_data "Hel" ++ JSString.nl;
                   "data: " ++ Sample.api_text_data "lo" ++ JSString.nl ]
                 (MsgText "terminated")); reflexivity.
Defined.

(** C2 fails as stated: the process prints two increments and exits with
    code 1, and the finish chunk says "stop", not "error". *)
Lemma C2_counterexample :
  Cli.exited_zero (Some 1) = false
  /\ existsb is_content (frames Sample.cli_partial_failure) = true
  /\ finish_reasons (frames Sample.cli_partial_failure) = ["stop"]
  /\ finish_reasons (frames Sample.cli_partial_failure) <> ["error"].
Proof.
  split; [reflexivity|]. split; [vm_compute; reflexivity|].
  split; [vm_compute; reflexivity|]. vm_compute. discriminate.
Qed.

Lemma C2_nonzero_exit_finish_reason_witness :
  finish_reasons (frames Sample.cli_partial_failure) = ["stop"]
  /\ existsb is_error_event (frames Sample.cli_partial_failure) = false.
Proof.
  pose proof (@C2_nonzero_exit_finish_reason Sample.runtime
                Sample.cli_cfg Sample.cli_stream_request 1700000000 0%nat Sample.idle
                (fst Sample.cli_started) (snd Sample.cli_started)
                Sample.cli_two_lines (Some 1)) as W.
  destruct W as [Wr We]; [vm_compute; reflexivity | reflexivity | reflexivity |].
  split; [exact Wr | exact We].
Defined.

(** C3 fails as stated on the process variant: a process that exits with
    code 1 before printing anything closes the stream with the finish reason
    "error", which is none of stop, length and tool_calls. *)
Lemma C3_counterexample :
  finish_reasons (frames Sample.cli_early_failure) = ["error"]
  /\ ~ In "error" ["stop"; "length"; "tool_calls"].
Proof.
  split; [vm_compute; reflexivity|].
  cbn. intros [Hx | [Hx | [Hx | []]]]; discriminate Hx.
Qed.

Lemma C3_stop_reason_mapping_witness :
  finish_reasons (frames Sample.cli_early_failure) = ["error"]
  /\ finish_reasons (frames Sample.cli_partial_failure) = ["stop"].
Proof.
  split.
  - exact (proj2 (proj2 (proj2 (proj2 (proj2 (proj2 (proj2
                 (@C3_stop_reason_mapping Sample.runtime)))))))
                 Sample.cli_cfg Sample.cli_stream_request 1700000000 0%nat Sample.idle
                 (fst Sample.cli_started) (snd Sample.cli_started) [] (Some 1)
                 ltac:(vm_compute; reflexivity) ltac:(reflexivity)).
  - exact (proj2 (proj2 (proj2 (proj2 (proj2 (proj2 (proj2
                 (@C3_stop_reason_mapping Sample.runtime)))))))
                 Sample.cli_cfg Sample.cli_stream_request 1700000000 0%nat Sample.idle
                 (fst Sample.cli_started) (snd Sample.cli_started)
                 Sample.cli_two_lines (Some 1)
                 ltac:(vm_compute; reflexivity) ltac:(reflexivity)).
Defined.

(** Two slots: two attempts are admitted, the third is refused. *)
Lemma C6_admission_exactly_capacity_witness :
  1 <= Cli.MAX_CONCURRENT Sample.cli_cfg
  /\ attempts Sample.cli_cfg 3 0 = ([true; true; false], 2).
Proof.
  assert (Hcap : 1 <= Cli.MAX_CONCURRENT Sample.cli_cfg) by (cbn; lia).
  split; [exact Hcap|].
  exact (proj1 (proj2 (@C6_admission_exactly_capacity Sample.runtime Sample.cli_cfg Hcap))).
Defined.

(** Three acquires and four releases on two slots. *)
Lemma C9_counter_within_bounds_witness :
  0 <= 0 <= Cli.MAX_CONCURRENT Sample.cli_cfg
  /\ 0 <= slot_run Sample.cli_cfg
                   [Acquire; Acquire; Acquire; Release; Release; Release; Release] 0
     <= Cli.MAX_CONCURRENT Sample.cli_cfg.
Proof.
  assert (Hn : 0 <= 0 <= Cli.MAX_CONCURRENT Sample.cli_cfg) by (cbn; lia).
  split; [exact Hn|].
  exact (proj1 (C9_counter_within_bounds Sample.cli_cfg
                  [Acquire; Acquire; Acquire; Release; Release; Release; Release] 0 Hn)).
Defined.

End StreamExamples.

(* ------------------------------------------------------------------------- *)
(** ** The message converter                                                 *)
(* ------------------------------------------------------------------------- *)

Section Converter.
Import OpenAI Observe Direct.

Lemma last_msg_snoc (l : list NativeMsg) (a : NativeMsg) : last_msg (l ++ [a]) = Some a.
Proof. unfold last_msg. now rewrite rev_unit. Qed.

Lemma pushMessage_nil (role : string) (c : NContent) :
  pushMessage [] role c = [ {| n_role := role; n_content := c |} ].
Proof. reflexivity. Qed.

(** On an array that ends with [a]: merge into [a] or append. *)
Lemma pushMessage_snoc (l : list NativeMsg) (a : NativeMsg) (role : string) (c : NContent) :
  pushMessage (l ++ [a]) role c =
  if n_role a =? role
  then (l ++ [ {| n_role := n_role a;
                  n_content := NArr (blocks_of (n_content a) ++ blocks_of c) |} ])%list
  else (l ++ [a; {| n_role := role; n_content := c |}])%list.
Proof.
  unfold pushMessage. rewrite last_msg_snoc, removelast_last.
  destruct (n_role a =? role); [reflexivity|].
  now rewrite <- app_assoc.
Qed.

Lemma alternating_snoc2 (l : list NativeMsg) (a b : NativeMsg) :
  alternating (l ++ [a; b]) = alternating (l ++ [a]) && negb (n_role a =? n_role b).
Proof.
  induction l as [|x l IH].
  - cbn. now rewrite andb_true_r.
  - destruct l as [|y l].
    + cbn. now rewrite !andb_true_r.
    + cbn [app alternating] in *. rewrite IH. now rewrite andb_assoc.
Qed.

Lemma alternating_last_role (l : list NativeMsg) (a a' : NativeMsg) :
  n_role a = n_role a' -> alternating (l ++ [a]) = alternating (l ++ [a']).
Proof.
  intros Hrole. induction l as [|x l IH]; [reflexivity|].
  destruct l as [|y l].
  - cbn. now rewrite Hrole.
  - cbn [app alternating] in *. now rewrite IH.
Qed.

Lemma pushMessage_alternating (arr : list NativeMsg) (role : string) (c : NContent) :
  alternating arr = true -> alternating (pushMessage arr role c) = true.
Proof.
  destruct arr as [|a l _] using rev_ind; [reflexivity|].
  intros Halt. rewrite pushMessage_snoc.
  destruct (n_role a =? role) eqn:Hrole.
  - rewrite <- Halt. now apply alternating_last_role.
  - rewrite alternating_snoc2, Halt. cbn [n_role]. now rewrite Hrole.
Qed.

Lemma all_blocks_app (a b : list NativeMsg) :
  all_blocks (a ++ b) = (all_blocks a ++ all_blocks b)%list.
Proof. unfold all_blocks. now rewrite map_app, concat_app. Qed.

(** Pushing keeps every block and puts the new ones last. *)
Lemma pushMessage_blocks (arr : list NativeMsg) (role : string) (c : NContent) :
  all_blocks (pushMessage arr role c) = (all_blocks arr ++ blocks_of c)%list.
Proof.
  destruct arr as [|a l _] using rev_ind.
  - cbn. now rewrite app_nil_r.
  - rewrite pushMessage_snoc. destruct (n_role a =? role).
    + rewrite !all_blocks_app. cbn. now rewrite !app_nil_r, app_assoc.
    + change [a; {| n_role := role; n_content := c |}]
        with ([a] ++ [ {| n_role := role; n_content := c |} ])%list.
      rewrite app_assoc, all_blocks_app. cbn. now rewrite app_nil_r.
Qed.

(** The entry that a push leaves last has the pushed role and ends with the
    pushed blocks. *)
Lemma pushMessage_last (arr : list NativeMsg) (role : string) (c : NContent) :
  exists m before,
    last_msg (pushMessage arr role c) = Some m
    /\ n_role m = role
    /\ blocks_of (n_content m) = (before ++ blocks_of c)%list.
Proof.
  destruct arr as [|a l _] using rev_ind.
  - exists {| n_role := role; n_content := c |}, []. cbn. auto.
  - rewrite pushMessage_snoc. destruct (String.eqb_spec (n_role a) role) as [Heq|Hne].
    + eexists _, (blocks_of (n_content a)). rewrite last_msg_snoc. cbn. auto.
    + change [a; {| n_role := role; n_content := c |}]
        with ([a] ++ [ {| n_role := role; n_content := c |} ])%list.
      rewrite app_assoc, last_msg_snoc.
      exists {| n_role := role; n_content := c |}, []. cbn. auto.
Qed.

Context `{Runtime}.

(** Each message either leaves the native list alone or is pushed on it. *)
Lemma convertStep_pushes (st : ConvState) (msg : Message) :
  anthropicMessages (convertStep st msg) = anthropicMessages st
  \/ exists role c,
       anthropicMessages (convertStep st msg) = pushMessage (anthropicMessages st) role c.
Proof.
  unfold convertStep.
  destruct (role msg =? "system"); [left; reflexivity|].
  destruct ((role msg =? "assistant") && has_tool_calls msg).
  { destruct (convertToolCalls _ _). right. cbn. eauto. }
  destruct (role msg =? "tool"); right; cbn; eauto.
Qed.

Lemma convertStep_alternating (st : ConvState) (msg : Message) :
  alternating (anthropicMessages st) = true ->
  alternating (anthropicMessages (convertStep st msg)) = true.
Proof.
  intros Halt. destruct (convertStep_pushes st msg) as [-> | (role & c & ->)];
    [exact Halt | now apply pushMessage_alternating].
Qed.

Lemma convertLoop_alternating (msgs : list Message) (rng : nat) :
  alternating (anthropicMessages (convertLoop msgs rng)) = true.
Proof.
  unfold convertLoop.
  assert (Hgen : forall st, alternating (anthropicMessages st) = true ->
                            alternating (anthropicMessages (fold_left convertStep msgs st)) = true).
  { induction msgs as [|msg msgs IH]; intros st Hst; simpl; [exact Hst|].
    apply IH. now apply convertStep_alternating. }
  apply Hgen. reflexivity.
Qed.

Lemma ensureUserFirst_alternating (arr : list NativeMsg) :
  alternating arr = true -> alternating (ensureUserFirst arr) = true.
Proof.
  intros Halt. unfold ensureUserFirst. destruct arr as [|a l]; [reflexivity|].
  destruct (n_role a =? "user") eqn:Hrole; cbn [negb]; [exact Halt|].
  cbn [alternating continue_msg n_role]. rewrite String.eqb_sym, Hrole. exact Halt.
Qed.

(** The blocks of the calls of one message: one per call, in order. *)
Lemma convertToolCalls_spec (calls : list ToolCall) :
  forall rng, Forall2 tool_use_of calls (fst (convertToolCalls calls rng)).
Proof.
  induction calls as [|tc calls IH]; intros rng; cbn [convertToolCalls].
  - constructor.
  - destruct (convertToolCall tc rng) as [b rng1] eqn:Hb.
    specialize (IH rng1). destruct (convertToolCalls calls rng1) as [bs rng2].
    cbn [fst] in *. constructor; [|exact IH].
    unfold convertToolCall in Hb. unfold tool_use_of, call_name, call_arguments.
    destruct tc as [tid tfn]. cbn [tc_id tc_function] in *.
    assert (Hid_some : JSString.truthy_opt tid = true -> tid = Some (JSString.or_else tid "")).
    { destruct tid as [id|]; [|discriminate]. cbn. now intros ->. }
    destruct tfn as [f|]; destruct (JSString.truthy_opt tid) eqn:Hid;
      inversion Hb; subst; eexists; (split; [reflexivity|]);
      (split; [ intros Ht; try discriminate Ht; now apply Hid_some
              | intros Ht; try discriminate Ht; exists rng; reflexivity ]).
Qed.

End Converter.

Section ConverterClaims.
Import OpenAI Observe Direct.

Context `{Runtime}.

(** C4. The native message list produced by the converter has no two
    consecutive entries with the same role. Every message is either left out
    of the list or pushed on it, and a push on a list whose last entry has
    the pushed role replaces that entry by one whose content is the blocks
    of the entry followed by the pushed blocks; otherwise it appends. No
    push loses or reorders a block. *)
Theorem C4_no_consecutive_same_role (cfg : Config) (msgs : list Message) (rng : nat) :
  alternating (messages (fst (convertMessages cfg msgs rng))) = true
  /\ (forall st msg,
         anthropicMessages (convertStep st msg) = anthropicMessages st
         \/ exists role c,
              anthropicMessages (convertStep st msg)
              = pushMessage (anthropicMessages st) role c)
  /\ (forall arr last role c,
         n_role last = role ->
         pushMessage (arr ++ [last]) role c =
         (arr ++ [ {| n_role := role;
                      n_content := NArr (blocks_of (n_content last) ++ blocks_of c) |} ])%list)
  /\ (forall arr last role c,
         n_role last <> role ->
         pushMessage (arr ++ [last]) role c =
         (arr ++ [last; {| n_role := role; n_content := c |}])%list)
  /\ (forall arr role c,
         all_blocks (pushMessage arr role c) = (all_blocks arr ++ blocks_of c)%list).
Proof.
  split.
  { cbn. apply ensureUserFirst_alternating, convertLoop_alternating. }
  split; [apply convertStep_pushes|].
  split.
  { intros arr last role c Hrole. rewrite pushMessage_snoc, <- Hrole, String.eqb_refl.
    reflexivity. }
  split.
  { intros arr last role c Hrole. rewrite pushMessage_snoc.
    apply String.eqb_neq in Hrole. now rewrite Hrole. }
  apply pushMessage_blocks.
Qed.

(** C5. The first entry of the native message list, when there is one, has
    the user role: a list that the conversion leaves starting with another
    role gets the placeholder user message "(continue)" in front, and a list
    that starts with the user is left as it is. The list is empty only when
    the conversion pushed nothing. *)
Theorem C5_first_is_user (cfg : Config) (msgs : list Message) (rng : nat) :
  match messages (fst (convertMessages cfg msgs rng)) with
  | [] => anthropicMessages (convertLoop msgs rng) = []
  | first :: _ => n_role first = "user"
  end
  /\ (forall a rest,
         anthropicMessages (convertLoop msgs rng) = a :: rest ->
         n_role a <> "user" ->
         messages (fst (convertMessages cfg msgs rng)) = continue_msg :: a :: rest)
  /\ (forall a rest,
         anthropicMessages (convertLoop msgs rng) = a :: rest ->
         n_role a = "user" ->
         messages (fst (convertMessages cfg msgs rng)) = a :: rest).
Proof.
  cbn [convertMessages fst messages]. unfold ensureUserFirst.
  destruct (anthropicMessages (convertLoop msgs rng)) as [|a l].
  - split; [reflexivity|]. split; intros; discriminate.
  - destruct (String.eqb_spec (n_role a) "user") as [Hu|Hn]; cbn [negb].
    + split; [exact Hu|]. split; intros a' rest Heq Hrole; inversion Heq; subst;
        [contradiction | reflexivity].
    + split; [reflexivity|]. split; intros a' rest Heq Hrole; inversion Heq; subst;
        [reflexivity | contradiction].
Qed.

(** C7. An assistant message that carries tool-call requests is pushed as an
    assistant entry whose blocks are the text, if any, followed by one
    tool-invocation block per requested call, in order; each block has the
    identifier of the call, or a generated one when the call has none, the
    name of the function and the arguments parsed from the argument string.
    A string that is not valid JSON gives the empty object, and the
    conversion goes on. *)
Theorem C7_tool_calls_converted (st : ConvState) (msg : Message) (calls : list ToolCall) :
  role msg = "assistant" ->
  tool_calls msg = Some calls ->
  calls <> [] ->
  exists uses,
    anthropicMessages (convertStep st msg)
    = pushMessage (anthropicMessages st) "assistant"
                  (NArr (leadingText (content msg) ++ uses))
    /\ Forall2 tool_use_of calls uses
    /\ (exists m before,
           last_msg (anthropicMessages (convertStep st msg)) = Some m
           /\ n_role m = "assistant"
           /\ blocks_of (n_content m) = (before ++ leadingText (content msg) ++ uses)%list)
    /\ (forall s, JSON_parse s = None -> parseArguments (Some (JStr s)) = empty_object)
    /\ (forall s v, JSON_parse s = Some v -> parseArguments (Some (JStr s)) = v).
Proof.
  intros Hrole Hcalls Hne.
  pose proof (convertToolCalls_spec calls (entropy st)) as Huses.
  unfold convertStep. rewrite Hrole. cbn [String.eqb Ascii.eqb Bool.eqb andb].
  unfold has_tool_calls. rewrite Hcalls.
  destruct calls as [|tc calls]; [contradiction|].
  cbn [andb]. destruct (convertToolCalls (tc :: calls) (entropy st)) as [uses rng'].
  cbn [fst] in Huses. exists uses. cbn [anthropicMessages].
  split; [reflexivity|]. split; [exact Huses|].
  split.
  { destruct (pushMessage_last (anthropicMessages st) "assistant"
                               (NArr (leadingText (content msg) ++ uses)))
      as (m & before & Hlast & Hm & Hblocks).
    exists m, before. auto. }
  split.
  - intros s Hs. cbn. now rewrite Hs.
  - intros s v Hs. cbn. now rewrite Hs.
Qed.

End ConverterClaims.

Section ConverterExamples.
Import Observe Direct.

(** The conversation that opens with the assistant and repeats the user
    becomes placeholder, assistant, and one merged user entry. *)
Lemma C4_no_consecutive_same_role_witness :
  alternating (messages (fst (@convertMessages Sample.runtime Sample.direct_cfg
                                               Sample.uneven_messages 0))) = true
  /\ pushMessage ([] ++ [ {| n_role := "user"; n_content := NStr "a" |} ]) "user" (NStr "b")
     = [ {| n_role := "user"; n_content := NArr [BText "a"; BText "b"] |} ].
Proof.
  split.
  - exact (proj1 (@C4_no_consecutive_same_role Sample.runtime Sample.direct_cfg
                                               Sample.uneven_messages 0)).
  - exact (proj1 (proj2 (proj2 (@C4_no_consecutive_same_role Sample.runtime
                                  Sample.direct_cfg Sample.uneven_messages 0)))
                 [] {| n_role := "user"; n_content := NStr "a" |} "user" (NStr "b")
                 eq_refl).
Defined.

Lemma C5_first_is_user_witness :
  messages (fst (@convertMessages Sample.runtime Sample.direct_cfg Sample.uneven_messages 0))
  = [ continue_msg;
      {| n_role := "assistant"; n_content := NStr "Hi" |};
      {| n_role := "user"; n_content := NArr [BText "a"; BText "b"] |} ].
Proof.
  refine (proj1 (proj2 (@C5_first_is_user Sample.runtime Sample.direct_cfg
                                          Sample.uneven_messages 0))
                {| n_role := "assistant"; n_content := NStr "Hi" |}
                [ {| n_role := "user"; n_content := NArr [BText "a"; BText "b"] |} ]
                _ _).
  - vm_compute. reflexivity.
  - cbn. discriminate.
Defined.

(** Two requested calls give two blocks; the second has a generated
    identifier and, its argument string being malformed, the empty object. *)
Lemma C7_tool_calls_converted_witness :
  exists uses,
    anthropicMessages (@convertStep Sample.runtime Sample.conv_start Sample.calling_message)
    = [ {| n_role := "assistant"; n_content := NArr uses |} ]
    /\ uses = [ BToolUse "call_1" (Some "get_weather") Sample.prague;
                BToolUse "toolu-AAAAAAAAAAAAAAAA" (Some "get_weather") empty_object ].
Proof.
  destruct (@C7_tool_calls_converted Sample.runtime Sample.conv_start Sample.calling_message
              (match OpenAI.tool_calls Sample.calling_message with
               | Some l => l | None => [] end)
              eq_refl eq_refl ltac:(discriminate))
    as (uses & Hpush & _).
  exists uses. split; [exact Hpush|].
  vm_compute in Hpush. injection Hpush as <-. vm_compute. reflexivity.
Defined.

End ConverterExamples.

(* ------------------------------------------------------------------------- *)
(** ** The response assembler                                                *)
(* ------------------------------------------------------------------------- *)

Section Assembler.
Import Anthropic Http Observe Direct.

Lemma string_app_nil_r (s : string) : s ++ "" = s.
Proof. induction s as [|c s IH]; [reflexivity|]. cbn. now rewrite IH. Qed.

Lemma string_app_assoc (a b c : string) : (a ++ b) ++ c = a ++ (b ++ c).
Proof. induction a as [|x a IH]; [reflexivity|]. cbn. now rewrite IH. Qed.

(** [parts.join('')] is plain concatenation. *)
Lemma join_flat (l : list string) : JSString.join "" l = fold_right append "" l.
Proof.
  unfold JSString.join. induction l as [|x l IH]; [reflexivity|].
  cbn [fold_right]. rewrite <- IH. destruct l; cbn; [now rewrite string_app_nil_r | reflexivity].
Qed.

Lemma flat_snoc (l : list string) (t : string) :
  fold_right append "" (l ++ [t]) = fold_right append "" l ++ t.
Proof.
  induction l as [|x l IH]; cbn; [now rewrite string_app_nil_r|].
  now rewrite IH, string_app_assoc.
Qed.

Lemma text_not_tool (ty : option string) :
  JSString.is_lit ty "text" = true -> JSString.is_lit ty "tool_use" = false.
Proof.
  destruct ty as [s|]; [|discriminate]. cbn. intros Hs.
  apply String.eqb_eq in Hs. subst. reflexivity.
Qed.

Lemma falsy_text (b : RBlock) :
  JSString.truthy_opt (rb_text b) = false -> text_of b = "".
Proof.
  unfold text_of, JSString.truthy_opt, JSString.truthy.
  destruct (rb_text b) as [t|]; [|reflexivity].
  intros Ht. apply negb_false_iff, String.eqb_eq in Ht. exact Ht.
Qed.

Lemma truthy_text (b : RBlock) :
  JSString.truthy_opt (rb_text b) = true -> JSString.or_else (rb_text b) "" = text_of b.
Proof.
  unfold text_of, JSString.truthy_opt, JSString.or_else.
  destruct (rb_text b) as [t|]; [|discriminate]. now intros ->.
Qed.

Context `{Runtime}.

(** The loop of [extractResponseContent]: the texts of the text blocks are
    gathered in order, and each tool-invocation block adds one entry. *)
Lemma extract_fold (blocks : list RBlock) :
  forall acc,
    fold_right append "" (textParts (fold_left extractStep blocks acc))
    = fold_right append "" (textParts acc) ++ text_concat blocks
    /\ exists calls,
         toolCalls (fold_left extractStep blocks acc) = (toolCalls acc ++ calls)%list
         /\ Forall2 tool_call_of (filter is_tool_block blocks) calls.
Proof.
  induction blocks as [|b blocks IH]; intros acc.
  - cbn. rewrite string_app_nil_r. split; [reflexivity|].
    exists []. now rewrite app_nil_r.
  - cbn [fold_left]. destruct (IH (extractStep acc b)) as (Htext & calls & Hcalls & Hall).
    rewrite Htext, Hcalls. clear Htext Hcalls IH.
    unfold text_concat. cbn [filter]. unfold extractStep, is_text_block, is_tool_block.
    destruct (JSString.is_lit (rb_type b) "text") eqn:Htype.
    + rewrite (text_not_tool _ Htype).
      destruct (JSString.truthy_opt (rb_text b)) eqn:Htruthy; cbn [andb textParts toolCalls].
      * rewrite flat_snoc, (truthy_text b Htruthy), string_app_assoc.
        cbn [map fold_right]. split; [reflexivity|]. exists calls. auto.
      * cbn [map fold_right]. rewrite (falsy_text b Htruthy). cbn [append].
        split; [reflexivity|]. exists calls. auto.
    + cbn [andb]. destruct (JSString.is_lit (rb_type b) "tool_use") eqn:Htool.
      * destruct (JSString.truthy_opt (rb_id b)) eqn:Hid; unfold genId; cbn [textParts toolCalls].
        -- split; [reflexivity|]. eexists (_ :: calls). rewrite <- app_assoc.
           split; [reflexivity|]. constructor; [|exact Hall].
           unfold tool_call_of, input_or_empty. cbn.
           repeat split; [|intros Ht; congruence].
           intros _. destruct (rb_id b) as [i|]; [|discriminate]. cbn in *. now rewrite Hid.
        -- split; [reflexivity|]. eexists (_ :: calls). rewrite <- app_assoc.
           split; [reflexivity|]. constructor; [|exact Hall].
           unfold tool_call_of, input_or_empty. cbn.
           repeat split; [intros Ht; congruence|].
           intros _. exists (x_entropy acc). reflexivity.
      * split; [reflexivity|]. exists calls. auto.
Qed.

Lemma extractResponseContent_spec (blocks : list RBlock) (rng : nat) :
  fst (fst (extractResponseContent blocks rng)) = text_concat blocks
  /\ Forall2 tool_call_of (filter is_tool_block blocks)
             (snd (fst (extractResponseContent blocks rng))).
Proof.
  unfold extractResponseContent. cbn [fst snd]. rewrite join_flat.
  destruct (extract_fold blocks {| textParts := []; toolCalls := []; x_entropy := rng |})
    as (Htext & calls & Hcalls & Hall).
  rewrite Htext, Hcalls. cbn. auto.
Qed.

(** C8, as amended. On the non-streaming path the message content is the
    in-order concatenation of the texts of the result's text blocks when
    that concatenation is not empty, and null whenever it is empty, with or
    without tool-invocation blocks; each tool-invocation block is mapped, in
    order, to a tool-call entry with the name of the block, its identifier
    (a generated one when the block has none) and the JSON serialization of
    its input, the empty object standing for a missing input; the field
    [tool_calls] is left out when there is no such block. *)
Theorem C8_response_assembly (res : Res) (result : Result)
        (id : string) (created : Z) (model : string) (rng : nat) :
  chat_content (fst (handleNonStreaming res (JsonOk result) id created model rng))
  = Some (if JSString.truthy
               (text_concat (match r_content result with Some l => l | None => [] end))
          then Some (text_concat (match r_content result with Some l => l | None => [] end))
          else None)
  /\ exists calls,
       Forall2 tool_call_of
               (filter is_tool_block (match r_content result with Some l => l | None => [] end))
               calls
       /\ chat_tool_calls (fst (handleNonStreaming res (JsonOk result) id created model rng))
          = Some (match calls with [] => None | _ :: _ => Some calls end).
Proof.
  unfold handleNonStreaming.
  destruct (extractResponseContent_spec
              (match r_content result with Some l => l | None => [] end) rng) as [Htext Hcalls].
  destruct (extractResponseContent _ rng) as [[text calls] rng'].
  cbn [fst snd] in *. subst text.
  unfold chat_content, chat_tool_calls. cbn.
  split; [reflexivity|]. exists calls. split; [exact Hcalls|].
  destruct calls; reflexivity.
Qed.

(** C10. Every non-streaming response body that carries a completion, chat
    or legacy, of either variant, has [total_tokens] equal to
    [prompt_tokens + completion_tokens]; the counts are those reported by
    the back end, with zero (direct-call variant) or the length-based
    estimate (process variant) for a missing one. *)
Theorem C10_usage_total :
  (forall cfg req backend now rng,
      usage_consistent (postChatCompletions cfg req backend now rng))
  /\ (forall cfg prompt model reply now rng,
         usage_consistent (postCompletions cfg prompt model reply now rng))
  /\ (forall p outcome srv, usage_consistent (snd (Cli.completeChat p outcome srv)))
  /\ (forall p outcome srv, usage_consistent (snd (Cli.completeText p outcome srv)))
  /\ (forall res result id created model rng,
         res_usage (fst (handleNonStreaming res (JsonOk result) id created model rng))
         = Some (usageOf (r_usage result)))
  /\ (forall p result srv,
         res_usage (snd (Cli.completeChat p (inr result) srv))
         = Some (Cli.usageOf (Cli.p_prompt p) result)
         /\ res_usage (snd (Cli.completeText p (inr result) srv))
            = Some (Cli.usageOf (Cli.p_prompt p) result))
  /\ (forall u, total_tokens (usageOf u)
                = (prompt_tokens (usageOf u) + completion_tokens (usageOf u))%Z)
  /\ (forall prompt result,
         total_tokens (Cli.usageOf prompt result)
         = (prompt_tokens (Cli.usageOf prompt result)
            + completion_tokens (Cli.usageOf prompt result))%Z).
Proof.
  split.
  { intros cfg req backend now rng. unfold postChatCompletions. cbn [genId].
    destruct (req_messages req) as [[|m ms]|]; try exact I.
    destruct (JSString.truthy (AUTH_TOKEN cfg)); cbn [negb]; [|exact I].
    destruct (convertMessages cfg (m :: ms) (S rng)) as [native rng2].
    destruct (req_stream req).
    - destruct (stream_reply backend) as [e|chunks failure]; [exact I|].
      pose (mt := {| m_id := "chatcmpl-" ++ randomBytes_base64url rng; m_created := now;
                     m_model := resolveModel cfg (req_model req) |}).
      destruct (handleStreaming_frames mt chunks failure rng2)
        as (deltas & _ & _ & _ & Hb & _ & Hsent & _).
      cbn [m_id m_created m_model mt] in Hb, Hsent.
      destruct (handleStreaming _ _ _ _ _ _) as [r thrown]. cbn [fst] in *.
      destruct thrown; [rewrite Hsent; cbn [negb]|];
        unfold usage_consistent, res_usage; now rewrite Hb.
    - destruct (json_reply backend) as [e|result]; [exact I|].
      unfold handleNonStreaming. destruct (extractResponseContent _ _) as [[text calls] rng'].
      reflexivity. }
  split.
  { intros cfg prompt model reply now rng. unfold postCompletions.
    destruct (negb _); [exact I|]. cbn [genId].
    destruct reply; [exact I | reflexivity]. }
  split; [intros p [e|result] srv; [exact I | reflexivity]|].
  split; [intros p [e|result] srv; [exact I | reflexivity]|].
  split.
  { intros res result id created model rng. unfold handleNonStreaming.
    destruct (extractResponseContent _ _) as [[text calls] rng']. reflexivity. }
  split; [intros; split; reflexivity|].
  split; intros; reflexivity.
Qed.

End Assembler.

Section AssemblerExamples.
Import Anthropic Http Observe Direct.

(** C8 fails as stated on a result with no block at all: there is no text
    block and no tool-invocation block, the concatenation of the texts is
    the empty string, and the content is null. *)
Lemma C8_counterexample :
  filter is_tool_block [] = []
  /\ text_concat [] = ""
  /\ chat_content
       (fst (@handleNonStreaming Sample.runtime fresh
               (JsonOk {| r_content := Some []; r_stop_reason := Some "end_turn";
                          r_usage := None |})
               "chatcmpl-AAAAAAAAAAAAAAAA" 1700000000 "claude-sonnet-4-5-20250929" 0))
     = Some None
  /\ Some (@None string) <> Some (Some (text_concat [])).
Proof.
  split; [reflexivity|]. split; [reflexivity|]. split; [reflexivity|]. discriminate.
Qed.

End AssemblerExamples.

(* ------------------------------------------------------------------------- *)
(** ** Line buffering does not depend on how the bytes arrive                *)
(* ------------------------------------------------------------------------- *)

Section Buffering.
Import JSString Describe.

Lemma split_nl_nonempty (s : string) : split_nl s <> [].
Proof.
  destruct s as [|c s]; cbn; [discriminate|].
  destruct (Ascii.eqb c newline); [discriminate|].
  destruct (split_nl s); discriminate.
Qed.

(** Splitting a text that arrives in two parts: the complete lines of the
    first part, then the split of what the first part left over followed by
    the second part. *)
Lemma split_nl_app (x y : string) :
  split_nl (x ++ y) =
  (removelast (split_nl x) ++ split_nl (last (split_nl x) "" ++ y))%list.
Proof.
  induction x as [|c x IH]; [reflexivity|].
  cbn [append split_nl]. destruct (Ascii.eqb c newline) eqn:Hc.
  - rewrite IH. pose proof (split_nl_nonempty x) as Hne.
    destruct (split_nl x) as [|p ps]; [contradiction|]. reflexivity.
  - rewrite IH. pose proof (split_nl_nonempty x) as Hne.
    destruct (split_nl x) as [|p ps]; [contradiction|].
    destruct ps as [|p' ps].
    + cbn [removelast last app append split_nl]. rewrite Hc. reflexivity.
    + reflexivity.
Qed.

Lemma removelast_app_nonempty {A : Type} (a b : list A) :
  b <> [] -> removelast (a ++ b) = (a ++ removelast b)%list.
Proof. intros Hb. now apply removelast_app. Qed.

Lemma last_app_nonempty {A : Type} (a b : list A) (d : A) :
  b <> [] -> last (a ++ b) d = last b d.
Proof.
  intros Hb. induction a as [|x a IH]; [reflexivity|].
  cbn [app]. destruct (a ++ b)%list eqn:Hab.
  - apply app_eq_nil in Hab as [_ ->]. contradiction.
  - rewrite <- IH. reflexivity.
Qed.

End Buffering.

Section DirectChunking.
Import Http Describe Direct.

Context `{Runtime}.
Variable m : Meta.

Lemma onTextDelta_with_buffer (b : string) (st : StreamState) (e : Anthropic.Event) :
  onTextDelta m e (direct_with_buffer b st) = direct_with_buffer b (onTextDelta m e st).
Proof.
  unfold onTextDelta. destruct (Anthropic.e_delta e) as [d|]; [|reflexivity].
  destruct (_ && _); reflexivity.
Qed.

Lemma onToolStart_with_buffer (b : string) (st : StreamState) (e : Anthropic.Event) :
  onToolStart m e (direct_with_buffer b st) = direct_with_buffer b (onToolStart m e st).
Proof.
  unfold onToolStart. destruct (Anthropic.e_content_block e) as [blk|]; [|reflexivity].
  destruct (_ && _); [|reflexivity].
  destruct (JSString.truthy_opt (Anthropic.cb_id blk)); reflexivity.
Qed.

Lemma onInputDelta_with_buffer (b : string) (st : StreamState) (e : Anthropic.Event) :
  onInputDelta m e (direct_with_buffer b st) = direct_with_buffer b (onInputDelta m e st).
Proof.
  unfold onInputDelta. destruct (Anthropic.e_delta e) as [d|]; [|reflexivity].
  destruct (Anthropic.d_partial_json d); [|reflexivity].
  destruct (_ && _); reflexivity.
Qed.

Lemma onMessageDelta_with_buffer (b : string) (st : StreamState) (e : Anthropic.Event) :
  onMessageDelta e (direct_with_buffer b st) = direct_with_buffer b (onMessageDelta e st).
Proof.
  unfold onMessageDelta. destruct (Anthropic.e_delta e) as [d|]; [|reflexivity].
  destruct (_ && _); reflexivity.
Qed.

Lemma onEvent_with_buffer (b : string) (st : StreamState) (e : Anthropic.Event) :
  onEvent m (direct_with_buffer b st) e = direct_with_buffer b (onEvent m st e).
Proof.
  unfold onEvent.
  now rewrite onTextDelta_with_buffer, onToolStart_with_buffer,
    onInputDelta_with_buffer, onMessageDelta_with_buffer.
Qed.

Lemma onLine_with_buffer (b : string) (st : StreamState) (line : string) :
  onLine m (direct_with_buffer b st) line = direct_with_buffer b (onLine m st line).
Proof.
  unfold onLine. destruct (negb _); [reflexivity|].
  destruct (_ || _); [reflexivity|].
  destruct (parse_api_event _); [apply onEvent_with_buffer | reflexivity].
Qed.

Lemma lines_with_buffer (b : string) (lines : list string) :
  forall st, fold_left (onLine m) lines (direct_with_buffer b st)
             = direct_with_buffer b (fold_left (onLine m) lines st).
Proof.
  induction lines as [|l lines IH]; intros st; simpl; [reflexivity|].
  now rewrite onLine_with_buffer, IH.
Qed.

Lemma with_buffer_twice (a b : string) (st : StreamState) :
  direct_with_buffer a (direct_with_buffer b st) = direct_with_buffer a st.
Proof. reflexivity. Qed.

Lemma onRead_unfold (st : StreamState) (value : string) :
  onRead m st value =
  fold_left (onLine m) (removelast (JSString.split_nl (buffer st ++ value)))
            (direct_with_buffer (last (JSString.split_nl (buffer st ++ value)) "") st).
Proof. reflexivity. Qed.

Lemma onRead_buffer (st : StreamState) (value : string) :
  buffer (onRead m st value) = last (JSString.split_nl (buffer st ++ value)) "".
Proof.
  rewrite onRead_unfold, lines_with_buffer. reflexivity.
Qed.

(** X1. The relay of the direct-call variant does not depend on where the
    body of the response is cut into chunks: reading [a] and then [b] leaves
    the same state, and so the same frames, as reading [a ++ b] at once. *)
Theorem X1_direct_read_chunking (st : StreamState) (a b : string) :
  onRead m (onRead m st a) b = onRead m st (a ++ b).
Proof.
  rewrite (onRead_unfold (onRead m st a) b), onRead_buffer.
  rewrite (onRead_unfold st (a ++ b)), <- string_app_assoc,
    (split_nl_app (buffer st ++ a) b).
  set (la := JSString.split_nl (buffer st ++ a)).
  set (lb := JSString.split_nl (last la "" ++ b)).
  assert (Hlb : lb <> []) by apply split_nl_nonempty.
  rewrite removelast_app_nonempty, last_app_nonempty by exact Hlb.
  rewrite fold_left_app. f_equal.
  rewrite onRead_unfold. fold la.
  rewrite <- lines_with_buffer, with_buffer_twice. reflexivity.
Qed.

End DirectChunking.

Section CliChunking.
Import Http Describe Cli.

Context `{Runtime}.




Lemma onStdout_unfold (data : string) (q : StreamReq) :
  onStdout data q =
  fold_left Cli.onLine (removelast (JSString.split_nl (buffer q ++ data)))
            (cli_with_buffer (last (JSString.split_nl (buffer q ++ data)) "") q).
Proof. reflexivity. Qed.



End CliChunking.

(* ------------------------------------------------------------------------- *)
(** ** The life of a streaming request of the process variant                *)
(* ------------------------------------------------------------------------- *)

Section CliLifecycle.
Import Http Observe Describe Cli.
Local Open Scope Z_scope.

Context `{Runtime}.

Lemma relay_finished (q : StreamReq) (t : string) : finished (relay q t) = finished q.
Proof.
  unfold relay. destruct (parse_cli_event t); [|reflexivity].
  destruct (handleStreamEvent _ _ _). reflexivity.
Qed.

Lemma onStdout_finished (data : string) (q : StreamReq) :
  finished (onStdout data q) = finished q.
Proof.
  assert (Hgen : forall lines q1, finished (fold_left Cli.onLine lines q1) = finished q1).
  { induction lines as [|l lines IH]; intros q1; simpl; [reflexivity|].
    rewrite IH. unfold Cli.onLine. destruct (negb _); [reflexivity | apply relay_finished]. }
  rewrite onStdout_unfold, Hgen. reflexivity.
Qed.

(** One event on a request that has not finished: only a terminal event
    releases the slot, and it finishes the request. *)
Lemma event_on_open (e : ProcEvent) (srv : Server) (q : StreamReq) :
  finished q = false ->
  fst (onProcEvent (srv, q) e) = (if is_terminal e then release srv else srv)
  /\ finished (snd (onProcEvent (srv, q) e)) = is_terminal e.
Proof.
  intros Hopen. destruct e; cbn [onProcEvent is_terminal fst snd].
  - rewrite onStdout_finished. auto.
  - auto.
  - unfold onClose.
    destruct (JSString.truthy (JSString.trim (buffer q)));
      [rewrite relay_finished|]; rewrite Hopen; auto.
  - unfold onError. rewrite Hopen. auto.
  - unfold onResClose. rewrite Hopen. auto.
Qed.

(** One event on a finished request: the server is left alone. *)
Lemma event_on_finished (e : ProcEvent) (srv : Server) (q : StreamReq) :
  finished q = true ->
  fst (onProcEvent (srv, q) e) = srv
  /\ finished (snd (onProcEvent (srv, q) e)) = true.
Proof.
  intros Hfin. destruct e; cbn [onProcEvent fst snd].
  - rewrite onStdout_finished. auto.
  - auto.
  - unfold onClose.
    destruct (JSString.truthy (JSString.trim (buffer q)));
      [rewrite relay_finished|]; rewrite Hfin; cbn [fst snd];
      rewrite ?relay_finished; auto.
  - unfold onError. rewrite Hfin. auto.
  - unfold onResClose. rewrite Hfin. auto.
Qed.

Lemma events_on_finished (events : list ProcEvent) :
  forall srv q, finished q = true ->
    fst (runStream events (srv, q)) = srv
    /\ finished (snd (runStream events (srv, q))) = true.
Proof.
  unfold runStream. induction events as [|e events IH]; intros srv q Hfin; cbn [fold_left]; [auto|].
  destruct (event_on_finished e srv q Hfin) as [Hsrv Hfin'].
  destruct (onProcEvent (srv, q) e) as [srv1 q1]. cbn [fst snd] in *. subst srv1.
  now apply IH.
Qed.

(** X3. Whatever the process and the client do, and in whatever order, a
    streaming request gives its slot back exactly once: the server state
    after any sequence of events is the released one if the sequence holds a
    close, an error or a disconnect, and the untouched one otherwise; later
    terminal events release nothing more. *)
Theorem X3_stream_releases_once (events : list ProcEvent) (srv : Server) (q : StreamReq) :
  finished q = false ->
  fst (runStream events (srv, q))
  = (if existsb is_terminal events then release srv else srv)
  /\ finished (snd (runStream events (srv, q))) = existsb is_terminal events.
Proof.
  revert srv q. unfold runStream.
  induction events as [|e events IH]; intros srv q Hopen; cbn [fold_left existsb]; [auto|].
  destruct (event_on_open e srv q Hopen) as [Hsrv Hfin].
  destruct (onProcEvent (srv, q) e) as [srv1 q1]. cbn [fst snd] in *. subst srv1.
  destruct (is_terminal e); cbn [orb].
  - apply (events_on_finished events). exact Hfin.
  - apply IH. exact Hfin.
Qed.

Lemma relay_ended (q : StreamReq) (t : string) :
  ended (res q) = true -> res (relay q t) = res q.
Proof.
  intros Hend. unfold relay. destruct (parse_cli_event t) as [event|]; [|reflexivity].
  unfold handleStreamEvent. destruct (ClaudeCli.ev_event event); cbn; [|reflexivity].
  destruct (_ && _); cbn; [|reflexivity].
  destruct (JSString.truthy_opt _); cbn; [|reflexivity].
  unfold sendSSE, write. now rewrite Hend.
Qed.

Lemma onStdout_ended (data : string) (q : StreamReq) :
  ended (res q) = true -> res (onStdout data q) = res q.
Proof.
  intros Hend. rewrite onStdout_unfold.
  assert (Hgen : forall lines q1, ended (res q1) = true ->
                                  res (fold_left Cli.onLine lines q1) = res q1).
  { induction lines as [|l lines IH]; intros q1 H1; simpl; [reflexivity|].
    assert (Hl : res (Cli.onLine q1 l) = res q1).
    { unfold Cli.onLine. destruct (negb _); [reflexivity | now apply relay_ended]. }
    rewrite IH; [exact Hl | now rewrite Hl]. }
  now rewrite Hgen.
Qed.

Lemma event_after_end (e : ProcEvent) (srv : Server) (q : StreamReq) :
  finished q = true ->
  ended (res q) = true ->
  res (snd (onProcEvent (srv, q) e)) = res q
  /\ finished (snd (onProcEvent (srv, q) e)) = true.
Proof.
  intros Hfin Hend. split; [|apply (event_on_finished e srv q Hfin)].
  destruct e; cbn [onProcEvent snd].
  - now apply onStdout_ended.
  - reflexivity.
  - unfold onClose.
    destruct (JSString.truthy (JSString.trim (buffer q)));
      [rewrite relay_finished, Hfin; cbn; now apply relay_ended
      | rewrite Hfin; reflexivity].
  - unfold onError. now rewrite Hfin.
  - unfold onResClose. now rewrite Hfin.
Qed.

(** X4. Once a streaming request has finished and its response was ended,
    nothing that still arrives (late output, a second close, a disconnect)
    writes to the response or touches the server state. *)
Theorem X4_nothing_after_the_end (events : list ProcEvent) (srv : Server) (q : StreamReq) :
  finished q = true ->
  ended (res q) = true ->
  fst (runStream events (srv, q)) = srv
  /\ res (snd (runStream events (srv, q))) = res q.
Proof.
  revert srv q. unfold runStream.
  induction events as [|e events IH]; intros srv q Hfin Hend; cbn [fold_left]; [auto|].
  destruct (event_on_finished e srv q Hfin) as [Hsrv Hfin'].
  destruct (event_after_end e srv q Hfin Hend) as [Hres _].
  destruct (onProcEvent (srv, q) e) as [srv1 q1]. cbn [fst snd] in *. subst srv1.
  rewrite <- Hres. apply IH; [exact Hfin' | now rewrite Hres].
Qed.

(** X5. When the process prints and then exits with code zero, the stream
    is closed cleanly with the finish reason "stop" and the slot is given
    back, whether or not anything was relayed. *)
Theorem X5_zero_exit_stops (cfg : Config) (chat : ChatRequest) (now : Z) (rng : nat)
        (srv srv1 : Server) (q0 : StreamReq) (events : list ProcEvent) :
  postChatCompletions cfg chat None now rng srv = (srv1, StreamStarted q0) ->
  forallb is_output events = true ->
  closes_cleanly (res (snd (runStream (events ++ [Close (Some 0)]) (srv1, q0))))
  /\ finish_reasons (frames (res (snd (runStream (events ++ [Close (Some 0)]) (srv1, q0)))))
     = ["stop"]
  /\ fst (runStream (events ++ [Close (Some 0)]) (srv1, q0)) = release srv1.
Proof.
  intros Hstart Hout.
  destruct (cli_stream_shape cfg chat now rng srv srv1 q0 events (Some 0) Hstart Hout)
    as (contents & err & Hc & Hfr & Hs & Hb & He & Hsrv).
  cbn [exited_zero Z.eqb negb andb app] in Hfr.
  unfold closeFinishReason in Hfr. cbn [exited_zero Z.eqb orb] in Hfr.
  split; [|split; [|exact Hsrv]].
  - exists (Direct.chunk (meta q0) DRole None :: contents),
           (Direct.chunk (meta q0) DEmpty (Some "stop")).
    rewrite Hfr.
    split; [reflexivity|].
    split; [cbn; apply (forallb_impl is_content); [apply content_is_delta | exact Hc]|].
    split; [reflexivity|].
    split; [unfold http_error; rewrite Hs, Hb; reflexivity | exact He].
  - rewrite Hfr. cbn [app finish_reasons Direct.chunk c_finish_reason].
    rewrite finish_reasons_app, (finish_reasons_content contents Hc). reflexivity.
Qed.

End CliLifecycle.

(* ------------------------------------------------------------------------- *)
(** ** Validation and admission in the routes of the process variant         *)
(* ------------------------------------------------------------------------- *)

Section CliRoutes.
Import OpenAI Http Observe Describe Cli.
Local Open Scope Z_scope.





Context `{Runtime}.

(** X7. A chat request that fails validation is answered 400 before the
    limiter is asked: no slot is taken and no process is spawned, whatever
    the load of the server. *)
Theorem X7_invalid_request_touches_nothing (cfg : Config) (body : ChatRequest)
        (spawn_throws : option string) (now : Z) (rng : nat) (srv : Server) :
  validateChatRequest body <> [] ->
  exists r,
    postChatCompletions cfg body spawn_throws now rng srv = (srv, Replied r)
    /\ statusCode r = 400
    /\ Http.body r = Some (BodyError (MsgJoined (validateChatRequest body))
                                     "invalid_request_error" None).
Proof.
  intros Hbad. unfold postChatCompletions. cbn [genId].
  destruct (validateChatRequest body) as [|e errors]; [contradiction|].
  eexists. split; [reflexivity|]. split; reflexivity.
Qed.

(** X8. A valid chat request that finds a free slot takes exactly one slot
    and spawns exactly one process; its argument vector starts with
    [--print], ends with the prompt built from the messages, and names the
    output format of the path taken ([stream-json] when streaming, [json]
    otherwise). *)
Theorem X8_admitted_request_spawns_once (cfg : Config) (body : ChatRequest)
        (now : Z) (rng : nat) (srv : Server) :
  validateChatRequest body = [] ->
  activeProcesses srv < MAX_CONCURRENT cfg ->
  exists args,
    fst (postChatCompletions cfg body None now rng srv)
    = {| activeProcesses := activeProcesses srv + 1;
         spawnCalls := (spawnCalls srv ++ [args])%list |}
    /\ hd "" args = "--print"
    /\ last args "" = snd (convertMessages (match req_messages body with
                                            | Some l => l | None => [] end))
    /\ In (if req_stream body then "stream-json" else "json") args
    /\ (match snd (postChatCompletions cfg body None now rng srv) with
        | Replied _ => False
        | StreamStarted _ => req_stream body = true
        | Awaiting _ => req_stream body = false
        end).
Proof.
  intros Hvalid Hfree. unfold postChatCompletions. cbn [genId]. rewrite Hvalid.
  unfold acquire. rewrite acquireSlot_below by exact Hfree. cbn [negb].
  destruct (convertMessages _) as [systemPrompt userPrompt] eqn:Hconv. cbn [snd].
  assert (Hargs : forall streaming,
             hd "" (spawnArgs userPrompt (resolveModel cfg (req_model body))
                              systemPrompt streaming) = "--print"
             /\ last (spawnArgs userPrompt (resolveModel cfg (req_model body))
                                systemPrompt streaming) "" = userPrompt
             /\ In (if streaming then "stream-json" else "json")
                   (spawnArgs userPrompt (resolveModel cfg (req_model body))
                              systemPrompt streaming)).
  { intros streaming. unfold spawnArgs. split; [reflexivity|]. split.
    - rewrite !app_assoc.
      change ["--no-session-persistence"; "--dangerously-skip-permissions"; userPrompt]
        with (["--no-session-persistence"; "--dangerously-skip-permissions"]
              ++ [userPrompt])%list.
      rewrite app_assoc. apply last_last.
    - apply in_or_app. right. apply in_or_app. right. apply in_or_app. right.
      apply in_or_app. left. destruct streaming; cbn; auto. }
  destruct (req_stream body); cbn [fst snd spawnClaude activeProcesses spawnCalls].
  - destruct (Hargs true) as (Hhd & Hlast & Hin).
    eexists. split; [reflexivity|]. split; [exact Hhd|]. split; [exact Hlast|].
    split; [exact Hin | reflexivity].
  - destruct (Hargs false) as (Hhd & Hlast & Hin).
    eexists. split; [reflexivity|]. split; [exact Hhd|]. split; [exact Hlast|].
    split; [exact Hin | reflexivity].
Qed.

(** X9. When [spawn] itself throws, the slot just taken is given back and no
    process is recorded. The streaming path has already sent the role chunk
    and closes the stream with an error event and the sentinel, without a
    finish chunk; the other path answers 500, or 504 when the message
    mentions a timeout. *)
Theorem X9_spawn_failure_gives_slot_back (cfg : Config) (body : ChatRequest)
        (err : string) (now : Z) (rng : nat) (srv : Server) :
  validateChatRequest body = [] ->
  0 <= activeProcesses srv < MAX_CONCURRENT cfg ->
  exists r,
    postChatCompletions cfg body (Some err) now rng srv = (srv, Replied r)
    /\ ended r = true
    /\ (if req_stream body
        then exists role,
               frames r = [role; FErrorEvent (MsgText "Failed to start Claude CLI"); FDone]
               /\ is_delta_chunk role = true
               /\ statusCode r = 200
        else frames r = []
             /\ statusCode r = (if JSString.includes "timed out" err then 504 else 500)
             /\ Http.body r = Some (BodyError (MsgText err) "server_error"
                                              (Some "claude_cli_error"))).
Proof.
  intros Hvalid Hfree. unfold postChatCompletions. cbn [genId]. rewrite Hvalid.
  unfold acquire. rewrite acquireSlot_below by lia. cbn [negb].
  destruct (convertMessages _) as [systemPrompt userPrompt].
  assert (Hback : release {| activeProcesses := activeProcesses srv + 1;
                             spawnCalls := spawnCalls srv |} = srv).
  { unfold release. cbn. rewrite (releaseSlot_pos cfg) by lia.
    replace (activeProcesses srv + 1 - 1) with (activeProcesses srv) by lia.
    destruct srv; reflexivity. }
  destruct (req_stream body).
  - rewrite Hback. eexists. split; [reflexivity|]. split; [reflexivity|].
    eexists. split; [reflexivity|]. split; reflexivity.
  - cbn [completeChat]. rewrite Hback. eexists. split; [reflexivity|].
    split; [reflexivity|]. cbn [frames statusCode Http.body status_json mentions_timeout].
    split; [reflexivity|]. split; [|reflexivity].
    destruct (JSString.includes "timed out" err); reflexivity.
Qed.

End CliRoutes.

(* ------------------------------------------------------------------------- *)
(** ** Non-streaming execution of the CLI                                    *)
(* ------------------------------------------------------------------------- *)

Section CliNonStreaming.
Import OpenAI Http Observe Describe Cli.
Local Open Scope Z_scope.

(** X10. The token estimate is the length divided by four, rounded up: it
    is zero exactly for the empty text and otherwise the least count whose
    fourfold covers the length. *)
Theorem X10_estimateTokens_bounds (t : string) :
  (estimateTokens t = 0 <-> t = "")
  /\ JSString.len t <= 4 * estimateTokens t < JSString.len t + 4.
Proof.
  unfold estimateTokens, JSString.truthy, JSString.len.
  destruct (String.eqb_spec t "") as [->|Hne]; cbn [negb].
  - cbn. split; [tauto | lia].
  - assert (Hlen : 1 <= Z.of_nat (String.length t)).
    { destruct t; [contradiction | cbn [String.length]; lia]. }
    pose proof (Z.div_mod (Z.of_nat (String.length t) + 3) 4 ltac:(lia)) as Hdm.
    pose proof (Z.mod_pos_bound (Z.of_nat (String.length t) + 3) 4 ltac:(lia)) as Hmod.
    split; [|lia]. split; [intros Hz; lia | intros Ht; contradiction].
Qed.

Context `{Runtime}.


(** X12. The non-streaming chat route answers 200 exactly when the run
    resolved, 504 when it timed out, and otherwise 500 or 504 (the latter
    only when the error text mentions a timeout); the legacy route answers
    200 or 500 and never 504, also for a timeout. Both give the slot back
    on every outcome. *)
Theorem X12_non_streaming_statuses (cfg : Config) (p : Pending) (run : ProcRun)
        (srv : Server) :
  (statusCode (snd (completeChat p (runClaudeNonStreaming cfg run) srv)) = 200
   <-> exists result, runClaudeNonStreaming cfg run = inr result)
  /\ (run = TimedOut ->
      statusCode (snd (completeChat p (runClaudeNonStreaming cfg run) srv)) = 504
      /\ statusCode (snd (completeText p (runClaudeNonStreaming cfg run) srv)) = 500)
  /\ In (statusCode (snd (completeChat p (runClaudeNonStreaming cfg run) srv)))
        [200; 500; 504]
  /\ In (statusCode (snd (completeText p (runClaudeNonStreaming cfg run) srv))) [200; 500]
  /\ fst (completeChat p (runClaudeNonStreaming cfg run) srv) = release srv
  /\ fst (completeText p (runClaudeNonStreaming cfg run) srv) = release srv.
Proof.
  split.
  { destruct (runClaudeNonStreaming cfg run) as [e|result]; cbn.
    - split; [|intros [r Hr]; discriminate].
      destruct (mentions_timeout e); discriminate.
    - split; [eauto | reflexivity]. }
  split; [intros ->; cbn; auto|].
  destruct (runClaudeNonStreaming cfg run) as [e|result]; cbn;
    [destruct (mentions_timeout e)|]; cbn; auto 10.
Qed.

Lemma cli_step_split (acc : Converted) (msg : Message) :
  systemParts (Cli.convertStep acc msg)
  = (systemParts acc
     ++ systemParts (Cli.convertStep {| systemParts := []; turns := [] |} msg))%list
  /\ turns (Cli.convertStep acc msg)
     = (turns acc ++ turns (Cli.convertStep {| systemParts := []; turns := [] |} msg))%list.
Proof.
  unfold Cli.convertStep.
  destruct (negb _); [cbn; now rewrite !app_nil_r|].
  destruct (role msg =? "system")%string; [cbn; now rewrite app_nil_r|].
  destruct (role msg =? "user")%string; [cbn; now rewrite app_nil_r|].
  destruct (role msg =? "assistant")%string; [cbn; now rewrite app_nil_r|].
  destruct (_ || _)%bool; cbn; now rewrite !app_nil_r.
Qed.

Lemma cli_fold_split (msgs : list Message) :
  forall acc,
    systemParts (fold_left Cli.convertStep msgs acc)
    = (systemParts acc
       ++ systemParts (fold_left Cli.convertStep msgs {| systemParts := []; turns := [] |}))%list
    /\ turns (fold_left Cli.convertStep msgs acc)
       = (turns acc
          ++ turns (fold_left Cli.convertStep msgs {| systemParts := []; turns := [] |}))%list.
Proof.
  induction msgs as [|msg msgs IH]; intros acc; cbn [fold_left].
  - cbn. now rewrite !app_nil_r.
  - destruct (IH (Cli.convertStep acc msg)) as [Hs Ht].
    destruct (IH (Cli.convertStep {| systemParts := []; turns := [] |} msg)) as [Hs0 Ht0].
    destruct (cli_step_split acc msg) as [Hs1 Ht1].
    rewrite Hs, Ht, Hs0, Ht0, Hs1, Ht1, <- !app_assoc. auto.
Qed.

Lemma cli_system_step (msg : Message) :
  (is_system msg = true ->
   turns (Cli.convertStep {| systemParts := []; turns := [] |} msg) = [])
  /\ (is_system msg = false ->
      systemParts (Cli.convertStep {| systemParts := []; turns := [] |} msg) = []).
Proof.
  unfold is_system, Cli.convertStep. split; intros Hsys; rewrite Hsys.
  - destruct (negb _); reflexivity.
  - destruct (negb _); [reflexivity|].
    destruct (role msg =? "user")%string; [reflexivity|].
    destruct (role msg =? "assistant")%string; [reflexivity|].
    destruct (_ || _)%bool; reflexivity.
Qed.

Lemma cli_fold_filter (msgs : list Message) :
  turns (fold_left Cli.convertStep msgs {| systemParts := []; turns := [] |})
  = turns (fold_left Cli.convertStep (filter (fun m => negb (is_system m)) msgs)
                     {| systemParts := []; turns := [] |})
  /\ systemParts (fold_left Cli.convertStep msgs {| systemParts := []; turns := [] |})
     = systemParts (fold_left Cli.convertStep (filter is_system msgs)
                              {| systemParts := []; turns := [] |}).
Proof.
  induction msgs as [|msg msgs [IHt IHs]]; [split; reflexivity|].
  cbn [fold_left filter].
  destruct (cli_fold_split msgs (Cli.convertStep {| systemParts := []; turns := [] |} msg))
    as [Hs Ht].
  destruct (cli_system_step msg) as [Hsys Hnon].
  rewrite Hs, Ht. destruct (is_system msg); cbn [negb fold_left].
  - rewrite (Hsys eq_refl). cbn [app]. split; [exact IHt|].
    destruct (cli_fold_split (filter is_system msgs)
                (Cli.convertStep {| systemParts := []; turns := [] |} msg)) as [Hs' _].
    rewrite Hs', IHs. reflexivity.
  - rewrite (Hnon eq_refl). cbn [app]. split; [|exact IHs].
    destruct (cli_fold_split (filter (fun m => negb (is_system m)) msgs)
                (Cli.convertStep {| systemParts := []; turns := [] |} msg)) as [_ Ht'].
    rewrite Ht', IHt. reflexivity.
Qed.

(** [convertMessages] without its shortcut for the empty list, which gives
    the same answer. *)
Lemma cli_convertMessages_fold (msgs : list Message) :
  Cli.convertMessages msgs =
  let acc := fold_left Cli.convertStep msgs {| systemParts := []; turns := [] |} in
  (match systemParts acc with
   | [] => None
   | parts => Some (JSString.join Direct.para parts)
   end,
   match turns acc with
   | [t] => if (t_role t =? "Human")%string then t_content t
            else t_role t ++ ": " ++ t_content t
   | ts => JSString.join Direct.para (map (fun t => t_role t ++ ": " ++ t_content t) ts)
   end).
Proof.
  destruct msgs as [|m msgs]; [reflexivity|].
  unfold Cli.convertMessages. cbv zeta.
  destruct (turns _) as [|t [|t' ts]]; try reflexivity.
  destruct (t_role t =? "Human")%string; reflexivity.
Qed.

Lemma cli_channels_apart (msgs : list Message) :
  fst (Cli.convertMessages msgs) = fst (Cli.convertMessages (filter is_system msgs))
  /\ snd (Cli.convertMessages msgs)
     = snd (Cli.convertMessages (filter (fun m => negb (is_system m)) msgs)).
Proof.
  rewrite !cli_convertMessages_fold. cbv zeta. cbn [fst snd].
  destruct (cli_fold_filter msgs) as [Ht Hs]. rewrite <- Ht, <- Hs. auto.
Qed.

(** X13. The process variant keeps the two channels apart: the system
    prompt depends on the system messages only, and the prompt text on the
    other messages only. *)
Theorem X13_cli_system_and_turns_apart (msgs : list Message) :
  fst (Cli.convertMessages msgs) = fst (Cli.convertMessages (filter is_system msgs))
  /\ snd (Cli.convertMessages msgs)
     = snd (Cli.convertMessages (filter (fun m => negb (is_system m)) msgs)).
Proof.
  rewrite !cli_convertMessages_fold. cbv zeta. cbn [fst snd].
  destruct (cli_fold_filter msgs) as [Ht Hs]. rewrite <- Ht, <- Hs. auto.
Qed.

(** X14. A conversation whose only message besides system messages is one
    user message with a non-empty text is handed to the CLI as that text,
    without a role prefix. *)
Theorem X14_single_user_message_verbatim (msgs : list Message) (m : Message) :
  filter (fun x => negb (is_system x)) msgs = [m] ->
  role m = "user" ->
  Direct.extractText (content m) <> "" ->
  snd (Cli.convertMessages msgs) = Direct.extractText (content m).
Proof.
  intros Honly Hrole Htext.
  destruct (cli_channels_apart msgs) as [_ ->]. rewrite Honly.
  unfold Cli.convertMessages. cbn [fold_left]. unfold Cli.convertStep, extractTextContent.
  unfold JSString.truthy. apply String.eqb_neq in Htext. rewrite Htext, Hrole. reflexivity.
Qed.

End CliNonStreaming.

(* ------------------------------------------------------------------------- *)
(** ** Tool calls in the stream of the direct-call variant                   *)
(* ------------------------------------------------------------------------- *)

Section ToolIndices.
Import Http Observe Describe Direct.
Local Open Scope Z_scope.

Lemma tool_indices_app (a b : list Frame) :
  forall k, tool_indices k (a ++ b) =
            match tool_indices k a with
            | Some k' => tool_indices k' b
            | None => None
            end.
Proof.
  induction a as [|f a IH]; intros k; cbn [app tool_indices]; [reflexivity|].
  destruct f as [c| |]; try apply IH.
  destruct (c_delta c); try apply IH.
  - destruct (_ =? _); [apply IH | reflexivity].
  - destruct (_ =? _); [apply IH | reflexivity].
Qed.

Lemma tool_starts_app (a b : list Frame) :
  tool_starts (a ++ b) = (tool_starts a + tool_starts b)%nat.
Proof. unfold tool_starts. now rewrite filter_app, length_app. Qed.

Context `{Runtime}.
Variable m : Meta.

Lemma indexed_write (st st' : StreamState) (f : Frame) (k : Z) (n : nat) :
  indexed st ->
  s_res st' = sendSSE f (s_res st) ->
  tool_indices (toolCallIndex st) [f] = Some k ->
  tool_starts [f] = n ->
  toolCallIndex st' = k ->
  k = toolCallIndex st + Z.of_nat n ->
  indexed st'.
Proof.
  intros (Hopen & Hidx & Hcount) Hres Hf Hn Hk Hkn.
  destruct (write_open f (s_res st) Hopen) as (Hfr & He & _).
  unfold indexed. rewrite Hres. unfold sendSSE. rewrite Hfr, He.
  rewrite tool_indices_app, Hidx, Hf, tool_starts_app, Hn, Hk.
  split; [reflexivity|]. split; [reflexivity|]. lia.
Qed.

Lemma onEvent_indexed (st : StreamState) (e : Anthropic.Event) :
  indexed st -> indexed (onEvent m st e).
Proof.
  intros Hst. unfold onEvent.
  assert (H1 : indexed (onTextDelta m e st)).
  { unfold onTextDelta. destruct (Anthropic.e_delta e) as [d|]; [|exact Hst].
    destruct (_ && _)%bool; [|exact Hst].
    eapply (indexed_write st _ _ (toolCallIndex st) 0%nat Hst); try reflexivity. cbn. lia. }
  set (st1 := onTextDelta m e st) in *.
  assert (H2 : indexed (onToolStart m e st1)).
  { unfold onToolStart. destruct (Anthropic.e_content_block e) as [b|]; [|exact H1].
    destruct (_ && _)%bool; [|exact H1].
    destruct (JSString.truthy_opt (Anthropic.cb_id b)); cbn [genId];
      eapply (indexed_write st1 _ _ (toolCallIndex st1 + 1) 1%nat H1); try reflexivity;
      cbn; rewrite ?Z.eqb_refl; reflexivity. }
  set (st2 := onToolStart m e st1) in *.
  assert (H3 : indexed (onInputDelta m e st2)).
  { unfold onInputDelta. destruct (Anthropic.e_delta e) as [d|]; [|exact H2].
    destruct (Anthropic.d_partial_json d); [|exact H2].
    destruct (_ && _)%bool; [|exact H2].
    eapply (indexed_write st2 _ _ (toolCallIndex st2) 0%nat H2); try reflexivity;
      cbn; rewrite ?Z.eqb_refl; try reflexivity. lia. }
  set (st3 := onInputDelta m e st2) in *.
  unfold onMessageDelta. destruct (Anthropic.e_delta e) as [d|]; [|exact H3].
  destruct (_ && _)%bool; exact H3.
Qed.

Lemma onRead_indexed (st : StreamState) (value : string) :
  indexed st -> indexed (onRead m st value).
Proof.
  intros Hst. rewrite onRead_unfold.
  assert (Hgen : forall lines s, indexed s -> indexed (fold_left (onLine m) lines s)).
  { induction lines as [|l lines IH]; intros s Hs; cbn [fold_left]; [exact Hs|].
    apply IH. unfold onLine.
    destruct (negb _); [exact Hs|]. destruct (_ || _)%bool; [exact Hs|].
    destruct (parse_api_event _); [now apply onEvent_indexed | exact Hs]. }
  apply Hgen. exact Hst.
Qed.

Lemma reads_indexed (chunks : list string) :
  forall st, indexed st -> indexed (fold_left (onRead m) chunks st).
Proof.
  induction chunks as [|c chunks IH]; intros st Hst; cbn [fold_left]; [exact Hst|].
  apply IH. now apply onRead_indexed.
Qed.

End ToolIndices.

Section ToolIndicesClaim.
Import Http Observe Describe Direct.
Local Open Scope Z_scope.

Context `{Runtime}.

(** X15. In every stream of the direct-call variant the tool calls are
    numbered 0, 1, 2, ... in the order in which they start, and every
    argument fragment carries the index of the tool call started last; the
    index open at the end is the number of tool calls minus one. *)
Theorem X15_tool_calls_numbered_in_sequence
        (chunks : list string) (failure : option ErrMsg)
        (id : string) (created : Z) (model : string) (rng : nat) :
  tool_indices (-1)
    (frames (fst (handleStreaming fresh (StreamOk chunks failure) id created model rng)))
  = Some (Z.of_nat
            (tool_starts
               (frames (fst (handleStreaming fresh (StreamOk chunks failure)
                                             id created model rng)))) - 1).
Proof.
  unfold handleStreaming. cbn [fst].
  set (m := {| m_id := id; m_created := created; m_model := model |}).
  assert (H0 : indexed (streamStart m fresh rng)).
  { unfold indexed. cbn. auto. }
  destruct (reads_indexed m chunks _ H0) as (Hopen & Hidx & Hcount).
  set (stN := fold_left (onRead m) chunks (streamStart m fresh rng)) in *.
  destruct (finishStream_open m stN Hopen) as (Hfr & _).
  rewrite Hfr, tool_indices_app, Hidx, tool_starts_app. cbn. rewrite Hcount. f_equal. lia.
Qed.

End ToolIndicesClaim.

(* ------------------------------------------------------------------------- *)
(** ** More on the message converter of the direct-call variant              *)
(* ------------------------------------------------------------------------- *)

Section ConverterMore.
Import OpenAI Observe Describe Direct.

Lemma pushMessage_roles (arr : list NativeMsg) (role : string) (c : NContent) :
  Forall native_role arr ->
  role = "user" \/ role = "assistant" ->
  Forall native_role (pushMessage arr role c).
Proof.
  intros Harr Hrole. destruct arr as [|a l _] using rev_ind.
  - constructor; [exact Hrole | constructor].
  - rewrite pushMessage_snoc. apply Forall_app in Harr as [Hl Ha].
    inversion Ha as [|? ? Hna _]; subst.
    destruct (n_role a =? role); apply Forall_app; (split; [exact Hl|]).
    + constructor; [exact Hna | constructor].
    + constructor; [exact Hna|]. constructor; [exact Hrole | constructor].
Qed.

Context `{Runtime}.

Lemma convertStep_roles (st : ConvState) (msg : Message) :
  Forall native_role (anthropicMessages st) ->
  Forall native_role (anthropicMessages (convertStep st msg)).
Proof.
  intros Hst. unfold convertStep.
  destruct (role msg =? "system"); [exact Hst|].
  destruct ((role msg =? "assistant") && has_tool_calls msg).
  { destruct (convertToolCalls _ _). cbn. apply pushMessage_roles; auto. }
  destruct (role msg =? "tool"); cbn.
  - apply pushMessage_roles; auto.
  - apply pushMessage_roles; [exact Hst|].
    destruct (role msg =? "assistant"); auto.
Qed.

(** X16. Whatever roles the request uses, every entry of the native message
    list has the role user or assistant (the placeholder included). *)
Theorem X16_native_roles (cfg : Config) (msgs : list Message) (rng : nat) :
  Forall native_role (messages (fst (convertMessages cfg msgs rng))).
Proof.
  cbn [convertMessages fst messages].
  assert (Hloop : Forall native_role (anthropicMessages (convertLoop msgs rng))).
  { unfold convertLoop.
    assert (Hgen : forall st, Forall native_role (anthropicMessages st) ->
                              Forall native_role
                                     (anthropicMessages (fold_left convertStep msgs st))).
    { induction msgs as [|msg msgs IH]; intros st Hst; cbn [fold_left]; [exact Hst|].
      apply IH. now apply convertStep_roles. }
    apply Hgen. constructor. }
  unfold ensureUserFirst. destruct (anthropicMessages (convertLoop msgs rng)) as [|a l];
    [constructor|].
  destruct (negb _); [|exact Hloop].
  constructor; [left; reflexivity | exact Hloop].
Qed.

(** What a step does to the native list and to the entropy depends on
    those two only. *)
Lemma convertStep_native (st st' : ConvState) (msg : Message) :
  anthropicMessages st = anthropicMessages st' ->
  entropy st = entropy st' ->
  anthropicMessages (convertStep st msg) = anthropicMessages (convertStep st' msg)
  /\ entropy (convertStep st msg) = entropy (convertStep st' msg).
Proof.
  intros Ham Hen. unfold convertStep.
  destruct (role msg =? "system"); [cbn; auto|].
  destruct ((role msg =? "assistant") && has_tool_calls msg).
  { rewrite Hen. destruct (convertToolCalls _ _). cbn. now rewrite Ham. }
  destruct (role msg =? "tool"); cbn; now rewrite Ham.
Qed.

Lemma fold_native (msgs : list Message) :
  forall st st',
    anthropicMessages st = anthropicMessages st' ->
    entropy st = entropy st' ->
    anthropicMessages (fold_left convertStep msgs st)
    = anthropicMessages (fold_left convertStep msgs st')
    /\ entropy (fold_left convertStep msgs st) = entropy (fold_left convertStep msgs st').
Proof.
  induction msgs as [|msg msgs IH]; intros st st' Ham Hen; cbn [fold_left]; [auto|].
  destruct (convertStep_native st st' msg Ham Hen). now apply IH.
Qed.

Lemma system_step (st : ConvState) (msg : Message) :
  (is_system msg = true ->
   anthropicMessages (convertStep st msg) = anthropicMessages st
   /\ entropy (convertStep st msg) = entropy st
   /\ systemParts (convertStep st msg) = (systemParts st ++ system_text msg)%list)
  /\ (is_system msg = false -> systemParts (convertStep st msg) = systemParts st).
Proof.
  unfold is_system, convertStep, system_text. split; intros Hsys; rewrite Hsys.
  - cbn. destruct (JSString.truthy _); [auto | now rewrite app_nil_r].
  - destruct ((role msg =? "assistant") && has_tool_calls msg).
    { destruct (convertToolCalls _ _). reflexivity. }
    destruct (role msg =? "tool"); reflexivity.
Qed.

Lemma fold_system_apart (msgs : list Message) :
  forall st,
    anthropicMessages (fold_left convertStep msgs st)
    = anthropicMessages
        (fold_left convertStep (filter (fun x => negb (is_system x)) msgs) st)
    /\ systemParts (fold_left convertStep msgs st)
       = (systemParts st ++ flat_map system_text (filter is_system msgs))%list.
Proof.
  induction msgs as [|msg msgs IH]; intros st; cbn [fold_left filter flat_map].
  - now rewrite app_nil_r.
  - destruct (system_step st msg) as [Hsys Hnon].
    destruct (IH (convertStep st msg)) as [Ham Hsp]. rewrite Ham, Hsp.
    destruct (is_system msg); cbn [negb fold_left flat_map].
    + destruct (Hsys eq_refl) as (H1 & H2 & H3). rewrite H3, <- app_assoc.
      split; [|reflexivity].
      apply (fold_native _ (convertStep st msg) st H1 H2).
    + rewrite (Hnon eq_refl). auto.
Qed.

(** X17. System messages never enter the native message list and do not
    change it: the list is the one obtained from the other messages alone,
    and the system instruction gathers, in order, the non-empty texts of the
    system messages and nothing else. *)
Theorem X17_system_messages_apart (cfg : Config) (msgs : list Message) (rng : nat) :
  messages (fst (convertMessages cfg msgs rng))
  = messages (fst (convertMessages cfg (filter (fun x => negb (is_system x)) msgs) rng))
  /\ systemParts (convertLoop msgs rng) = flat_map system_text (filter is_system msgs)
  /\ system (fst (convertMessages cfg msgs rng))
     = systemPrompt cfg (flat_map system_text (filter is_system msgs)).
Proof.
  cbn [convertMessages fst messages system]. unfold convertLoop.
  destruct (fold_system_apart msgs
              {| systemParts := []; anthropicMessages := []; entropy := rng |}) as [Ham Hsp].
  cbn [systemParts app] in Hsp. rewrite Ham, Hsp. auto.
Qed.

(** X18. A tool-result message becomes a tool-result block of a user entry:
    the entry that the step leaves last has the user role and ends with one
    block that carries the [tool_call_id] of the message and, for a string
    content, that string unchanged; no earlier block is lost. *)
Theorem X18_tool_result_block (st : ConvState) (msg : Message) (id payload : string) :
  role msg = "tool" ->
  tool_call_id msg = Some id ->
  id <> "" ->
  content msg = CStr payload ->
  (exists m before,
      last_msg (anthropicMessages (convertStep st msg)) = Some m
      /\ n_role m = "user"
      /\ blocks_of (n_content m) = (before ++ [BToolResult id payload])%list)
  /\ all_blocks (anthropicMessages (convertStep st msg))
     = (all_blocks (anthropicMessages st) ++ [BToolResult id payload])%list.
Proof.
  intros Hrole Hid Hne Hcontent.
  assert (Hstep : anthropicMessages (convertStep st msg)
                  = pushMessage (anthropicMessages st) "user"
                                (NArr [BToolResult id payload])).
  { unfold convertStep. rewrite Hrole, Hid, Hcontent. cbn.
    unfold JSString.truthy. apply String.eqb_neq in Hne. now rewrite Hne. }
  rewrite Hstep. split; [|apply pushMessage_blocks].
  destruct (pushMessage_last (anthropicMessages st) "user" (NArr [BToolResult id payload]))
    as (m & before & Hlast & Hm & Hblocks).
  exists m, before. auto.
Qed.

Lemma prefix_app (a b : string) : String.prefix a (a ++ b) = true.
Proof.
  induction a as [|c a IH]; cbn; [now destruct b|].
  destruct (Ascii.ascii_dec c c) as [_|Hne]; [exact IH | contradiction].
Qed.

(** X19. With an OAuth token the request always carries a system
    instruction, in one cached block whose text starts with the Claude Code
    identity sentence; with any other token it carries one only when a
    system message had text, and then without the cache mark. *)
Theorem X19_system_instruction (cfg : Config) (parts : list string) :
  (isOAuthToken (AUTH_TOKEN cfg) = true ->
   exists text,
     systemPrompt cfg parts = Some [ {| sys_text := text; sys_cache_control := true |} ]
     /\ String.prefix identity_text text = true)
  /\ (isOAuthToken (AUTH_TOKEN cfg) = false ->
      (systemPrompt cfg parts = None <-> parts = [])
      /\ forall blocks, systemPrompt cfg parts = Some blocks ->
           blocks = [ {| sys_text := JSString.join para parts;
                         sys_cache_control := false |} ]).
Proof.
  unfold systemPrompt. split; intros Htoken; rewrite Htoken.
  - destruct parts as [|p ps]; eexists; (split; [reflexivity|]).
    + reflexivity.
    + unfold JSString.join. cbn [String.concat]. apply prefix_app.
  - destruct parts as [|p ps]; split.
    + tauto.
    + intros blocks Hb. discriminate.
    + split; discriminate.
    + intros blocks Hb. inversion Hb. reflexivity.
Qed.

End ConverterMore.

(* ------------------------------------------------------------------------- *)
(** ** The routes of the direct-call variant                                 *)
(* ------------------------------------------------------------------------- *)

Section DirectRoutes.
Import Anthropic Http Observe Describe Direct.
Local Open Scope Z_scope.

Context `{Runtime}.

(** X20. The status of a chat completion is decided in this order: 400 when
    [messages] is missing or empty, whatever else holds; 500 when no token
    is configured; and otherwise 502 exactly when the call fails before
    anything was sent (the request to the back end failed: in streaming
    mode before the stream was opened), and 200 in every other case, in
    particular for a stream that breaks after it was opened. *)
Theorem X20_chat_status (cfg : Config) (req : ChatRequest) (backend : Backend)
        (now : Z) (rng : nat) :
  statusCode (postChatCompletions cfg req backend now rng)
  = match req_messages req with
    | None | Some [] => 400
    | Some (_ :: _) =>
        if negb (JSString.truthy (AUTH_TOKEN cfg)) then 500
        else if req_stream req
             then match stream_reply backend with
                  | StreamFail _ => 502
                  | StreamOk _ _ => 200
                  end
             else match json_reply backend with
                  | JsonFail _ => 502
                  | JsonOk _ => 200
                  end
    end.
Proof.
  unfold postChatCompletions. cbn [genId].
  destruct (req_messages req) as [[|first rest]|]; try reflexivity.
  destruct (negb (JSString.truthy (AUTH_TOKEN cfg))); [reflexivity|].
  destruct (convertMessages cfg (first :: rest) (S rng)) as [native rng2].
  destruct (req_stream req).
  - destruct (stream_reply backend) as [e|chunks failure]; [reflexivity|].
    pose (mt := {| m_id := "chatcmpl-" ++ randomBytes_base64url rng; m_created := now;
                   m_model := resolveModel cfg (req_model req) |}).
    destruct (handleStreaming_frames mt chunks failure rng2)
      as (deltas & _ & _ & Hs & _ & _ & Hsent & _).
    cbn [m_id m_created m_model mt] in Hs, Hsent.
    destruct (handleStreaming _ _ _ _ _ _) as [r thrown]. cbn [fst] in *.
    destruct thrown; [rewrite Hsent|]; exact Hs.
  - destruct (json_reply backend) as [e|result]; [reflexivity|].
    unfold handleNonStreaming. destruct (extractResponseContent _ _) as [[text calls] rng'].
    reflexivity.
Qed.



(** X22. [convertTools] gives no [tools] field for a missing or empty list
    and otherwise one native tool per definition, in order, with the declared
    name, a description that is never missing and a schema that is never
    missing; a definition given flat, without a [function] wrapper, is read
    the same way. *)
Theorem X22_convertTools (tools : option (list Tool)) :
  (convertTools tools = None <-> tools = None \/ tools = Some [])
  /\ (forall l out,
         tools = Some l -> convertTools tools = Some out ->
         length out = length l
         /\ map nt_name out
            = map (fun t => td_name (match tool_function t with
                                     | Some f => f | None => tool_self t end)) l)
  /\ (forall t d, tool_function t = None -> tool_self t = d ->
                  convertTool t
                  = convertTool {| tool_function := Some d; tool_self := d |}).
Proof.
  split; [|split].
  - destruct tools as [[|t l]|]; cbn; split; auto; try discriminate.
    intros [Hx|Hx]; discriminate.
  - intros l out -> Hout. destruct l as [|t l]; [discriminate|].
    inversion Hout; subst.
    change (convertTool t :: map convertTool l) with (map convertTool (t :: l)).
    split; [now rewrite length_map|].
    rewrite map_map. reflexivity.
  - intros t d Hf <-. unfold convertTool. rewrite Hf. reflexivity.
Qed.

(** X23. [convertToolChoice] forces a tool only when asked to: the choice
    "any" comes from "required" alone, a named tool comes only from an
    object that names a function, and then with that name, and "none" comes
    from "none" alone; an absent or empty choice gives no field. *)
Theorem X23_convertToolChoice (tc : ToolChoice) :
  (convertToolChoice tc = Some NativeAny <-> tc = ChoiceStr "required")
  /\ (forall n, convertToolChoice tc = Some (NativeTool_ n)
                <-> tc = ChoiceObj (Some n) /\ n <> "")
  /\ (convertToolChoice tc = Some NativeNone <-> tc = ChoiceStr "none")
  /\ (convertToolChoice tc = None <-> tc = ChoiceAbsent \/ tc = ChoiceStr "").
Proof.
  assert (Htruthy : forall s, JSString.truthy s = false <-> s = "").
  { intros s. unfold JSString.truthy. rewrite negb_false_iff. apply String.eqb_eq. }
  destruct tc as [|s|[n|]]; cbn.
  - repeat split; try discriminate; auto; intros; intuition discriminate.
  - destruct (JSString.truthy s) eqn:Hs; cbn.
    + assert (Hne : s <> "").
      { intros ->. discriminate. }
      destruct (String.eqb_spec s "none") as [->|Hnone];
        [repeat split; try discriminate; auto; intros; intuition (try discriminate)|].
      destruct (String.eqb_spec s "auto") as [->|Hauto];
        [repeat split; try discriminate; auto; intros; intuition (try discriminate)|].
      destruct (String.eqb_spec s "required") as [->|Hreq];
        repeat split; try discriminate; auto; intros; intuition (try discriminate);
        try congruence.
    + apply Htruthy in Hs. subst.
      repeat split; try discriminate; auto; intros; intuition (try discriminate).
  - destruct (JSString.truthy n) eqn:Hn; cbn.
    + assert (Hne : n <> "") by (intros ->; discriminate).
      repeat split; try discriminate; intros; intuition (try discriminate); try congruence.
    + apply Htruthy in Hn. subst.
      repeat split; try discriminate; intros; intuition (try discriminate); try congruence.
  - repeat split; try discriminate; intros; intuition (try discriminate).
Qed.

End DirectRoutes.

(* ------------------------------------------------------------------------- *)
(** ** Models                                                                *)
(* ------------------------------------------------------------------------- *)

Section Models.
Import Describe.

Lemma direct_alias_targets (cfg : Direct.Config) (m v : string) :
  Direct.alias_lookup m (Direct.MODEL_ALIASES cfg) = Some v ->
  v = Direct.DEFAULT_MODEL cfg
  \/ (In v Direct.KNOWN_MODELS /\ Direct.alias_lookup v (Direct.MODEL_ALIASES cfg) = None).
Proof.
  unfold Direct.MODEL_ALIASES. cbn [Direct.alias_lookup].
  repeat (destruct (m =? _);
          [intros Hv; inversion Hv; subst;
           first [left; reflexivity | right; split; [cbn; tauto | reflexivity]]|]).
  discriminate.
Qed.

Lemma cli_alias_targets (cfg : Cli.Config) (m v : string) :
  Direct.alias_lookup m (Cli.MODEL_ALIASES cfg) = Some v ->
  v = Cli.DEFAULT_MODEL cfg
  \/ (In v Cli.KNOWN_MODELS /\ Direct.alias_lookup v (Cli.MODEL_ALIASES cfg) = None).
Proof.
  unfold Cli.MODEL_ALIASES. cbn [Direct.alias_lookup].
  repeat (destruct (m =? _);
          [intros Hv; inversion Hv; subst;
           first [left; reflexivity | right; split; [cbn; tauto | reflexivity]]|]).
  discriminate.
Qed.



Lemma findModel_in (known : list string) (id : string) :
  In id known -> Direct.findModel known id = Some id.
Proof.
  unfold Direct.findModel. induction known as [|k known IH]; [contradiction|].
  cbn [find In]. destruct (String.eqb_spec k id) as [->|Hne]; [reflexivity|].
  intros [Hk|Hin]; [contradiction | now apply IH].
Qed.

(** X25. The catalogue and the alias table agree, in both variants: when
    the default model is a listed model, every name that is an alias is
    resolved to a listed model, which GET /v1/models/:id answers with 200;
    that route answers 404 exactly for the names that are not listed. *)
Theorem X25_aliases_are_listed (dcfg : Direct.Config) (ccfg : Cli.Config) (m v : string) :
  In (Direct.DEFAULT_MODEL dcfg) Direct.KNOWN_MODELS ->
  In (Cli.DEFAULT_MODEL ccfg) Cli.KNOWN_MODELS ->
  (Direct.alias_lookup m (Direct.MODEL_ALIASES dcfg) = Some v ->
   Direct.getModelStatus Direct.KNOWN_MODELS v = 200%Z)
  /\ (Direct.alias_lookup m (Cli.MODEL_ALIASES ccfg) = Some v ->
      Direct.getModelStatus Cli.KNOWN_MODELS v = 200%Z)
  /\ (forall known id, Direct.getModelStatus known id = 404%Z <-> ~ In id known).
Proof.
  intros Hd Hc. split; [|split].
  - intros Hlook. unfold Direct.getModelStatus.
    destruct (direct_alias_targets dcfg m v Hlook) as [-> | [Hin _]];
      now rewrite findModel_in.
  - intros Hlook. unfold Direct.getModelStatus.
    destruct (cli_alias_targets ccfg m v Hlook) as [-> | [Hin _]];
      now rewrite findModel_in.
  - intros known id. unfold Direct.getModelStatus. split.
    + intros Hst Hin. now rewrite (findModel_in _ _ Hin) in Hst.
    + intros Hnot. unfold Direct.findModel.
      destruct (find _ known) as [k|] eqn:Hfind; [|reflexivity].
      apply find_some in Hfind as [Hin Heq]. apply String.eqb_eq in Heq. subst.
      contradiction.
Qed.

End Models.

(* ------------------------------------------------------------------------- *)
(** ** The sentinel of a process stream, and the text of a content           *)
(* ------------------------------------------------------------------------- *)

Section Sentinel.
Import Http Observe Describe Cli.

Context `{Runtime}.

Lemma content_not_done (l : list Frame) :
  forallb is_content l = true -> existsb is_done l = false.
Proof.
  apply existsb_none. intros f Hf. destruct f; try discriminate. reflexivity.
Qed.

Lemma relayed_no_sentinel (q q' : StreamReq) :
  relayed q q' ->
  existsb is_done (frames (res q)) = false ->
  ended (res q') = false /\ existsb is_done (frames (res q')) = false.
Proof.
  intros (_ & _ & _ & _ & He & added & Hfr & Hc & _) Hnone.
  split; [exact He|]. rewrite Hfr, existsb_app, Hnone, (content_not_done added Hc).
  reflexivity.
Qed.

Lemma split_last_frame (a b c : list Frame) (x y : Frame) :
  (a ++ b ++ c ++ [x; y])%list = ((a ++ b ++ c ++ [x]) ++ [y])%list.
Proof. now rewrite <- !app_assoc. Qed.

Lemma event_sentinel (e : ProcEvent) (srv : Server) (q : StreamReq) :
  (ended (res q) = true -> finished q = true) ->
  sentinel_last (res q) ->
  sentinel_last (res (snd (onProcEvent (srv, q) e)))
  /\ (ended (res (snd (onProcEvent (srv, q) e))) = true ->
      finished (snd (onProcEvent (srv, q) e)) = true).
Proof.
  intros Hlink [[Hopen Hnone] | [Hend Hlast]].
  - (* the response is open *)
    destruct e; cbn [onProcEvent snd].
    + pose proof (onStdout_relayed data q Hopen) as Hrel.
      destruct (relayed_no_sentinel _ _ Hrel Hnone) as [He Hn].
      split; [left; auto | intros Hx; congruence].
    + split; [left; auto | intros Hx; cbn in Hx; congruence].
    + destruct (finished q) eqn:Hfin.
      * unfold onClose.
        assert (Hrel : relayed q (if JSString.truthy (JSString.trim (buffer q))
                                  then relay q (buffer q) else q)).
        { destruct (JSString.truthy _);
            [now apply relay_relayed | now apply relayed_refl]. }
        destruct (relayed_no_sentinel _ _ Hrel Hnone) as [He Hn].
        destruct Hrel as (_ & Hf & _). rewrite Hf, Hfin. cbn [snd].
        split; [left; auto | intros Hx; congruence].
      * destruct (onClose_open code srv q Hfin Hopen)
          as (tail & err & Hc & Hfr & _ & _ & He & Hf & _).
        split; [|intros _; exact Hf]. right. split; [exact He|].
        rewrite Hfr, split_last_frame. eexists. split; [reflexivity|].
        rewrite !existsb_app, Hnone, (content_not_done tail Hc).
        destruct (negb (exited_zero code) && _); reflexivity.
    + unfold onError. destruct (finished q) eqn:Hfin; cbn [snd].
      * split; [left; auto | intros _; exact Hfin].
      * destruct (write_open (FErrorEvent (MsgText err)) (res q) Hopen)
          as (Hfr & He & _).
        destruct (write_open FDone _ He) as (Hfr2 & _).
        split; [|reflexivity]. right. split; [reflexivity|].
        exists (frames (res q) ++ [FErrorEvent (MsgText err)])%list. split.
        { cbn. unfold sendSSE. rewrite Hfr2, Hfr. reflexivity. }
        rewrite existsb_app, Hnone. reflexivity.
    + unfold onResClose. destruct (finished q); cbn [snd];
        (split; [left; auto | intros Hx; cbn in Hx; congruence]).
  - (* the response was ended: nothing changes *)
    pose proof (Hlink Hend) as Hfin.
    destruct (event_after_end e srv q Hfin Hend) as [Hres Hfin'].
    rewrite Hres. split; [right; auto | intros _; exact Hfin'].
Qed.

(** X26. Whatever the process and the client do, and in whatever order, a
    started streaming request sends the sentinel [data: [DONE]] at most
    once, and nothing after it: its response is either still open and
    without sentinel, or ended with the sentinel as its last frame. *)
Theorem X26_one_sentinel_and_nothing_after
        (cfg : Config) (chat : ChatRequest) (now : Z) (rng : nat)
        (srv srv1 : Server) (q0 : StreamReq) (events : list ProcEvent) :
  postChatCompletions cfg chat None now rng srv = (srv1, StreamStarted q0) ->
  sentinel_last (res (snd (runStream events (srv1, q0)))).
Proof.
  intros Hstart.
  destruct (cli_stream_started _ _ _ _ _ _ _ Hstart) as (Hfin & _ & Hfr & Hopen & _).
  assert (H0 : sentinel_last (res q0)).
  { left. split; [exact Hopen|]. rewrite Hfr. reflexivity. }
  assert (Hlink : ended (res q0) = true -> finished q0 = true) by congruence.
  clear Hstart Hfin Hfr Hopen. revert srv1 q0 H0 Hlink. unfold runStream.
  induction events as [|e events IH]; intros srv1 q0 H0 Hlink; cbn [fold_left];
    [exact H0|].
  destruct (event_sentinel e srv1 q0 Hlink H0) as [H1 Hlink1].
  destruct (onProcEvent (srv1, q0) e) as [srv2 q1]. cbn [snd] in *.
  now apply IH.
Qed.

End Sentinel.

Section ContentTexts.
Import OpenAI Describe Direct.

Context `{Runtime}.

Lemma convertParts_texts (parts : list Part) :
  block_texts (convertParts parts) = text_parts parts
  /\ forallb is_plain_block (convertParts parts) = true.
Proof.
  induction parts as [|p parts [IHt IHp]]; [split; reflexivity|].
  destruct p as [t|url|ty]; cbn [convertParts text_parts].
  - cbn. now rewrite IHt, IHp.
  - destruct (JSString.truthy_opt url); [|auto].
    destruct (JSString.startsWith _ _).
    + destruct (match_data_uri _) as [[media data]|]; cbn; auto.
    + cbn. auto.
  - auto.
Qed.

(** X27. [convertContent] loses no text: the text blocks of the converted
    content are the texts of the text parts, in order, for an array, and
    the string itself for a string; everything else it produces is an image
    block, and a part that is neither text nor a usable image is dropped. *)
Theorem X27_convertContent_keeps_text (c : Content) :
  block_texts (blocks_of (convertContent c))
  = match c with
    | CStr s => [s]
    | CParts parts => text_parts parts
    | CNull => [""]
    end
  /\ forallb is_plain_block (blocks_of (convertContent c)) = true.
Proof.
  destruct c as [s|parts|]; [split; reflexivity| |split; reflexivity].
  unfold convertContent. destruct (convertParts_texts parts) as [Ht Hp].
  destruct (convertParts parts) as [|b rest]; [split; assumption|].
  destruct b, rest; split; assumption.
Qed.

End ContentTexts.

(* ------------------------------------------------------------------------- *)
(** ** Further examples on the sample runtime                                *)
(* ------------------------------------------------------------------------- *)

Section MoreExamples.
Import OpenAI Http Observe Describe.
Local Open Scope Z_scope.

(** Output, a disconnect, a close and an error: one release. *)
Lemma X3_stream_releases_once_witness :
  Cli.finished (snd Sample.cli_started) = false
  /\ fst (@Cli.runStream Sample.runtime
            (Sample.cli_two_lines
             ++ [Cli.ClientGone; Cli.Close (Some 0); Cli.ProcError "late"])
            (fst Sample.cli_started, snd Sample.cli_started))
     = Cli.release (fst Sample.cli_started).
Proof.
  assert (Hopen : Cli.finished (snd Sample.cli_started) = false) by reflexivity.
  split; [exact Hopen|].
  exact (proj1 (@X3_stream_releases_once Sample.runtime
                  (Sample.cli_two_lines
                   ++ [Cli.ClientGone; Cli.Close (Some 0); Cli.ProcError "late"])
                  (fst Sample.cli_started) (snd Sample.cli_started) Hopen)).
Defined.

(** The request that was closed after an early failure ignores late output
    and a second close. *)
Lemma X4_nothing_after_the_end_witness :
  frames (Cli.res (snd (@Cli.runStream Sample.runtime
                          (Sample.cli_two_lines ++ [Cli.Close (Some 0)])
                          (Cli.release (fst Sample.cli_started),
                           snd (@Cli.runStream Sample.runtime [Cli.Close (Some 1)]
                                               Sample.cli_started)))))
  = frames Sample.cli_early_failure.
Proof.
  exact (f_equal frames
           (proj2 (@X4_nothing_after_the_end Sample.runtime
                     (Sample.cli_two_lines ++ [Cli.Close (Some 0)])
                     (Cli.release (fst Sample.cli_started))
                     (snd (@Cli.runStream Sample.runtime [Cli.Close (Some 1)]
                                          Sample.cli_started))
                     eq_refl eq_refl))).
Defined.

Lemma X5_zero_exit_stops_witness :
  finish_reasons
    (frames (Cli.res (snd (@Cli.runStream Sample.runtime
                             (Sample.cli_two_lines ++ [Cli.Close (Some 0)])
                             (fst Sample.cli_started, snd Sample.cli_started)))))
  = ["stop"].
Proof.
  exact (proj1 (proj2 (@X5_zero_exit_stops Sample.runtime
                         Sample.cli_cfg Sample.cli_stream_request 1700000000 0%nat
                         Sample.idle (fst Sample.cli_started) (snd Sample.cli_started)
                         Sample.cli_two_lines
                         ltac:(vm_compute; reflexivity) ltac:(reflexivity)))).
Defined.

(** A request without messages, on a server with no free slot. *)
Lemma X7_invalid_request_touches_nothing_witness :
  exists r,
    @Cli.postChatCompletions Sample.runtime Sample.cli_cfg
      {| Cli.req_messages := None; Cli.req_stream := true; Cli.req_model := None;
         Cli.req_max_tokens := None; Cli.req_temperature := None; Cli.req_top_p := None |}
      None 1700000000 0
      {| Cli.activeProcesses := 2; Cli.spawnCalls := [] |}
    = ({| Cli.activeProcesses := 2; Cli.spawnCalls := [] |}, Cli.Replied r)
    /\ statusCode r = 400.
Proof.
  destruct (@X7_invalid_request_touches_nothing Sample.runtime Sample.cli_cfg
              {| Cli.req_messages := None; Cli.req_stream := true; Cli.req_model := None;
                 Cli.req_max_tokens := None; Cli.req_temperature := None;
                 Cli.req_top_p := None |}
              None 1700000000 0%nat {| Cli.activeProcesses := 2; Cli.spawnCalls := [] |}
              ltac:(discriminate)) as (r & Hr & Hs & _).
  exists r. split; [exact Hr | exact Hs].
Defined.

Lemma X8_admitted_request_spawns_once_witness :
  exists args,
    fst (@Cli.postChatCompletions Sample.runtime Sample.cli_cfg Sample.cli_stream_request
           None 1700000000 0 Sample.idle)
    = {| Cli.activeProcesses := 1; Cli.spawnCalls := [args] |}
    /\ last args "" = "hi".
Proof.
  destruct (@X8_admitted_request_spawns_once Sample.runtime Sample.cli_cfg
              Sample.cli_stream_request 1700000000 0%nat Sample.idle
              eq_refl ltac:(cbn; lia)) as (args & Hsrv & _ & Hlast & _).
  exists args. split; [exact Hsrv | exact Hlast].
Defined.

Lemma X9_spawn_failure_gives_slot_back_witness :
  exists r,
    @Cli.postChatCompletions Sample.runtime Sample.cli_cfg Sample.cli_stream_request
      (Some "spawn EACCES") 1700000000 0 Sample.idle
    = (Sample.idle, Cli.Replied r)
    /\ ended r = true.
Proof.
  destruct (@X9_spawn_failure_gives_slot_back Sample.runtime Sample.cli_cfg
              Sample.cli_stream_request "spawn EACCES" 1700000000 0%nat Sample.idle
              eq_refl ltac:(cbn; lia)) as (r & Hr & He & _).
  exists r. split; [exact Hr | exact He].
Defined.

Lemma X14_single_user_message_verbatim_witness :
  snd (Cli.convertMessages [Sample.system_says "Be brief."; Sample.user_says "hi"]) = "hi".
Proof.
  exact (X14_single_user_message_verbatim
           [Sample.system_says "Be brief."; Sample.user_says "hi"] (Sample.user_says "hi")
           eq_refl eq_refl ltac:(discriminate)).
Defined.

Lemma X18_tool_result_block_witness :
  Observe.all_blocks
    (Direct.anthropicMessages
       (@Direct.convertStep Sample.runtime Sample.conv_start (Sample.tool_says "call_1" "5 C")))
  = [Direct.BToolResult "call_1" "5 C"].
Proof.
  exact (proj2 (@X18_tool_result_block Sample.runtime Sample.conv_start
                  (Sample.tool_says "call_1" "5 C") "call_1" "5 C"
                  eq_refl eq_refl ltac:(discriminate) eq_refl)).
Defined.


Lemma X25_aliases_are_listed_witness :
  Direct.getModelStatus Cli.KNOWN_MODELS "claude-haiku-3-5-20241022" = 200.
Proof.
  exact (proj1 (proj2 (X25_aliases_are_listed Sample.direct_cfg Sample.cli_cfg
                         "haiku" "claude-haiku-3-5-20241022"
                         ltac:(cbn; tauto) ltac:(cbn; tauto)))
               eq_refl).
Defined.

Lemma X26_one_sentinel_and_nothing_after_witness :
  sentinel_last
    (Cli.res (snd (@Cli.runStream Sample.runtime
                     (Sample.cli_two_lines
                      ++ [Cli.Close (Some 0); Cli.ProcError "late"; Cli.Close (Some 1)])
                     (fst Sample.cli_started, snd Sample.cli_started)))).
Proof.
  exact (@X26_one_sentinel_and_nothing_after Sample.runtime
           Sample.cli_cfg Sample.cli_stream_request 1700000000 0%nat
           Sample.idle (fst Sample.cli_started) (snd Sample.cli_started)
           (Sample.cli_two_lines
            ++ [Cli.Close (Some 0); Cli.ProcError "late"; Cli.Close (Some 1)])
           ltac:(vm_compute; reflexivity)).
Defined.

End MoreExamples.
